(** * Vesture backend: a shallow embedding of the social, catalogue and
      authentication logic, and the properties stated about it.

    The backend is a REST layer over a document store.  Each collection is
    modelled by the finite structure the code uses it as (users and posts
    are looked up by id, so they are finite maps; products, closet items
    and notifications are scanned or appended to, so they are lists in
    insertion order), and each controller or service function becomes a
    function from the store to a result and a new store.

    Conventions of the embedding.
    - An [ObjectId] is the 24 digit hexadecimal string the API exchanges;
      ids are in the canonical (lower case) form the store prints them in,
      so that comparing two ids and comparing their strings coincide.
    - Mongoose's array [includes], [$addToSet] and [$pull] compare ids by
      value.
    - A JavaScript number that the code only counts with is a [Z].
    - [await]ed store calls are taken to succeed; a validation failure of
      [Model.create] is modelled as the exception it raises. *)

From Stdlib Require Import ZArith String Ascii List Lia Bool.
From stdpp Require Import base option list gmap strings.

Open Scope string_scope.
Set Warnings "-register-all,-clear-no-such-hyp".

(** ** JavaScript values shared by the modules *)

Definition ObjectId : Type := string.

(** The JSON payload of a response. *)
Inductive Json : Type :=
  | JNull
  | JStr (s : string)
  | JNum (n : Z)
  | JArr (items : list Json)
  | JObj (fields : list (string * Json)).

(** [res.status(code).json(body)] *)
Record Response : Type := mkResponse { status : nat; body : Json }.

(** [{ message: m }] and [{ error: m }] *)
Definition json_message (m : string) : Json := JObj [("message", JStr m)].
Definition json_error (m : string) : Json := JObj [("error", JStr m)].

(** Truthiness of an optional string: [undefined], [null] and [''] are
    falsy. *)
Definition truthy (o : option string) : bool :=
  match o with
  | Some s => negb (String.eqb s "")
  | None => false
  end.

(** [a || b] on optional strings. *)
Definition or_else (a b : option string) : option string :=
  if truthy a then a else b.

(** [(n || 0)] on an optional counter. *)
Definition or_zero (n : option Z) : Z :=
  match n with
  | Some z => z
  | None => 0%Z
  end.

(** ** Users: models/User.ts, services/userService.ts and the follow and
       unfollow handlers of controllers/userController.ts *)

Module User.

(** The fields of [UserDocument] that follow and unfollow read or write,
    and [username], which the success message quotes.  The schema fills
    the counters with 0 and the lists with [[]]. *)
Record UserDocument : Type := mkUser {
  username : string;
  followerCount : option Z;
  followingCount : option Z;
  followers : list ObjectId;
  following : list ObjectId
}.

Definition set_following (l : list ObjectId) (c : option Z) (u : UserDocument) : UserDocument :=
  {| username := username u;
     followerCount := followerCount u;
     followingCount := c;
     followers := followers u;
     following := l |}.

Definition set_followers (l : list ObjectId) (c : option Z) (u : UserDocument) : UserDocument :=
  {| username := username u;
     followerCount := c;
     followingCount := followingCount u;
     followers := l;
     following := following u |}.

Definition set_username (n : string) (u : UserDocument) : UserDocument :=
  {| username := n;
     followerCount := followerCount u;
     followingCount := followingCount u;
     followers := followers u;
     following := following u |}.

(** The users collection, keyed by [_id]. *)
Abbreviation Users := (gmap ObjectId UserDocument).

(** [arr.filter(id => !id.equals(x))] *)
Definition without (x : ObjectId) (arr : list ObjectId) : list ObjectId :=
  filter (λ id, id ≠ x) arr.

(** [new User({ username, ... }).save()] with the id the driver
    generated for the document. *)
Definition createUser (_id : ObjectId) (name : string) (db : Users) : Users :=
  <[_id := mkUser name (Some 0%Z) (Some 0%Z) [] []]> db.

(** [updateUser]: [findByIdAndUpdate(id, { username, ... })]; of the
    modelled fields only [username] is written. *)
Definition updateUser (id : ObjectId) (name : string) (db : Users) : Users :=
  alter (set_username name) id db.

(** [deleteUser]: the document is removed, the lists of the other users
    are left as they are. *)
Definition deleteUser (id : ObjectId) (db : Users) : Users :=
  delete id db.

(** [followUserController] (userController.ts, lines 146-182): [userId]
    is [req.body.userId], [followUserId] is [req.params.id].  The two
    documents are distinct when they are saved, so saving them writes
    the two entries. *)
Definition followUserController (userId followUserId : ObjectId) (db : Users)
  : Response * Users :=
  if decide (userId = followUserId) then
    (mkResponse 400 (json_message "You cannot follow yourself"), db)
  else
    match db !! userId, db !! followUserId with
    | Some user, Some followUser =>
        if decide (followUserId ∈ following user) then
          (mkResponse 400 (json_message "You already follow this user"), db)
        else
          let user' :=
            set_following (following user ++ [followUserId])
              (Some (or_zero (followingCount user) + 1)%Z) user in
          let followUser' :=
            set_followers (followers followUser ++ [userId])
              (Some (or_zero (followerCount followUser) + 1)%Z) followUser in
          (mkResponse 200 (json_message ("You are now following " ++ username followUser)),
           <[followUserId := followUser']> (<[userId := user']> db))
    | _, _ => (mkResponse 404 (json_message "User not found"), db)
    end.

(** [unfollowUserController] (userController.ts, lines 185-221). *)
Definition unfollowUserController (userId unfollowUserId : ObjectId) (db : Users)
  : Response * Users :=
  if decide (userId = unfollowUserId) then
    (mkResponse 400 (json_message "You cannot unfollow yourself"), db)
  else
    match db !! userId, db !! unfollowUserId with
    | Some user, Some unfollowUser =>
        if decide (unfollowUserId ∉ following user) then
          (mkResponse 400 (json_message "You are not following this user"), db)
        else
          let user' :=
            set_following (without unfollowUserId (following user))
              (Some (Z.max 0 (or_zero (followingCount user) - 1))) user in
          let unfollowUser' :=
            set_followers (without userId (followers unfollowUser))
              (Some (Z.max 0 (or_zero (followerCount unfollowUser) - 1))) unfollowUser in
          (mkResponse 200 (json_message ("You have unfollowed " ++ username unfollowUser)),
           <[unfollowUserId := unfollowUser']> (<[userId := user']> db))
    | _, _ => (mkResponse 404 (json_message "User not found"), db)
    end.

(** The service functions of userService.ts return nothing or throw. *)
Inductive Outcome : Type :=
  | Returned
  | Thrown (msg : string).

(** [followUser] (userService.ts, lines 94-115).  Each [save] sends the
    paths its own document changed: the first one [following] and
    [followingCount], the second one [followers] and [followerCount],
    both computed from the documents as they were loaded. *)
Definition followUser (userId followUserId : ObjectId) (db : Users)
  : Outcome * Users :=
  match db !! userId, db !! followUserId with
  | Some user, Some followUser =>
      let db1 :=
        if decide (followUserId ∉ following user) then
          alter (set_following (following user ++ [followUserId])
                   (Some (or_zero (followingCount user) + 1)%Z)) userId db
        else db in
      let db2 :=
        if decide (userId ∉ followers followUser) then
          alter (set_followers (followers followUser ++ [userId])
                   (Some (or_zero (followerCount followUser) + 1)%Z)) followUserId db1
        else db1 in
      (Returned, db2)
  | _, _ => (Thrown "User not found", db)
  end.

(** [unfollowUser] (userService.ts, lines 118-135): no membership test
    before the lists are filtered and the counters decremented. *)
Definition unfollowUser (userId unfollowUserId : ObjectId) (db : Users)
  : Outcome * Users :=
  match db !! userId, db !! unfollowUserId with
  | Some user, Some unfollowUser =>
      let db1 :=
        alter (set_following (without unfollowUserId (following user))
                 (Some (Z.max 0 (or_zero (followingCount user) - 1)))) userId db in
      let db2 :=
        alter (set_followers (without userId (followers unfollowUser))
                 (Some (Z.max 0 (or_zero (followerCount unfollowUser) - 1)))) unfollowUserId db1 in
      (Returned, db2)
  | _, _ => (Thrown "User not found", db)
  end.

(** An id the driver has never handed out: no document has it and no
    list mentions it. *)
Definition fresh (id : ObjectId) (db : Users) : Prop :=
  db !! id = None ∧
  ∀ k u, db !! k = Some u → (id ∉ followers u) ∧ (id ∉ following u).

(** The stores the user routes produce from the empty collection. *)
Inductive reachable : Users → Prop :=
  | reach_empty : reachable ∅
  | reach_create id name db :
      reachable db → fresh id db → reachable (createUser id name db)
  | reach_update id name db :
      reachable db → reachable (updateUser id name db)
  | reach_delete id db :
      reachable db → reachable (deleteUser id db)
  | reach_follow a b db :
      reachable db → reachable (snd (followUserController a b db))
  | reach_unfollow a b db :
      reachable db → reachable (snd (unfollowUserController a b db)).

(** The counters of a document mirror its lists. *)
Definition counts_mirror (u : UserDocument) : Prop :=
  followerCount u = Some (Z.of_nat (length (followers u))) ∧
  followingCount u = Some (Z.of_nat (length (following u))).

(** What the user routes maintain about every stored document. *)
Record consistent (db : Users) : Prop := {
  cons_counts : ∀ a ua, db !! a = Some ua → counts_mirror ua;
  cons_nodup : ∀ a ua, db !! a = Some ua →
    NoDup (followers ua) ∧ NoDup (following ua);
  cons_noself : ∀ a ua, db !! a = Some ua →
    (a ∉ followers ua) ∧ (a ∉ following ua);
  cons_sym : ∀ a b ua ub, db !! a = Some ua → db !! b = Some ub →
    (b ∈ following ua ↔ a ∈ followers ub)
}.

End User.

(** ** Posts and notifications: models/OOTDPost.ts, models/Notification.ts,
       services/notificationService.ts, services/ootdPostService.ts and
       the interaction handlers of OOTDPostControllers.ts (found in
       src/Backend/src/controllers/userController.ts, whose line numbers
       are quoted below) *)

(** The double quote character, for the messages that quote a text. *)
Definition dquote : string := String (ascii_of_nat 34) EmptyString.

Module Notification.

Record NotificationDocument : Type := mkNotification {
  userId : ObjectId;
  type : string;
  relatedId : option ObjectId;
  isRead : bool;
  message : string;
  timestamp : Z
}.

(** What the callers pass to [createNotification]. *)
Record NotificationData : Type := mkData {
  data_userId : ObjectId;
  data_type : string;
  data_relatedId : option ObjectId;
  data_message : string
}.

(** [createNotification]: [Notification.create(data)]; the schema fills
    [isRead] with [false] and [timestamp] with the current time. *)
Definition createNotification (data : NotificationData) (now : Z)
    (coll : list NotificationDocument) : NotificationDocument * list NotificationDocument :=
  let doc := mkNotification (data_userId data) (data_type data)
               (data_relatedId data) false (data_message data) now in
  (doc, (coll ++ [doc])%list).

End Notification.

Module OOTDPost.

Record CommentDocument : Type := mkComment {
  comment_userId : ObjectId;
  text : string;
  comment_timestamp : Z
}.

Record OOTDPostDocument : Type := mkPost {
  userId : ObjectId;
  imageURL : string;
  caption : string;
  tags : list string;
  likes : list ObjectId;
  comments : list CommentDocument;
  mentions : list ObjectId;
  saves : list ObjectId;
  sharesCount : Z
}.

Definition set_likes (l : list ObjectId) (p : OOTDPostDocument) : OOTDPostDocument :=
  mkPost (userId p) (imageURL p) (caption p) (tags p) l
    (comments p) (mentions p) (saves p) (sharesCount p).

Definition set_saves (l : list ObjectId) (p : OOTDPostDocument) : OOTDPostDocument :=
  mkPost (userId p) (imageURL p) (caption p) (tags p) (likes p)
    (comments p) (mentions p) l (sharesCount p).

Definition set_comments (l : list CommentDocument) (p : OOTDPostDocument) : OOTDPostDocument :=
  mkPost (userId p) (imageURL p) (caption p) (tags p) (likes p)
    l (mentions p) (saves p) (sharesCount p).

Abbreviation Posts := (gmap ObjectId OOTDPostDocument).

(** The update operators of the store. *)

(** [$addToSet]: append unless already there. *)
Definition addToSet (x : ObjectId) (arr : list ObjectId) : list ObjectId :=
  if decide (x ∈ arr) then arr else arr ++ [x].

(** [$pull]: drop every occurrence. *)
Definition pull (x : ObjectId) (arr : list ObjectId) : list ObjectId :=
  filter (λ id, id ≠ x) arr.

(** [$push] *)
Definition push {A : Type} (x : A) (arr : list A) : list A := arr ++ [x].

(** [OOTDPost.findByIdAndUpdate(id, update, { new: true })]: the updated
    document, or [null] when no document has the id. *)
Definition findByIdAndUpdate (id : ObjectId)
    (update : OOTDPostDocument → OOTDPostDocument) (coll : Posts)
  : option OOTDPostDocument * Posts :=
  match coll !! id with
  | Some doc => (Some (update doc), <[id := update doc]> coll)
  | None => (None, coll)
  end.

(** [OOTDPost.create({ userId, imageURL, caption, tags })] as
    [createOOTDPostController] calls it: the interaction lists start
    empty. *)
Definition create (_id userId : ObjectId) (imageURL caption : string)
    (tags : list string) (coll : Posts) : Posts :=
  <[_id := mkPost userId imageURL caption tags [] [] [] [] 0]> coll.

(** *** services/ootdPostService.ts *)

Definition likeOOTDPost (postId userId : ObjectId) (coll : Posts) :=
  findByIdAndUpdate postId (λ p, set_likes (addToSet userId (likes p)) p) coll.

Definition unlikeOOTDPost (postId userId : ObjectId) (coll : Posts) :=
  findByIdAndUpdate postId (λ p, set_likes (pull userId (likes p)) p) coll.

Definition addComment (postId userId : ObjectId) (text : string) (now : Z) (coll : Posts) :=
  findByIdAndUpdate postId
    (λ p, set_comments (push (mkComment userId text now) (comments p)) p) coll.

Definition saveOOTDPost (postId userId : ObjectId) (coll : Posts) :=
  findByIdAndUpdate postId (λ p, set_saves (addToSet userId (saves p)) p) coll.

Definition unsaveOOTDPost (postId userId : ObjectId) (coll : Posts) :=
  findByIdAndUpdate postId (λ p, set_saves (pull userId (saves p)) p) coll.

(** *** OOTDPostControllers.ts *)

(** The handlers below take [userId] in the spelling the store prints (24
    hexadecimal digits, letters in lower case), for which the cast that
    an update applies to it changes nothing.  [Sent], further down, has
    the three notifying handlers on the string as the request sends
    it. *)

(** The two collections the interaction handlers touch. *)
Record Db : Type := mkDb {
  posts : Posts;
  notifications : list Notification.NotificationDocument
}.

Definition count (n : nat) : Json := JNum (Z.of_nat n).

Definition comment_json (c : CommentDocument) : Json :=
  JObj [("userId", JStr (comment_userId c)); ("text", JStr (text c));
        ("timestamp", JNum (comment_timestamp c))].

Definition not_found : Response :=
  mkResponse 404 (json_message "OOTD post not found").

(** [likeOOTDPostController] (lines 463-488). *)
Definition likeOOTDPostController (ootdPostId userId : ObjectId) (now : Z) (db : Db)
  : Response * Db :=
  match findByIdAndUpdate ootdPostId
          (λ p, set_likes (addToSet userId (likes p)) p) (posts db) with
  | (None, _) => (not_found, db)
  | (Some ootdPost, posts') =>
      let notifications' :=
        if decide (OOTDPost.userId ootdPost ≠ userId) then
          snd (Notification.createNotification
                 (Notification.mkData (OOTDPost.userId ootdPost) "like" (Some ootdPostId)
                    ("User " ++ userId ++ " liked your post."))
                 now (notifications db))
        else notifications db in
      (mkResponse 200
         (JObj [("message", JStr "Post liked successfully");
                ("likesCount", count (length (likes ootdPost)))]),
       mkDb posts' notifications')
  end.

(** [unlikeOOTDPostController] (lines 491-508). *)
Definition unlikeOOTDPostController (ootdPostId userId : ObjectId) (db : Db)
  : Response * Db :=
  match findByIdAndUpdate ootdPostId
          (λ p, set_likes (pull userId (likes p)) p) (posts db) with
  | (None, _) => (not_found, db)
  | (Some ootdPost, posts') =>
      (mkResponse 200
         (JObj [("message", JStr "Like removed successfully");
                ("likesCount", count (length (likes ootdPost)))]),
       mkDb posts' (notifications db))
  end.

(** [addCommentController] (lines 511-536). *)
Definition addCommentController (ootdPostId userId : ObjectId) (text : string)
    (now : Z) (db : Db) : Response * Db :=
  match findByIdAndUpdate ootdPostId
          (λ p, set_comments (push (mkComment userId text now) (comments p)) p)
          (posts db) with
  | (None, _) => (not_found, db)
  | (Some ootdPost, posts') =>
      let notifications' :=
        if decide (OOTDPost.userId ootdPost ≠ userId) then
          snd (Notification.createNotification
                 (Notification.mkData (OOTDPost.userId ootdPost) "comment" (Some ootdPostId)
                    ("User " ++ userId ++ " commented on your post: "
                       ++ dquote ++ text ++ dquote))
                 now (notifications db))
        else notifications db in
      (mkResponse 200
         (JObj [("message", JStr "Comment added successfully");
                ("comments", JArr (map comment_json (comments ootdPost)))]),
       mkDb posts' notifications')
  end.

(** [saveOOTDPostController] (lines 539-564). *)
Definition saveOOTDPostController (ootdPostId userId : ObjectId) (now : Z) (db : Db)
  : Response * Db :=
  match findByIdAndUpdate ootdPostId
          (λ p, set_saves (addToSet userId (saves p)) p) (posts db) with
  | (None, _) => (not_found, db)
  | (Some ootdPost, posts') =>
      let notifications' :=
        if decide (OOTDPost.userId ootdPost ≠ userId) then
          snd (Notification.createNotification
                 (Notification.mkData (OOTDPost.userId ootdPost) "save" (Some ootdPostId)
                    ("User " ++ userId ++ " saved your post."))
                 now (notifications db))
        else notifications db in
      (mkResponse 200
         (JObj [("message", JStr "Post saved successfully");
                ("savesCount", count (length (saves ootdPost)))]),
       mkDb posts' notifications')
  end.

(** [unsaveOOTDPostController] (lines 567-584). *)
Definition unsaveOOTDPostController (ootdPostId userId : ObjectId) (db : Db)
  : Response * Db :=
  match findByIdAndUpdate ootdPostId
          (λ p, set_saves (pull userId (saves p)) p) (posts db) with
  | (None, _) => (not_found, db)
  | (Some ootdPost, posts') =>
      (mkResponse 200
         (JObj [("message", JStr "Post unsaved successfully");
                ("savesCount", count (length (saves ootdPost)))]),
       mkDb posts' (notifications db))
  end.

(** The three requests that notify, as ootdPostRoutes.ts routes them:
    [POST /:id/like], [POST /:id/comment], [POST /:id/save]. *)
Inductive Interaction : Type :=
  | Like
  | Comment (text : string)
  | Save.

Definition route (act : Interaction) (ootdPostId userId : ObjectId) (now : Z) (db : Db)
  : Response * Db :=
  match act with
  | Like => likeOOTDPostController ootdPostId userId now db
  | Comment text => addCommentController ootdPostId userId text now db
  | Save => saveOOTDPostController ootdPostId userId now db
  end.

End OOTDPost.

(** ** Products: models/Product.ts, services/productService.ts and the
       upsert handler of controllers/productController.ts *)

Module Product.

(** The fields of a product as a request or a caller supplies them
    ([Partial<ProductDocument>]): any of them may be missing.  [price] is
    a number of which the code only tests presence and zero. *)
Record ProductData : Type := mkData {
  brand : option string;
  name : option string;
  type : option string;
  color : option string;
  season : option string;
  occasion : option string;
  price : option Z;
  availability : option string;
  link : option string;
  category : option string;
  tags : option (list string);
  image : option string;
  customImage : option string;
  source : option string
}.

(** A stored product: its id and the fields it holds. *)
Record ProductDocument : Type := mkProduct {
  _id : ObjectId;
  doc : ProductData
}.

(** The products collection in insertion order. *)
Abbreviation Products := (list ProductDocument).

(** [Product.findById(id)] *)
Definition findById (id : ObjectId) (coll : Products) : option ProductDocument :=
  List.find (λ p, bool_decide (_id p = id)) coll.

(** [Product.findOne(filter)]: the first document the filter accepts. *)
Definition findOne (filter : ProductData → bool) (coll : Products) : option ProductDocument :=
  List.find (λ p, filter (doc p)) coll.

(** A filter [{ field: value }] accepts a document whose field equals the
    value; a missing value is sent as [null] and accepts a missing
    field. *)
Definition by_name_brand (name' brand' : option string) (d : ProductData) : bool :=
  bool_decide (name d = name' ∧ brand d = brand').

Definition by_name_brand_type_color (name' brand' type' color' : option string)
    (d : ProductData) : bool :=
  bool_decide (name d = name' ∧ brand d = brand' ∧ type d = type' ∧ color d = color').

(** The schema's [required] validators: a required string must be there
    and not empty, a required number must be there. *)
Definition valid (d : ProductData) : bool :=
  truthy (brand d) && truthy (type d) && truthy (color d) &&
  bool_decide (is_Some (price d)) && truthy (link d) && truthy (image d) &&
  truthy (source d).

(** The schema's defaults: [name] is ['Untitled Item'] when not given. *)
Definition with_defaults (d : ProductData) : ProductData :=
  mkData (brand d)
    (match name d with Some n => Some n | None => Some "Untitled Item" end)
    (type d) (color d) (season d) (occasion d) (price d) (availability d)
    (link d) (category d)
    (match tags d with Some t => Some t | None => Some [] end)
    (image d) (customImage d) (source d).

(** [Product.create(data)] with the id the driver generated: the new
    document, or the validation error it raises (its text shortened). *)
Definition create (newId : ObjectId) (d : ProductData) (coll : Products)
  : (string + ProductDocument) * Products :=
  if valid d then
    let p := mkProduct newId (with_defaults d) in
    (inr p, (coll ++ [p])%list)
  else (inl "Product validation failed", coll).

(** A field of an update overrides the stored one when it is given. *)
Definition over {A : Type} (new old : option A) : option A :=
  match new with
  | Some _ => new
  | None => old
  end.

Definition apply_update (upd old : ProductData) : ProductData :=
  mkData (over (brand upd) (brand old)) (over (name upd) (name old))
    (over (type upd) (type old)) (over (color upd) (color old))
    (over (season upd) (season old)) (over (occasion upd) (occasion old))
    (over (price upd) (price old)) (over (availability upd) (availability old))
    (over (link upd) (link old)) (over (category upd) (category old))
    (over (tags upd) (tags old)) (over (image upd) (image old))
    (over (customImage upd) (customImage old)) (over (source upd) (source old)).

(** [Product.findByIdAndUpdate(id, data, { new: true })] *)
Fixpoint findByIdAndUpdate (id : ObjectId) (upd : ProductData) (coll : Products)
  : option ProductDocument * Products :=
  match coll with
  | [] => (None, [])
  | p :: rest =>
      if decide (_id p = id) then
        let p' := mkProduct (_id p) (apply_update upd (doc p)) in
        (Some p', p' :: rest)
      else
        let '(r, rest') := findByIdAndUpdate id upd rest in
        (r, p :: rest')
  end.

(** [upsertProductFromClarifai] (productService.ts, lines 87-102): look
    up by name and brand, update the match or create.  What the update
    returns is returned as it is ([updatedProduct!]); a failure of the
    creation is rethrown with the service's own message. *)
Definition upsertProductFromClarifai (newId : ObjectId) (clarifaiData : ProductData)
    (coll : Products) : (string + option ProductDocument) * Products :=
  match findOne (by_name_brand (name clarifaiData) (brand clarifaiData)) coll with
  | Some existingProduct =>
      let '(updatedProduct, coll') :=
        findByIdAndUpdate (_id existingProduct) clarifaiData coll in
      (inr updatedProduct, coll')
  | None =>
      match create newId clarifaiData coll with
      | (inr newProduct, coll') => (inr (Some newProduct), coll')
      | (inl _, _) => (inl "Failed to process Clarifai product data", coll)
      end
  end.

Definition opt_json (o : option string) : Json :=
  match o with
  | Some s => JStr s
  | None => JNull
  end.

Definition product_json (p : ProductDocument) : Json :=
  JObj [("_id", JStr (_id p)); ("brand", opt_json (brand (doc p)));
        ("name", opt_json (name (doc p))); ("type", opt_json (type (doc p)));
        ("color", opt_json (color (doc p))); ("link", opt_json (link (doc p)));
        ("image", opt_json (image (doc p))); ("source", opt_json (source (doc p)))].

(** [!price] *)
Definition truthy_number (o : option Z) : bool :=
  match o with
  | Some n => negb (n =? 0)%Z
  | None => false
  end.

(** [clarifaiProductData]: the document the handler builds from the
    fields it reads of the request, with its own [source]. *)
Definition clarifai_product (body : ProductData) : ProductData :=
  mkData (brand body) (name body) (type body) (color body) None None
    (price body) None (link body) (category body) (tags body) (image body)
    None (Some "Clarifai").

(** [upsertProductFromClarifaiController] (productController.ts, lines
    114-151): [body] is [req.body], of which the handler reads brand,
    name, type, color, price, link, category, tags and image. *)
Definition upsertProductFromClarifaiController (newId : ObjectId) (body : ProductData)
    (coll : Products) : Response * Products :=
  if negb (truthy (brand body)) || negb (truthy (name body)) || negb (truthy (type body))
     || negb (truthy (color body)) || negb (truthy_number (price body))
     || negb (truthy (link body)) then
    (mkResponse 400 (json_message "Missing required fields for Clarifai product."), coll)
  else
    match findOne (by_name_brand_type_color (name body) (brand body) (type body) (color body))
            coll with
    | Some existingProduct =>
        (mkResponse 200
           (JObj [("message", JStr "Product already exists");
                  ("product", product_json existingProduct)]), coll)
    | None =>
        let clarifaiProductData := clarifai_product body in
        match create newId clarifaiProductData coll with
        | (inr newProduct, coll') =>
            (mkResponse 201
               (JObj [("message", JStr "Product created from Clarifai data");
                      ("product", product_json newProduct)]), coll')
        | (inl err, _) => (mkResponse 500 (json_error err), coll)
        end
    end.

(** The requests that pass the handler's test for required fields. *)
Definition has_required_fields (body : ProductData) : bool :=
  truthy (brand body) && truthy (name body) && truthy (type body) &&
  truthy (color body) && truthy_number (price body) && truthy (link body).

(** The stored products with a given name and brand. *)
Definition with_name_brand (n b : string) (coll : Products) : Products :=
  List.filter (λ p, by_name_brand (Some n) (Some b) (doc p)) coll.

(** The stored products with a given name, brand, type and colour. *)
Definition with_key (n b t c : string) (coll : Products) : Products :=
  List.filter (λ p, by_name_brand_type_color (Some n) (Some b) (Some t) (Some c) (doc p)) coll.

End Product.

(** ** Closet items: models/ClosetItem.ts and [createClosetItem] of
       services/closetItemService.ts *)

Module ClosetItem.

(** [Partial<ClosetItemDocument>]: what a caller passes in. *)
Record ClosetItemData : Type := mkData {
  userId : option ObjectId;
  productId : option ObjectId;
  name : option string;
  type : option string;
  color : option string;
  season : option string;
  occasion : option string;
  tags : option (list string);
  customImage : option string
}.

Record ClosetItemDocument : Type := mkItem {
  _id : ObjectId;
  doc : ClosetItemData
}.

Abbreviation Closet := (list ClosetItemDocument).

(** The schema's [required] validators. *)
Definition valid (d : ClosetItemData) : bool :=
  truthy (userId d) && truthy (type d) && truthy (color d) &&
  truthy (season d) && truthy (occasion d).

(** The schema's defaults: an empty [tags] array. *)
Definition with_defaults (d : ClosetItemData) : ClosetItemData :=
  mkData (userId d) (productId d) (name d) (type d) (color d) (season d) (occasion d)
    (match tags d with Some t => Some t | None => Some [] end)
    (customImage d).

(** [ClosetItem.create(data)] *)
Definition create (newId : ObjectId) (d : ClosetItemData) (coll : Closet)
  : (string + ClosetItemDocument) * Closet :=
  if valid d then
    let item := mkItem newId (with_defaults d) in
    (inr item, (coll ++ [item])%list)
  else (inl "ClosetItem validation failed", coll).

(** The object spread of lines 31-39: the request's fields, with the six
    descriptive ones taken from the product when it has them. *)
Definition populate (product : Product.ProductData) (closetItemData : ClosetItemData)
  : ClosetItemData :=
  mkData (userId closetItemData) (productId closetItemData)
    (or_else (Product.name product) (name closetItemData))
    (or_else (Product.type product) (type closetItemData))
    (or_else (Product.color product) (color closetItemData))
    (or_else (Product.season product) (season closetItemData))
    (or_else (Product.occasion product) (occasion closetItemData))
    (tags closetItemData)
    (or_else (Product.image product) (customImage closetItemData)).

(** [createClosetItem] (closetItemService.ts, lines 23-50).  Whatever is
    thrown inside the [try] is rethrown as ['Failed to create closet
    item']. *)
Definition createClosetItem (newId : ObjectId) (closetItemData : ClosetItemData)
    (products : list Product.ProductDocument) (coll : Closet)
  : (string + ClosetItemDocument) * Closet :=
  let prepared : string + ClosetItemData :=
    if truthy (productId closetItemData) then
      match Product.findById (default "" (productId closetItemData)) products with
      | None => inl "Product not found"
      | Some product => inr (populate (Product.doc product) closetItemData)
      end
    else if negb (truthy (name closetItemData)) then
      inl "Custom item requires a 'name' field"
    else inr closetItemData in
  match prepared with
  | inl _ => (inl "Failed to create closet item", coll)
  | inr data =>
      match create newId data coll with
      | (inr newClosetItem, coll') => (inr newClosetItem, coll')
      | (inl _, _) => (inl "Failed to create closet item", coll)
      end
  end.

End ClosetItem.

(** ** Authentication: middleware/authToken.ts *)

Module AuthToken.

(** The payload [{ userId }] that is signed, the options it is signed
    with, and the field of the decoded token that the middleware reads. *)
Record Payload : Type := mkPayload { userId : string }.
Record SignOptions : Type := mkOptions { expiresIn : string }.
Record Decoded : Type := mkDecoded { decoded_userId : option string }.

(** The errors [jwt.verify] reports. *)
Inductive VerifyError : Type :=
  | TokenExpiredError
  | JsonWebTokenError (reason : string).

(** The [jsonwebtoken] package, which is not part of the repository.
    Time is the clock the package reads, in seconds.  [span_seconds] is
    its reading of a time span such as ['1h']. *)
Class JwtLibrary : Type := {
  sign : Payload → string → SignOptions → Z → string;
  verify : option string → string → Z → VerifyError + Decoded;
  span_seconds : string → Z
}.

(** What the package documents: a token signed at [t] with
    [expiresIn: span] verifies under the same secret, and decodes to its
    payload, at every later time before [t + span]; from then on it is
    expired.  ['1h'] is 3600 seconds. *)
Record JwtContract (lib : JwtLibrary) : Prop := {
  verify_signed : ∀ (p : Payload) (secret : string) (o : SignOptions) (t t' : Z),
    (0 ≤ t)%Z → (t ≤ t')%Z →
    verify (Some (sign p secret o t)) secret t' =
      if (t' <? t + span_seconds (expiresIn o))%Z
      then inr (mkDecoded (Some (userId p)))
      else inl TokenExpiredError;
  one_hour : span_seconds "1h" = 3600%Z
}.

(** [process.env.JWT_SECRET || 'default_secret_key'] *)
Definition JWT_SECRET (env_JWT_SECRET : option string) : string :=
  default "default_secret_key"
    (or_else env_JWT_SECRET (Some "default_secret_key")).

(** [generateToken] (authToken.ts, lines 30-32), at clock time [now]. *)
Definition generateToken `{JwtLibrary} (env : option string) (userId : string) (now : Z)
  : string :=
  sign (mkPayload userId) (JWT_SECRET env) (mkOptions "1h") now.

(** The parts of a request the middleware reads or writes:
    [req.headers.authorization] and [req.body.userId]. *)
Record Request : Type := mkRequest {
  authorization : option string;
  body_userId : option string
}.

(** The middleware either answers or hands the request on. *)
Inductive Handled : Type :=
  | Responded (res : Response)
  | Next (req : Request).

(** [s.split(c)] for a one character separator. *)
Fixpoint split (c : ascii) (s : string) : list string :=
  match s with
  | EmptyString => [EmptyString]
  | String a rest =>
      if Ascii.eqb a c then EmptyString :: split c rest
      else
        match split c rest with
        | [] => [String a EmptyString]
        | w :: ws => String a w :: ws
        end
  end.

(** [authHeader.split(' ')[1]] *)
Definition bearer_token (authHeader : string) : option string :=
  split " " authHeader !! 1%nat.

(** [verifyToken] (authToken.ts, lines 35-55), at clock time [now]. *)
Definition verifyToken `{JwtLibrary} (env : option string) (req : Request) (now : Z)
  : Handled :=
  if negb (truthy (authorization req)) then
    Responded (mkResponse 401 (json_message "No token provided"))
  else
    let token := bearer_token (default "" (authorization req)) in
    match verify token (JWT_SECRET env) now with
    | inl err => Responded (mkResponse 403 (json_message "Failed to authenticate token"))
    | inr decoded => Next (mkRequest (authorization req) (decoded_userId decoded))
    end.

(** A string without a space. *)
Fixpoint no_space (s : string) : bool :=
  match s with
  | EmptyString => true
  | String a rest => negb (Ascii.eqb a " ") && no_space rest
  end.

End AuthToken.

(** A stand-in for the package, to show that the contract can be met: a
    token is the expiry time in unary, a dot, and the user id. *)
Module ToyJwt.

Fixpoint unary (n : nat) : string :=
  match n with
  | O => EmptyString
  | S n' => String "x" (unary n')
  end.

Fixpoint read_unary (s : string) : nat * string :=
  match s with
  | String a rest =>
      if Ascii.eqb a "x" then
        let '(n, rest') := read_unary rest in (S n, rest')
      else (O, s)
  | EmptyString => (O, s)
  end.

Definition toy_sign (p : AuthToken.Payload) (secret : string)
    (o : AuthToken.SignOptions) (t : Z) : string :=
  unary (Z.to_nat (t + 3600)) ++ String "." (AuthToken.userId p).

Definition toy_verify (token : option string) (secret : string) (t' : Z)
  : AuthToken.VerifyError + AuthToken.Decoded :=
  match token with
  | None => inl (AuthToken.JsonWebTokenError "jwt must be provided")
  | Some s =>
      match read_unary s with
      | (n, String a uid) =>
          if Ascii.eqb a "." then
            if (t' <? Z.of_nat n)%Z then inr (AuthToken.mkDecoded (Some uid))
            else inl AuthToken.TokenExpiredError
          else inl (AuthToken.JsonWebTokenError "jwt malformed")
      | (_, EmptyString) => inl (AuthToken.JsonWebTokenError "jwt malformed")
      end
  end.

Definition toy : AuthToken.JwtLibrary :=
  {| AuthToken.sign := toy_sign;
     AuthToken.verify := toy_verify;
     AuthToken.span_seconds := λ _, 3600%Z |}.

End ToyJwt.

(** ** Accounts: registration, login, profile and deletion in
       userService.ts and UserControllers.ts, and the protected routes of
       userRoutes.ts *)

Module Account.

(** The fields of [UserDocument] that registration, login and the profile
    handlers read or write.  The collection is scanned by email, so it is
    a list in insertion order. *)
Record UserDocument : Type := mkUser {
  _id : ObjectId;
  username : string;
  email : string;
  passwordHash : string;
  bio : option string;
  profilePhoto : option string;
  website : option string
}.

Abbreviation Users := (list UserDocument).

(** The [bcrypt] package, which is not part of the repository. *)
Class Bcrypt : Type := {
  bcrypt_hash : string → nat → string;
  bcrypt_compare : string → string → bool
}.

(** What the package documents: a password matches its own hash. *)
Definition BcryptContract (lib : Bcrypt) : Prop :=
  ∀ (password : string) (rounds : nat),
    bcrypt_compare password (bcrypt_hash password rounds) = true.

(** [getUserByEmail] (userService.ts, lines 59-61): [User.findOne({ email })]. *)
Definition getUserByEmail (email' : option string) (coll : Users) : option UserDocument :=
  List.find (λ u, bool_decide (Some (email u) = email')) coll.

(** [getUserById] (userService.ts, lines 45-56). *)
Definition getUserById (id : ObjectId) (coll : Users) : option UserDocument :=
  List.find (λ u, bool_decide (_id u = id)) coll.

(** [createUser] (userService.ts, lines 28-31): [new User({ username,
    email, passwordHash }).save()] with the id the driver generated.  The
    three fields are required and [email] has a unique index; the schema
    fills [bio] and [website] with [''] and [profilePhoto] with [null].
    The texts of the errors are shortened. *)
Definition createUser (newId : ObjectId) (username' email' passwordHash' : string)
    (coll : Users) : (string + UserDocument) * Users :=
  if String.eqb username' "" || String.eqb email' "" || String.eqb passwordHash' "" then
    (inl "User validation failed", coll)
  else if bool_decide (email' ∈ map email coll) then
    (inl "E11000 duplicate key error", coll)
  else
    let newUser := mkUser newId username' email' passwordHash' (Some "") None (Some "") in
    (inr newUser, (coll ++ [newUser])%list).

Definition opt_json (o : option string) : Json :=
  match o with
  | Some s => JStr s
  | None => JNull
  end.

(** A user document as a response carries it. *)
Definition user_json (u : UserDocument) : Json :=
  JObj [("_id", JStr (_id u)); ("username", JStr (username u)); ("email", JStr (email u));
        ("passwordHash", JStr (passwordHash u)); ("bio", opt_json (bio u));
        ("profilePhoto", opt_json (profilePhoto u)); ("website", opt_json (website u))].

(** [createUserController] (userController.ts, lines 35-60). *)
Definition createUserController `{Bcrypt} `{AuthToken.JwtLibrary}
    (env : option string) (newId : ObjectId) (username' email' password : option string)
    (now : Z) (coll : Users) : Response * Users :=
  if negb (truthy username') || negb (truthy email') || negb (truthy password) then
    (mkResponse 400 (json_message "Missing required fields"), coll)
  else
    match getUserByEmail email' coll with
    | Some existingUser => (mkResponse 400 (json_message "User already exists"), coll)
    | None =>
        let hashedPassword := bcrypt_hash (default "" password) 10 in
        match createUser newId (default "" username') (default "" email') hashedPassword coll with
        | (inl err, _) => (mkResponse 500 (json_error err), coll)
        | (inr newUser, coll') =>
            let userId := _id newUser in
            let token := AuthToken.generateToken env userId now in
            (mkResponse 201
               (JObj [("message", JStr "New user created"); ("user", user_json newUser);
                      ("token", JStr token)]),
             coll')
        end
    end.

(** [loginController] (userController.ts, lines 63-84), for a request
    that carries a password. *)
Definition loginController `{Bcrypt} `{AuthToken.JwtLibrary}
    (env : option string) (email' : option string) (password : string)
    (now : Z) (coll : Users) : Response :=
  match getUserByEmail email' coll with
  | None => mkResponse 401 (json_message "Invalid email or password")
  | Some user =>
      if negb (bcrypt_compare password (passwordHash user)) then
        mkResponse 401 (json_message "Invalid email or password")
      else
        let token := AuthToken.generateToken env (_id user) now in
        mkResponse 200 (JObj [("message", JStr "Login successful"); ("token", JStr token)])
  end.

(** [user.save()] of a loaded document: the stored document with that id
    is replaced. *)
Fixpoint save (u : UserDocument) (coll : Users) : Users :=
  match coll with
  | [] => []
  | v :: rest => if decide (_id v = _id u) then u :: rest else v :: save u rest
  end.

Definition set_profile (bio' profilePhoto' website' : option string) (u : UserDocument)
  : UserDocument :=
  mkUser (_id u) (username u) (email u) (passwordHash u) bio' profilePhoto' website'.

(** [addProfileController] (userController.ts, lines 224-244): a field is
    written only when the stored one is empty and the request has one. *)
Definition addProfileController (id : ObjectId) (bio' profilePhoto' website' : option string)
    (coll : Users) : Response * Users :=
  match getUserById id coll with
  | None => (mkResponse 404 (json_message "User not found"), coll)
  | Some user =>
      let user1 :=
        if negb (truthy (bio user)) && truthy bio'
        then set_profile bio' (profilePhoto user) (website user) user else user in
      let user2 :=
        if negb (truthy (profilePhoto user1)) && truthy profilePhoto'
        then set_profile (bio user1) profilePhoto' (website user1) user1 else user1 in
      let user3 :=
        if negb (truthy (website user2)) && truthy website'
        then set_profile (bio user2) (profilePhoto user2) website' user2 else user2 in
      (mkResponse 200
         (JObj [("message", JStr "Profile information added"); ("user", user_json user3)]),
       save user3 coll)
  end.

(** The document [addProfileController] saves, in one step. *)
Definition added (bio' profilePhoto' website' : option string) (user : UserDocument)
  : UserDocument :=
  set_profile
    (if negb (truthy (bio user)) && truthy bio' then bio' else bio user)
    (if negb (truthy (profilePhoto user)) && truthy profilePhoto'
     then profilePhoto' else profilePhoto user)
    (if negb (truthy (website user)) && truthy website' then website' else website user)
    user.

(** [removeProfileController] (userController.ts, lines 264-283). *)
Definition removeProfileController (id : ObjectId) (coll : Users) : Response * Users :=
  match getUserById id coll with
  | None => (mkResponse 404 (json_message "User not found"), coll)
  | Some user =>
      let user' := set_profile (Some "") None (Some "") user in
      (mkResponse 200
         (JObj [("message", JStr "Profile information removed"); ("user", user_json user')]),
       save user' coll)
  end.

(** [removeProfilePhotoController] (userController.ts, lines 303-319). *)
Definition removeProfilePhotoController (id : ObjectId) (coll : Users) : Response * Users :=
  match getUserById id coll with
  | None => (mkResponse 404 (json_message "User not found"), coll)
  | Some user =>
      let user' := set_profile (bio user) None (website user) user in
      (mkResponse 200
         (JObj [("message", JStr "Profile photo removed"); ("user", user_json user')]),
       save user' coll)
  end.

(** [deleteUser] (userService.ts, lines 79-91): the deleted document; a
    missing document makes the [try] throw, and whatever is thrown is
    rethrown as ['Failed to delete user'].  The declared result allows
    [null]. *)
Definition deleteUser (id : ObjectId) (coll : Users)
  : (string + option UserDocument) * Users :=
  match getUserById id coll with
  | None => (inl "Failed to delete user", coll)
  | Some user =>
      (inr (Some user), List.filter (λ u, negb (bool_decide (_id u = _id user))) coll)
  end.

(** [deleteUserController] (userController.ts, lines 130-143). *)
Definition deleteUserController (userId : ObjectId) (coll : Users) : Response * Users :=
  match deleteUser userId coll with
  | (inl err, _) => (mkResponse 500 (json_error err), coll)
  | (inr None, coll') => (mkResponse 404 (json_message "User not found"), coll')
  | (inr (Some deletedUser), coll') =>
      (mkResponse 200
         (JObj [("message", JStr "User deleted successfully"); ("user", user_json deletedUser)]),
       coll')
  end.

(** A handler behind [verifyToken], as userRoutes.ts mounts the delete
    and the profile handlers.  None of them reads [req.body.userId]. *)
Definition protected `{AuthToken.JwtLibrary} (env : option string)
    (handler : Users → Response * Users)
    (req : AuthToken.Request) (now : Z) (coll : Users) : Response * Users :=
  match AuthToken.verifyToken env req now with
  | AuthToken.Responded res => (res, coll)
  | AuthToken.Next _ => handler coll
  end.

(** [router.delete('/:id', verifyToken, deleteUserController)] *)
Definition delete_route `{AuthToken.JwtLibrary} (env : option string) (id : ObjectId)
    (req : AuthToken.Request) (now : Z) (coll : Users) : Response * Users :=
  protected env (deleteUserController id) req now coll.

(** [router.post('/:id/profile', verifyToken, addProfileController)] *)
Definition add_profile_route `{AuthToken.JwtLibrary} (env : option string) (id : ObjectId)
    (bio' profilePhoto' website' : option string)
    (req : AuthToken.Request) (now : Z) (coll : Users) : Response * Users :=
  protected env (addProfileController id bio' profilePhoto' website') req now coll.

End Account.

(** ** The other post handlers of OOTDPostControllers.ts (line numbers
       of src/Backend/src/controllers/userController.ts) and services of
       ootdPostService.ts *)

Module OOTDPostCrud.

Definition post_json (id : ObjectId) (p : OOTDPost.OOTDPostDocument) : Json :=
  JObj [("_id", JStr id); ("userId", JStr (OOTDPost.userId p));
        ("imageURL", JStr (OOTDPost.imageURL p)); ("caption", JStr (OOTDPost.caption p));
        ("tags", JArr (map JStr (OOTDPost.tags p)));
        ("likes", JArr (map JStr (OOTDPost.likes p)));
        ("comments", JArr (map OOTDPost.comment_json (OOTDPost.comments p)));
        ("saves", JArr (map JStr (OOTDPost.saves p)))].

(** [getOOTDPostCounts] (ootdPostService.ts, lines 162-176). *)
Definition getOOTDPostCounts (postId : ObjectId) (coll : OOTDPost.Posts)
  : option (nat * nat * nat) :=
  match coll !! postId with
  | None => None
  | Some ootdPost =>
      Some (length (OOTDPost.likes ootdPost), length (OOTDPost.saves ootdPost),
            length (OOTDPost.comments ootdPost))
  end.

(** [getOOTDPostCountsController] (lines 587-602). *)
Definition getOOTDPostCountsController (ootdPostId : ObjectId) (db : OOTDPost.Db)
  : Response :=
  match OOTDPost.posts db !! ootdPostId with
  | None => OOTDPost.not_found
  | Some ootdPost =>
      mkResponse 200
        (JObj [("likesCount", OOTDPost.count (length (OOTDPost.likes ootdPost)));
               ("savesCount", OOTDPost.count (length (OOTDPost.saves ootdPost)));
               ("commentsCount", OOTDPost.count (length (OOTDPost.comments ootdPost)))])
  end.

(** [getOOTDPostByIdController] (lines 418-430). *)
Definition getOOTDPostByIdController (ootdPostId : ObjectId) (db : OOTDPost.Db)
  : Response :=
  match OOTDPost.posts db !! ootdPostId with
  | None => OOTDPost.not_found
  | Some ootdPost => mkResponse 200 (JObj [("ootdPost", post_json ootdPostId ootdPost)])
  end.

(** [deleteOOTDPostController] (lines 448-460): [findByIdAndDelete]. *)
Definition deleteOOTDPostController (ootdPostId : ObjectId) (db : OOTDPost.Db)
  : Response * OOTDPost.Db :=
  match OOTDPost.posts db !! ootdPostId with
  | None => (OOTDPost.not_found, db)
  | Some deletedOOTDPost =>
      (mkResponse 200 (json_message "OOTD post deleted successfully"),
       OOTDPost.mkDb (delete ootdPostId (OOTDPost.posts db)) (OOTDPost.notifications db))
  end.

(** [deleteOOTDPost] (ootdPostService.ts, lines 72-84): throws for a
    missing post, and rethrows with its own message. *)
Definition deleteOOTDPost (id : ObjectId) (coll : OOTDPost.Posts)
  : (string + option OOTDPost.OOTDPostDocument) * OOTDPost.Posts :=
  match coll !! id with
  | None => (inl "Failed to delete OOTD post", coll)
  | Some ootdPost => (inr (Some ootdPost), delete id coll)
  end.

(** The body of a request to create a post. *)
Record CreateBody : Type := mkBody {
  body_userId : option ObjectId;
  body_imageURL : option string;
  body_caption : option string;
  body_tags : option (list string);
  body_products : option (list Product.ProductData)
}.

(** The posts and the product catalogue. *)
Record Db : Type := mkDb {
  posts : OOTDPost.Posts;
  products : list Product.ProductDocument
}.

(** The product document built for a listed product (lines 367-377). *)
Definition user_created (product : Product.ProductData) (imageURL : option string)
    (tags : option (list string)) : Product.ProductData :=
  Product.mkData (Product.brand product)
    (or_else (Product.name product) (Some "Untitled Item"))
    (Product.type product) (Product.color product) None None
    (Product.price product) None (Product.link product) None tags imageURL
    None (Some "UserCreated").

(** The test of line 366. *)
Definition listed_in_full (product : Product.ProductData) : bool :=
  truthy (Product.brand product) && truthy (Product.type product) &&
  truthy (Product.color product) && Product.truthy_number (Product.price product) &&
  truthy (Product.link product).

(** The loop of lines 364-381: each product that is listed in full is
    created, with the next id of the driver; a failed creation throws and
    leaves what was created before it. *)
Fixpoint create_products (ids : nat → ObjectId) (k : nat)
    (imageURL : option string) (tags : option (list string))
    (listed : list Product.ProductData)
    (created : list Product.ProductDocument) (coll : list Product.ProductDocument)
  : (string + list Product.ProductDocument) * list Product.ProductDocument :=
  match listed with
  | [] => (inr created, coll)
  | product :: rest =>
      if listed_in_full product then
        match Product.create (ids k) (user_created product imageURL tags) coll with
        | (inr newProduct, coll') =>
            create_products ids (S k) imageURL tags rest (created ++ [newProduct]) coll'
        | (inl err, _) => (inl err, coll)
        end
      else create_products ids k imageURL tags rest created coll
  end.

(** [createOOTDPostController] (lines 357-390).  [OOTDPost.create]
    requires [userId] and [imageURL]; iterating over a missing [products]
    throws after the post has been created. *)
Definition createOOTDPostController (newId : ObjectId) (ids : nat → ObjectId)
    (body : CreateBody) (db : Db) : Response * Db :=
  if negb (truthy (body_userId body)) || negb (truthy (body_imageURL body)) then
    (mkResponse 500 (json_error "OOTDPost validation failed"), db)
  else
    let posts' :=
      OOTDPost.create newId (default "" (body_userId body)) (default "" (body_imageURL body))
        (default "" (body_caption body)) (default [] (body_tags body)) (posts db) in
    match body_products body with
    | None => (mkResponse 500 (json_error "products is not iterable"), mkDb posts' (products db))
    | Some listed =>
        match create_products ids 0 (body_imageURL body) (body_tags body) listed []
                (products db) with
        | (inl err, products') => (mkResponse 500 (json_error err), mkDb posts' products')
        | (inr createdProducts, products') =>
            (mkResponse 201
               (JObj [("message", JStr "OOTD post created successfully");
                      ("ootdPost", post_json newId
                         (OOTDPost.mkPost (default "" (body_userId body))
                            (default "" (body_imageURL body)) (default "" (body_caption body))
                            (default [] (body_tags body)) [] [] [] [] 0));
                      ("createdProducts",
                       match createdProducts with
                       | [] => JStr "No products were added to the catalog"
                       | _ => JArr (map Product.product_json createdProducts)
                       end)]),
             mkDb posts' products')
        end
    end.

End OOTDPostCrud.

(** ** The other product services and handlers: productService.ts and
       ProductControllers.ts *)

Module ProductCrud.

(** [createProduct] (productService.ts, lines 22-30). *)
Definition createProduct (newId : ObjectId) (productData : Product.ProductData)
    (coll : list Product.ProductDocument)
  : (string + Product.ProductDocument) * list Product.ProductDocument :=
  match Product.create newId productData coll with
  | (inr newProduct, coll') => (inr newProduct, coll')
  | (inl _, _) => (inl "Failed to create product", coll)
  end.

(** [createProductController] (productController.ts, lines 27-34). *)
Definition createProductController (newId : ObjectId) (body : Product.ProductData)
    (coll : list Product.ProductDocument) : Response * list Product.ProductDocument :=
  match Product.create newId body coll with
  | (inr newProduct, coll') =>
      (mkResponse 201
         (JObj [("message", JStr "Product created successfully");
                ("product", Product.product_json newProduct)]), coll')
  | (inl err, _) => (mkResponse 500 (json_error err), coll)
  end.

(** [getProductById] (productService.ts, lines 47-55). *)
Definition getProductById (id : ObjectId) (coll : list Product.ProductDocument)
  : option Product.ProductDocument :=
  Product.findById id coll.

(** [getProductByIdController] (productController.ts, lines 66-79). *)
Definition getProductByIdController (productId : ObjectId)
    (coll : list Product.ProductDocument) : Response :=
  match Product.findById productId coll with
  | None => mkResponse 404 (json_message "Product not found")
  | Some product => mkResponse 200 (JObj [("product", Product.product_json product)])
  end.

(** [updateProduct] (productService.ts, lines 58-69). *)
Definition updateProduct (id : ObjectId) (productData : Product.ProductData)
    (coll : list Product.ProductDocument)
  : option Product.ProductDocument * list Product.ProductDocument :=
  Product.findByIdAndUpdate id productData coll.

(** [updateProductController] (productController.ts, lines 82-95). *)
Definition updateProductController (productId : ObjectId) (body : Product.ProductData)
    (coll : list Product.ProductDocument) : Response * list Product.ProductDocument :=
  match Product.findByIdAndUpdate productId body coll with
  | (None, coll') => (mkResponse 404 (json_message "Product not found"), coll')
  | (Some updatedProduct, coll') =>
      (mkResponse 200
         (JObj [("message", JStr "Product updated successfully");
                ("product", Product.product_json updatedProduct)]), coll')
  end.

(** [Product.findByIdAndDelete(id)]: the first document with the id is
    removed and returned. *)
Fixpoint findByIdAndDelete (id : ObjectId) (coll : list Product.ProductDocument)
  : option Product.ProductDocument * list Product.ProductDocument :=
  match coll with
  | [] => (None, [])
  | p :: rest =>
      if decide (Product._id p = id) then (Some p, rest)
      else
        let '(r, rest') := findByIdAndDelete id rest in
        (r, p :: rest')
  end.

(** [deleteProduct] (productService.ts, lines 72-84). *)
Definition deleteProduct (id : ObjectId) (coll : list Product.ProductDocument)
  : (string + option Product.ProductDocument) * list Product.ProductDocument :=
  match Product.findById id coll with
  | None => (inl "Failed to delete product", coll)
  | Some product => (inr (Some product), snd (findByIdAndDelete (Product._id product) coll))
  end.

(** [deleteProductController] (productController.ts, lines 98-111). *)
Definition deleteProductController (productId : ObjectId)
    (coll : list Product.ProductDocument) : Response * list Product.ProductDocument :=
  match findByIdAndDelete productId coll with
  | (None, coll') => (mkResponse 404 (json_message "Product not found"), coll')
  | (Some deletedProduct, coll') =>
      (mkResponse 200
         (JObj [("message", JStr "Product deleted successfully");
                ("product", Product.product_json deletedProduct)]), coll')
  end.

End ProductCrud.

(** ** The closet route: [iOwnThisProductController] of
       closetItemController.ts (line numbers of
       src/Backend/src/controllers/notificationController.ts) and the
       other services of closetItemService.ts *)

Module ClosetRoutes.

(** What the handler reads of [req.body]. *)
Record Body : Type := mkBody {
  productId : option ObjectId;
  name : option string;
  type : option string;
  color : option string;
  season : option string;
  occasion : option string;
  tags : option (list string);
  customImage : option string;
  userId : option ObjectId
}.

Definition item_json (i : ClosetItem.ClosetItemDocument) : Json :=
  JObj [("_id", JStr (ClosetItem._id i));
        ("userId", Product.opt_json (ClosetItem.userId (ClosetItem.doc i)));
        ("productId", Product.opt_json (ClosetItem.productId (ClosetItem.doc i)));
        ("name", Product.opt_json (ClosetItem.name (ClosetItem.doc i)));
        ("type", Product.opt_json (ClosetItem.type (ClosetItem.doc i)));
        ("color", Product.opt_json (ClosetItem.color (ClosetItem.doc i)));
        ("season", Product.opt_json (ClosetItem.season (ClosetItem.doc i)));
        ("occasion", Product.opt_json (ClosetItem.occasion (ClosetItem.doc i)));
        ("customImage", Product.opt_json (ClosetItem.customImage (ClosetItem.doc i)))].

(** [iOwnThisProductController] (lines 164-215). *)
Definition iOwnThisProductController (newId : ObjectId) (body : Body)
    (products : list Product.ProductDocument) (coll : ClosetItem.Closet)
  : Response * ClosetItem.Closet :=
  if negb (truthy (season body)) || negb (truthy (occasion body)) then
    (mkResponse 400
       (json_message
          "Fields 'season' and 'occasion' are required and must be provided by the user."),
     coll)
  else
    let closetItemData :=
      ClosetItem.mkData (userId body) None None (type body) (color body) (season body)
        (occasion body) (tags body) (customImage body) in
    let prepared : Response + ClosetItem.ClosetItemData :=
      if truthy (productId body) then
        match Product.findById (default "" (productId body)) products with
        | None => inl (mkResponse 404 (json_message "Product not found"))
        | Some product =>
            inr (ClosetItem.mkData (userId body) (productId body)
                   (or_else (Product.name (Product.doc product)) (name body))
                   (or_else (Product.type (Product.doc product)) (type body))
                   (color body) (season body) (occasion body) (tags body)
                   (or_else (Product.image (Product.doc product)) (customImage body)))
        end
      else if truthy (name body) then
        inr (ClosetItem.mkData (userId body) None (name body) (type body) (color body)
               (season body) (occasion body) (tags body) (customImage body))
      else
        inl (mkResponse 400
               (json_message
                  "Either productId or custom item details (including name) must be provided"))
    in
    match prepared with
    | inl res => (res, coll)
    | inr data =>
        match ClosetItem.createClosetItem newId data products coll with
        | (inr newClosetItem, coll') =>
            (mkResponse 201
               (JObj [("message", JStr "Item added to closet successfully");
                      ("closetItem", item_json newClosetItem)]), coll')
        | (inl err, coll') => (mkResponse 500 (json_error err), coll')
        end
    end.

(** A query of [getAllClosetItems], on the fields compared for equality. *)
Record Query : Type := mkQuery {
  q_userId : option ObjectId;
  q_type : option string;
  q_season : option string;
  q_occasion : option string
}.

Definition query_field (q : option string) (stored : option string) : bool :=
  match q with
  | None => true
  | Some v => bool_decide (stored = Some v)
  end.

Definition matches (q : Query) (d : ClosetItem.ClosetItemData) : bool :=
  query_field (q_userId q) (ClosetItem.userId d) &&
  query_field (q_type q) (ClosetItem.type d) &&
  query_field (q_season q) (ClosetItem.season d) &&
  query_field (q_occasion q) (ClosetItem.occasion d).

(** [getAllClosetItems] (closetItemService.ts, lines 53-62):
    [{ ...query, userId }]. *)
Definition getAllClosetItems (userId' : ObjectId) (query : Query) (coll : ClosetItem.Closet)
  : ClosetItem.Closet :=
  let filterQuery := mkQuery (Some userId') (q_type query) (q_season query) (q_occasion query) in
  List.filter (λ i, matches filterQuery (ClosetItem.doc i)) coll.

(** [getClosetItemById] (closetItemService.ts, lines 65-73). *)
Definition getClosetItemById (id : ObjectId) (coll : ClosetItem.Closet)
  : option ClosetItem.ClosetItemDocument :=
  List.find (λ i, bool_decide (ClosetItem._id i = id)) coll.

(** [deleteClosetItem] (closetItemService.ts, lines 87-99). *)
Definition deleteClosetItem (id : ObjectId) (coll : ClosetItem.Closet)
  : (string + option ClosetItem.ClosetItemDocument) * ClosetItem.Closet :=
  match getClosetItemById id coll with
  | None => (inl "Failed to delete closet item", coll)
  | Some closetItem =>
      (inr (Some closetItem),
       List.filter (λ i, negb (bool_decide (ClosetItem._id i = ClosetItem._id closetItem))) coll)
  end.

(** [deleteClosetItemController] (lines 291-310), for a route that has an
    id. *)
Definition deleteClosetItemController (closetItemId : ObjectId) (coll : ClosetItem.Closet)
  : Response * ClosetItem.Closet :=
  match deleteClosetItem closetItemId coll with
  | (inl err, coll') => (mkResponse 500 (json_error err), coll')
  | (inr None, coll') => (mkResponse 404 (json_message "Closet item not found"), coll')
  | (inr (Some deletedClosetItem), coll') =>
      (mkResponse 200
         (JObj [("message", JStr "Closet item deleted successfully");
                ("closetItem", item_json deletedClosetItem)]), coll')
  end.

End ClosetRoutes.

(** ** Wishlist items: models/WishlistItem.ts, wishlistItemService.ts and
       WishlistItemControllers.ts (line numbers of
       src/Backend/src/controllers/userController.ts) *)

Module Wishlist.

Record WishlistItemDocument : Type := mkItem {
  _id : ObjectId;
  userId : ObjectId;
  productId : ObjectId;
  addedAt : Z
}.

Abbreviation Items := (list WishlistItemDocument).

Definition item_json (i : WishlistItemDocument) : Json :=
  JObj [("_id", JStr (_id i)); ("userId", JStr (userId i));
        ("productId", JStr (productId i)); ("addedAt", JNum (addedAt i))].

(** [createWishlistItem] (wishlistItemService.ts, lines 21-29): the schema
    requires [userId] and [productId]; nothing else is checked. *)
Definition createWishlistItem (newId : ObjectId) (userId' productId' : option ObjectId)
    (now : Z) (coll : Items) : (string + WishlistItemDocument) * Items :=
  if truthy userId' && truthy productId' then
    let newWishlistItem := mkItem newId (default "" userId') (default "" productId') now in
    (inr newWishlistItem, (coll ++ [newWishlistItem])%list)
  else (inl "Failed to create wishlist item", coll).

(** [createWishlistItemController] (lines 632-639). *)
Definition createWishlistItemController (newId : ObjectId) (userId' productId' : option ObjectId)
    (now : Z) (coll : Items) : Response * Items :=
  match createWishlistItem newId userId' productId' now coll with
  | (inr newWishlistItem, coll') =>
      (mkResponse 201
         (JObj [("message", JStr "Wishlist item created successfully");
                ("wishlistItem", item_json newWishlistItem)]), coll')
  | (inl err, coll') => (mkResponse 500 (json_error err), coll')
  end.

(** [getAllWishlistItems] (wishlistItemService.ts, lines 32-40): the
    items of the user, each with [productId] populated: the product it
    refers to, or [null] when there is none. *)
Definition getAllWishlistItems (userId' : ObjectId) (coll : Items)
    (products : list Product.ProductDocument)
  : list (WishlistItemDocument * option Product.ProductDocument) :=
  map (λ i, (i, Product.findById (productId i) products))
    (List.filter (λ i, bool_decide (userId i = userId')) coll).

(** [deleteWishlistItem] (wishlistItemService.ts, lines 54-66). *)
Definition deleteWishlistItem (id : ObjectId) (coll : Items)
  : (string + option WishlistItemDocument) * Items :=
  match List.find (λ i, bool_decide (_id i = id)) coll with
  | None => (inl "Failed to delete wishlist item", coll)
  | Some wishlistItem =>
      (inr (Some wishlistItem),
       List.filter (λ i, negb (bool_decide (_id i = _id wishlistItem))) coll)
  end.

(** [deleteWishlistItemController] (lines 681-700), for a route that has
    an id. *)
Definition deleteWishlistItemController (wishlistItemId : ObjectId) (coll : Items)
  : Response * Items :=
  match deleteWishlistItem wishlistItemId coll with
  | (inl err, coll') => (mkResponse 500 (json_error err), coll')
  | (inr None, coll') => (mkResponse 404 (json_message "Wishlist item not found"), coll')
  | (inr (Some deletedWishlistItem), coll') =>
      (mkResponse 200
         (JObj [("message", JStr "Wishlist item deleted successfully");
                ("wishlistItem", item_json deletedWishlistItem)]), coll')
  end.

End Wishlist.

(** ** Listing notifications: [getAllNotifications] of
       notificationService.ts *)

Module NotificationList.

(** [getAllNotifications] (notificationService.ts, lines 32-40):
    [Notification.find({ userId })]. *)
Definition getAllNotifications (userId : ObjectId)
    (coll : list Notification.NotificationDocument)
  : list Notification.NotificationDocument :=
  List.filter (λ n, bool_decide (Notification.userId n = userId)) coll.

End NotificationList.

(** ** The user id as a request sends it: the cast Mongoose applies where
       the schema has an [ObjectId], and the three notifying handlers of
       OOTDPostControllers.ts on [req.body.userId] as sent (line numbers
       of src/Backend/src/controllers/userController.ts) *)

Module Sent.

(** A hexadecimal digit, in either case. *)
Definition is_hex_digit (a : ascii) : bool :=
  let n := nat_of_ascii a in
  Nat.leb 48 n && Nat.leb n 57 || Nat.leb 65 n && Nat.leb n 70
  || Nat.leb 97 n && Nat.leb n 102.

Fixpoint all_hex (s : string) : bool :=
  match s with
  | EmptyString => true
  | String a rest => is_hex_digit a && all_hex rest
  end.

(** The lower case of a character and of a string. *)
Definition lower (a : ascii) : ascii :=
  let n := nat_of_ascii a in
  if Nat.leb 65 n && Nat.leb n 90 then ascii_of_nat (n + 32) else a.

Fixpoint toLowerCase (s : string) : string :=
  match s with
  | EmptyString => EmptyString
  | String a rest => String (lower a) (toLowerCase rest)
  end.

(** The cast of a string to an [ObjectId], which an update applies to a
    value written to a path of that type: a string of 24 hexadecimal
    digits, in either case, is the id, and the id prints ([toString()])
    in lower case; the cast of another string fails.  (Some versions of
    the driver also read a string of 12 characters as an id; no statement
    of this file uses one.) *)
Definition castObjectId (value : string) : option ObjectId :=
  if Nat.eqb (String.length value) 24 && all_hex value
  then Some (toLowerCase value)
  else None.

(** The answer of a handler whose update fails the cast: the [catch]
    answers 500 with the error's message (its text shortened). *)
Definition cast_error : Response :=
  mkResponse 500 (json_error "Cast to ObjectId failed").

(** [likeOOTDPostController] (lines 463-488).  [$addToSet] writes the
    cast id (lines 468-472); the owner test (line 477) and the message
    (line 482) use the string as sent. *)
Definition likeOOTDPostController (ootdPostId : ObjectId) (userId : string) (now : Z)
    (db : OOTDPost.Db) : Response * OOTDPost.Db :=
  match castObjectId userId with
  | None => (cast_error, db)
  | Some liker =>
      match OOTDPost.findByIdAndUpdate ootdPostId
              (λ p, OOTDPost.set_likes (OOTDPost.addToSet liker (OOTDPost.likes p)) p)
              (OOTDPost.posts db) with
      | (None, _) => (OOTDPost.not_found, db)
      | (Some ootdPost, posts') =>
          let notifications' :=
            if decide (OOTDPost.userId ootdPost ≠ userId) then
              snd (Notification.createNotification
                     (Notification.mkData (OOTDPost.userId ootdPost) "like" (Some ootdPostId)
                        ("User " ++ userId ++ " liked your post."))
                     now (OOTDPost.notifications db))
            else OOTDPost.notifications db in
          (mkResponse 200
             (JObj [("message", JStr "Post liked successfully");
                    ("likesCount", OOTDPost.count (length (OOTDPost.likes ootdPost)))]),
           OOTDPost.mkDb posts' notifications')
      end
  end.

(** [addCommentController] (lines 511-536): [$push] writes a comment
    whose [userId] is the cast id. *)
Definition addCommentController (ootdPostId : ObjectId) (userId : string) (text : string)
    (now : Z) (db : OOTDPost.Db) : Response * OOTDPost.Db :=
  match castObjectId userId with
  | None => (cast_error, db)
  | Some commenter =>
      match OOTDPost.findByIdAndUpdate ootdPostId
              (λ p, OOTDPost.set_comments
                      (OOTDPost.push (OOTDPost.mkComment commenter text now)
                         (OOTDPost.comments p)) p)
              (OOTDPost.posts db) with
      | (None, _) => (OOTDPost.not_found, db)
      | (Some ootdPost, posts') =>
          let notifications' :=
            if decide (OOTDPost.userId ootdPost ≠ userId) then
              snd (Notification.createNotification
                     (Notification.mkData (OOTDPost.userId ootdPost) "comment"
                        (Some ootdPostId)
                        ("User " ++ userId ++ " commented on your post: "
                           ++ dquote ++ text ++ dquote))
                     now (OOTDPost.notifications db))
            else OOTDPost.notifications db in
          (mkResponse 200
             (JObj [("message", JStr "Comment added successfully");
                    ("comments",
                     JArr (map OOTDPost.comment_json (OOTDPost.comments ootdPost)))]),
           OOTDPost.mkDb posts' notifications')
      end
  end.

(** [saveOOTDPostController] (lines 539-564). *)
Definition saveOOTDPostController (ootdPostId : ObjectId) (userId : string) (now : Z)
    (db : OOTDPost.Db) : Response * OOTDPost.Db :=
  match castObjectId userId with
  | None => (cast_error, db)
  | Some saver =>
      match OOTDPost.findByIdAndUpdate ootdPostId
              (λ p, OOTDPost.set_saves (OOTDPost.addToSet saver (OOTDPost.saves p)) p)
              (OOTDPost.posts db) with
      | (None, _) => (OOTDPost.not_found, db)
      | (Some ootdPost, posts') =>
          let notifications' :=
            if decide (OOTDPost.userId ootdPost ≠ userId) then
              snd (Notification.createNotification
                     (Notification.mkData (OOTDPost.userId ootdPost) "save" (Some ootdPostId)
                        ("User " ++ userId ++ " saved your post."))
                     now (OOTDPost.notifications db))
            else OOTDPost.notifications db in
          (mkResponse 200
             (JObj [("message", JStr "Post saved successfully");
                    ("savesCount", OOTDPost.count (length (OOTDPost.saves ootdPost)))]),
           OOTDPost.mkDb posts' notifications')
      end
  end.

(** The three requests that notify, on the user id as sent. *)
Definition route (act : OOTDPost.Interaction) (ootdPostId : ObjectId) (userId : string)
    (now : Z) (db : OOTDPost.Db) : Response * OOTDPost.Db :=
  match act with
  | OOTDPost.Like => likeOOTDPostController ootdPostId userId now db
  | OOTDPost.Comment text => addCommentController ootdPostId userId text now db
  | OOTDPost.Save => saveOOTDPostController ootdPostId userId now db
  end.

End Sent.

(** ** Sample data used by the worked examples *)

Module Sample.

Definition alice : ObjectId := "65a1000000000000000000a1".
Definition bob : ObjectId := "65a1000000000000000000b2".
Definition carol : ObjectId := "65a1000000000000000000c3".

(** Three freshly registered users. *)
Definition users0 : gmap ObjectId User.UserDocument :=
  User.createUser carol "carol"
    (User.createUser bob "bob" (User.createUser alice "alice" ∅)).

(** Then alice follows carol through the route. *)
Definition users1 : gmap ObjectId User.UserDocument :=
  snd (User.followUserController alice carol users0).

Definition post1 : ObjectId := "65b2000000000000000000d4".

(** Carol has posted an outfit; nobody has reacted yet. *)
Definition feed0 : OOTDPost.Db :=
  OOTDPost.mkDb
    (OOTDPost.create post1 carol "https://img.example/ootd/1.jpg" "linen day"
       ["ootd"; "summer"] ∅)
    [].

(** The document of that post. *)
Definition post1_doc : OOTDPost.OOTDPostDocument :=
  OOTDPost.mkPost carol "https://img.example/ootd/1.jpg" "linen day"
    ["ootd"; "summer"] [] [] [] [] 0.

Definition prod1 : ObjectId := "65c3000000000000000000e5".
Definition prod2 : ObjectId := "65c3000000000000000000f6".

(** What the classifier reports for a coat, once in red and once in
    blue: same name and brand. *)
Definition coat (colour : string) : Product.ProductData :=
  Product.mkData (Some "Zara") (Some "Linen Coat") (Some "coat") (Some colour)
    None None (Some 120%Z) None (Some "https://shop.example/linen-coat") None
    (Some ["coat"]) (Some "https://img.example/coat.jpg") None (Some "Clarifai").

Definition red_coat : Product.ProductData := coat "red".
Definition blue_coat : Product.ProductData := coat "blue".

(** The catalogue after the upsert route has seen the red and then the
    blue coat. *)
Definition catalogue2 : list Product.ProductDocument :=
  snd (Product.upsertProductFromClarifaiController prod2 blue_coat
         (snd (Product.upsertProductFromClarifaiController prod1 red_coat []))).

Definition item1 : ObjectId := "65d4000000000000000000a7".

(** The catalogue holding the red coat, which has neither season nor
    occasion. *)
Definition catalogue1 : list Product.ProductDocument :=
  snd (Product.upsertProductFromClarifaiController prod1 red_coat []).

(** Alice says she owns it: she names the season and the occasion, and
    calls it a jacket. *)
Definition own_coat : ClosetItem.ClosetItemData :=
  ClosetItem.mkData (Some alice) (Some prod1) None (Some "jacket") None
    (Some "winter") (Some "casual") None None.

End Sample.

(** ** Further sample data *)

Module Sample2.

(** A stand-in for [bcrypt], to show that its contract can be met: the
    hash is the password behind a marker. *)
Definition toy_bcrypt : Account.Bcrypt :=
  {| Account.bcrypt_hash := λ password _, "$toy$" ++ password;
     Account.bcrypt_compare := λ password h, String.eqb h ("$toy$" ++ password) |}.

(** Alice's account after a registration with the stand-ins. *)
Definition accounts1 : list Account.UserDocument :=
  snd (Account.createUserController (H := toy_bcrypt) (H0 := ToyJwt.toy) None Sample.alice
         (Some "alice") (Some "alice@example.com") (Some "secret1") 100 []).

(** Then bob's. *)
Definition accounts2 : list Account.UserDocument :=
  snd (Account.createUserController (H := toy_bcrypt) (H0 := ToyJwt.toy) None Sample.bob
         (Some "bob") (Some "bob@example.com") (Some "hunter2") 200 accounts1).

(** A post request that lists two products, the second without a link. *)
Definition post_body : OOTDPostCrud.CreateBody :=
  OOTDPostCrud.mkBody (Some Sample.carol) (Some "https://img.example/ootd/2.jpg")
    (Some "coat weather") (Some ["ootd"])
    (Some [Sample.red_coat;
           Product.mkData (Some "Zara") (Some "Scarf") (Some "scarf") (Some "grey")
             None None (Some 20%Z) None None None None None None None]).

Definition product_ids (k : nat) : ObjectId :=
  match k with
  | O => Sample.prod1
  | _ => Sample.prod2
  end.

(** A closet request for the red coat by alice. *)
Definition closet_body : ClosetRoutes.Body :=
  ClosetRoutes.mkBody (Some Sample.prod1) None (Some "jacket") (Some "crimson")
    (Some "winter") (Some "casual") None None (Some Sample.alice).

Definition wish1 : ObjectId := "65e5000000000000000000b8".

(** Alice wishes for the red coat. *)
Definition wishes1 : list Wishlist.WishlistItemDocument :=
  snd (Wishlist.createWishlistItem wish1 (Some Sample.alice) (Some Sample.prod1) 300 []).

(** Carol's id as a client may send it: the same 24 hexadecimal digits,
    with the letters in upper case. *)
Definition carol_upper : string := "65A1000000000000000000C3".

End Sample2.

(** * Properties *)

(** ** Users *)

Import User.

Lemma elem_of_without (x y : ObjectId) (l : list ObjectId) :
  y ∈ without x l ↔ y ≠ x ∧ y ∈ l.
Proof. unfold without. by rewrite list_elem_of_filter. Qed.

Lemma without_absent (x : ObjectId) (l : list ObjectId) :
  x ∉ l → without x l = l.
Proof.
  induction l as [|y l IH]; intros Hx; [done|].
  apply not_elem_of_cons in Hx as [Hxy Hl].
  unfold without in *. rewrite filter_cons_True by congruence.
  by rewrite IH.
Qed.


Lemma without_length_present (x : ObjectId) (l : list ObjectId) :
  NoDup l → x ∈ l → S (length (without x l)) = length l.
Proof.
  induction 1 as [|y l Hy Hnd IH]; intros Hx; [by apply elem_of_nil in Hx|].
  unfold without in *. destruct (decide (y = x)) as [->|Hne].
  - rewrite filter_cons_False by (intros H; by apply H).
    fold (without x l). by rewrite without_absent.
  - rewrite filter_cons_True by done. simpl. f_equal. apply IH.
    apply elem_of_cons in Hx as [->|Hx]; [done|done].
Qed.

Lemma NoDup_without (x : ObjectId) (l : list ObjectId) :
  NoDup l → NoDup (without x l).
Proof. apply NoDup_filter. Qed.

Lemma NoDup_push (x : ObjectId) (l : list ObjectId) :
  NoDup l → x ∉ l → NoDup (l ++ [x]).
Proof.
  intros Hl Hx. apply NoDup_app. split_and!; [done| |apply NoDup_singleton].
  intros y Hy Hy'. apply list_elem_of_singleton in Hy'. by subst.
Qed.

(** The two handlers, case by case. *)

Lemma followUserController_self (u : ObjectId) (db : Users) :
  followUserController u u db =
    (mkResponse 400 (json_message "You cannot follow yourself"), db).
Proof. unfold followUserController. by rewrite decide_True. Qed.

Lemma followUserController_missing (a b : ObjectId) (db : Users) :
  a ≠ b → db !! a = None ∨ db !! b = None →
  followUserController a b db = (mkResponse 404 (json_message "User not found"), db).
Proof.
  intros Hab Hm. unfold followUserController. rewrite decide_False by done.
  destruct Hm as [-> | ->]; [done|]. by destruct (db !! a).
Qed.

Lemma followUserController_already (a b : ObjectId) (db : Users) (ua ub : UserDocument) :
  a ≠ b → db !! a = Some ua → db !! b = Some ub → b ∈ following ua →
  followUserController a b db =
    (mkResponse 400 (json_message "You already follow this user"), db).
Proof.
  intros Hab Ha Hb Hin. unfold followUserController.
  rewrite decide_False by done. rewrite Ha, Hb. by rewrite decide_True.
Qed.

Lemma followUserController_ok (a b : ObjectId) (db : Users) (ua ub : UserDocument) :
  a ≠ b → db !! a = Some ua → db !! b = Some ub → b ∉ following ua →
  followUserController a b db =
    (mkResponse 200 (json_message ("You are now following " ++ username ub)),
     <[b := set_followers (followers ub ++ [a])
              (Some (or_zero (followerCount ub) + 1)%Z) ub]>
       (<[a := set_following (following ua ++ [b])
                 (Some (or_zero (followingCount ua) + 1)%Z) ua]> db)).
Proof.
  intros Hab Ha Hb Hin. unfold followUserController.
  rewrite decide_False by done. rewrite Ha, Hb. by rewrite decide_False.
Qed.

Lemma unfollowUserController_self (u : ObjectId) (db : Users) :
  unfollowUserController u u db =
    (mkResponse 400 (json_message "You cannot unfollow yourself"), db).
Proof. unfold unfollowUserController. by rewrite decide_True. Qed.

Lemma unfollowUserController_missing (a b : ObjectId) (db : Users) :
  a ≠ b → db !! a = None ∨ db !! b = None →
  unfollowUserController a b db = (mkResponse 404 (json_message "User not found"), db).
Proof.
  intros Hab Hm. unfold unfollowUserController. rewrite decide_False by done.
  destruct Hm as [-> | ->]; [done|]. by destruct (db !! a).
Qed.

Lemma unfollowUserController_not_following (a b : ObjectId) (db : Users) (ua ub : UserDocument) :
  a ≠ b → db !! a = Some ua → db !! b = Some ub → b ∉ following ua →
  unfollowUserController a b db =
    (mkResponse 400 (json_message "You are not following this user"), db).
Proof.
  intros Hab Ha Hb Hin. unfold unfollowUserController.
  rewrite decide_False by done. rewrite Ha, Hb. by rewrite decide_True.
Qed.

Lemma unfollowUserController_ok (a b : ObjectId) (db : Users) (ua ub : UserDocument) :
  a ≠ b → db !! a = Some ua → db !! b = Some ub → b ∈ following ua →
  unfollowUserController a b db =
    (mkResponse 200 (json_message ("You have unfollowed " ++ username ub)),
     <[b := set_followers (without a (followers ub))
              (Some (Z.max 0 (or_zero (followerCount ub) - 1))) ub]>
       (<[a := set_following (without b (following ua))
                 (Some (Z.max 0 (or_zero (followingCount ua) - 1))) ua]> db)).
Proof.
  intros Hab Ha Hb Hin. unfold unfollowUserController.
  rewrite decide_False by done. rewrite Ha, Hb.
  rewrite decide_False; [done|]. by intros H.
Qed.

(** Either handler leaves the store alone or rewrites the two entries. *)
Lemma followUserController_cases (a b : ObjectId) (db : Users) :
  snd (followUserController a b db) = db ∨
  ∃ ua ub, a ≠ b ∧ db !! a = Some ua ∧ db !! b = Some ub ∧ (b ∉ following ua) ∧
    snd (followUserController a b db) =
      <[b := set_followers (followers ub ++ [a])
               (Some (or_zero (followerCount ub) + 1)%Z) ub]>
        (<[a := set_following (following ua ++ [b])
                  (Some (or_zero (followingCount ua) + 1)%Z) ua]> db).
Proof.
  destruct (decide (a = b)) as [->|Hab].
  { left. by rewrite followUserController_self. }
  destruct (db !! a) as [ua|] eqn:Ha; cycle 1.
  { left. rewrite followUserController_missing; auto. }
  destruct (db !! b) as [ub|] eqn:Hb; cycle 1.
  { left. rewrite followUserController_missing; auto. }
  destruct (decide (b ∈ following ua)) as [Hin|Hin].
  { left. by erewrite followUserController_already. }
  right. exists ua, ub. split_and!; try done.
  by erewrite followUserController_ok.
Qed.

Lemma unfollowUserController_cases (a b : ObjectId) (db : Users) :
  snd (unfollowUserController a b db) = db ∨
  ∃ ua ub, a ≠ b ∧ db !! a = Some ua ∧ db !! b = Some ub ∧ b ∈ following ua ∧
    snd (unfollowUserController a b db) =
      <[b := set_followers (without a (followers ub))
               (Some (Z.max 0 (or_zero (followerCount ub) - 1))) ub]>
        (<[a := set_following (without b (following ua))
                  (Some (Z.max 0 (or_zero (followingCount ua) - 1))) ua]> db).
Proof.
  destruct (decide (a = b)) as [->|Hab].
  { left. by rewrite unfollowUserController_self. }
  destruct (db !! a) as [ua|] eqn:Ha; cycle 1.
  { left. rewrite unfollowUserController_missing; auto. }
  destruct (db !! b) as [ub|] eqn:Hb; cycle 1.
  { left. rewrite unfollowUserController_missing; auto. }
  destruct (decide (b ∈ following ua)) as [Hin|Hin]; cycle 1.
  { left. by erewrite unfollowUserController_not_following. }
  right. exists ua, ub. split_and!; try done.
  by erewrite unfollowUserController_ok.
Qed.

(** *** The user routes keep the store consistent *)

Ltac split_lookup H :=
  rewrite lookup_insert in H; case_decide; simplify_eq/=.

Lemma consistent_empty : consistent (∅ : Users).
Proof. split; intros *; by rewrite lookup_empty. Qed.

Lemma consistent_createUser (id : ObjectId) (name : string) (db : Users) :
  consistent db → fresh id db → consistent (createUser id name db).
Proof.
  intros [Hc Hn Hs Hy] [Hnone Hfresh]. unfold createUser.
  split.
  - intros a ua H. split_lookup H; [done|]. eauto.
  - intros a ua H. split_lookup H; [split; apply NoDup_nil_2|]. eauto.
  - intros a ua H. split_lookup H; [split; apply not_elem_of_nil|]. eauto.
  - intros a b ua ub Ha Hb. split_lookup Ha; split_lookup Hb.
    + done.
    + destruct (Hfresh _ _ Hb) as [Hf _]. split; [by intros ?%elem_of_nil|done].
    + destruct (Hfresh _ _ Ha) as [_ Hf]. split; [done|by intros ?%elem_of_nil].
    + eauto.
Qed.

Lemma consistent_updateUser (id : ObjectId) (name : string) (db : Users) :
  consistent db → consistent (updateUser id name db).
Proof.
  intros [Hc Hn Hs Hy]. unfold updateUser.
  assert (Hview : ∀ a ua, alter (set_username name) id db !! a = Some ua →
            ∃ ua0, db !! a = Some ua0 ∧ followers ua = followers ua0 ∧
              following ua = following ua0 ∧ followerCount ua = followerCount ua0 ∧
              followingCount ua = followingCount ua0).
  { intros a ua H. rewrite lookup_alter in H. case_decide; subst.
    - destruct (db !! a) as [u0|]; simplify_eq/=. by exists u0.
    - by exists ua. }
  split.
  - intros a ua (u0 & H0 & Hf & Hg & Hcf & Hcg)%Hview.
    specialize (Hc _ _ H0). unfold counts_mirror in *. by rewrite Hf, Hg, Hcf, Hcg.
  - intros a ua (u0 & H0 & Hf & Hg & _)%Hview. rewrite Hf, Hg. eauto.
  - intros a ua (u0 & H0 & Hf & Hg & _)%Hview. rewrite Hf, Hg. eauto.
  - intros a b ua ub (u0 & H0 & Hf & Hg & _)%Hview (v0 & H1 & Hf' & Hg' & _)%Hview.
    rewrite Hg, Hf'. eauto.
Qed.

Lemma consistent_deleteUser (id : ObjectId) (db : Users) :
  consistent db → consistent (deleteUser id db).
Proof.
  intros [Hc Hn Hs Hy]. unfold deleteUser.
  split; intros *; rewrite ?lookup_delete_Some; naive_solver.
Qed.

Lemma consistent_follow (a b : ObjectId) (db : Users) :
  consistent db → consistent (snd (followUserController a b db)).
Proof.
  intros Hcons.
  destruct (followUserController_cases a b db)
    as [->|(ua & ub & Hab & Ha & Hb & Hin & ->)]; [done|].
  destruct Hcons as [Hc Hn Hs Hy].
  assert (Hin' : a ∉ followers ub) by (by rewrite <- (Hy a b ua ub)).
  destruct (Hc _ _ Ha) as [Hca1 Hca2], (Hc _ _ Hb) as [Hcb1 Hcb2].
  split.
  - intros k uk H. split_lookup H; [|split_lookup H]; [| |by eauto].
    + split; [|done]. rewrite Hcb1. simpl. rewrite length_app. simpl. f_equal. lia.
    + split; [done|]. rewrite Hca2. simpl. rewrite length_app. simpl. f_equal. lia.
  - intros k uk H. split_lookup H; [|split_lookup H]; [| |by eauto].
    + destruct (Hn _ _ Hb). split; [by apply NoDup_push|done].
    + destruct (Hn _ _ Ha). split; [done|by apply NoDup_push].
  - intros k uk H. split_lookup H; [|split_lookup H]; [| |by eauto].
    + destruct (Hs _ _ Hb). split; [|done].
      rewrite elem_of_app, list_elem_of_singleton. naive_solver.
    + destruct (Hs _ _ Ha). split; [done|].
      rewrite elem_of_app, list_elem_of_singleton. naive_solver.
  - intros x y ux uy Hx Hy'.
    split_lookup Hx; [|split_lookup Hx]; (split_lookup Hy'; [|split_lookup Hy']);
      rewrite ?elem_of_app, ?list_elem_of_singleton.
    + specialize (Hy _ _ _ _ Hb Hb). naive_solver.
    + specialize (Hy _ _ _ _ Hb Ha). naive_solver.
    + specialize (Hy _ _ _ _ Hb Hy'). naive_solver.
    + specialize (Hy _ _ _ _ Ha Hb). naive_solver.
    + specialize (Hy _ _ _ _ Ha Ha). naive_solver.
    + specialize (Hy _ _ _ _ Ha Hy'). naive_solver.
    + specialize (Hy _ _ _ _ Hx Hb). naive_solver.
    + specialize (Hy _ _ _ _ Hx Ha). naive_solver.
    + eauto.
Qed.

Lemma consistent_unfollow (a b : ObjectId) (db : Users) :
  consistent db → consistent (snd (unfollowUserController a b db)).
Proof.
  intros Hcons.
  destruct (unfollowUserController_cases a b db)
    as [->|(ua & ub & Hab & Ha & Hb & Hin & ->)]; [done|].
  destruct Hcons as [Hc Hn Hs Hy].
  assert (Hin' : a ∈ followers ub) by (by rewrite <- (Hy a b ua ub)).
  destruct (Hc _ _ Ha) as [Hca1 Hca2], (Hc _ _ Hb) as [Hcb1 Hcb2].
  destruct (Hn _ _ Ha) as [Hna1 Hna2], (Hn _ _ Hb) as [Hnb1 Hnb2].
  pose proof (without_length_present b _ Hna2 Hin) as Hla.
  pose proof (without_length_present a _ Hnb1 Hin') as Hlb.
  split.
  - intros k uk H. split_lookup H; [|split_lookup H]; [| |by eauto].
    + split; [|done]. rewrite Hcb1. simpl. f_equal. lia.
    + split; [done|]. rewrite Hca2. simpl. f_equal. lia.
  - intros k uk H. split_lookup H; [|split_lookup H]; [| |by eauto].
    + split; [by apply NoDup_without|done].
    + split; [done|by apply NoDup_without].
  - intros k uk H. split_lookup H; [|split_lookup H]; [| |by eauto].
    + destruct (Hs _ _ Hb). split; [|done]. rewrite elem_of_without. naive_solver.
    + destruct (Hs _ _ Ha). split; [done|]. rewrite elem_of_without. naive_solver.
  - intros x y ux uy Hx Hy'.
    split_lookup Hx; [|split_lookup Hx]; (split_lookup Hy'; [|split_lookup Hy']);
      rewrite ?elem_of_without.
    + specialize (Hy _ _ _ _ Hb Hb). naive_solver.
    + specialize (Hy _ _ _ _ Hb Ha). naive_solver.
    + specialize (Hy _ _ _ _ Hb Hy'). naive_solver.
    + specialize (Hy _ _ _ _ Ha Hb). naive_solver.
    + specialize (Hy _ _ _ _ Ha Ha). naive_solver.
    + specialize (Hy _ _ _ _ Ha Hy'). naive_solver.
    + specialize (Hy _ _ _ _ Hx Hb). naive_solver.
    + specialize (Hy _ _ _ _ Hx Ha). naive_solver.
    + eauto.
Qed.

(** Every store the user routes produce is consistent: counters mirror
    list lengths, no id is listed twice, nobody follows themself, and the
    two sides of every relationship agree. *)
Lemma reachable_consistent (db : Users) : reachable db → consistent db.
Proof.
  induction 1 as [|id name db _ IH Hf|id name db _ IH|id db _ IH|a b db _ IH|a b db _ IH].
  - apply consistent_empty.
  - by apply consistent_createUser.
  - by apply consistent_updateUser.
  - by apply consistent_deleteUser.
  - by apply consistent_follow.
  - by apply consistent_unfollow.
Qed.



(** *** The sample stores are stores the routes produce *)

Lemma fresh_empty (id : ObjectId) : fresh id (∅ : Users).
Proof. split; [apply lookup_empty|]. intros k u. by rewrite lookup_empty. Qed.

Lemma fresh_createUser (id id' : ObjectId) (name : string) (db : Users) :
  id ≠ id' → fresh id db → fresh id (createUser id' name db).
Proof.
  intros Hne [Hnone Hf]. unfold createUser. split.
  - by rewrite lookup_insert_ne.
  - intros k u H. split_lookup H; [|by eauto].
    split; apply not_elem_of_nil.
Qed.

Lemma reachable_users0 : reachable Sample.users0.
Proof.
  unfold Sample.users0.
  repeat (apply reach_create || apply reach_empty
          || apply fresh_empty || (apply fresh_createUser; [done|])).
Qed.

Lemma reachable_users1 : reachable Sample.users1.
Proof. apply reach_follow, reachable_users0. Qed.

(** The scenario of two follow requests in a row: after the first one
    alice's [followingCount] and carol's [followerCount] are 1; the second
    one is answered with 400 and changes nothing. *)
Example scenario_follow_twice :
  followUserController Sample.alice Sample.carol Sample.users0 =
    (mkResponse 200 (json_message "You are now following carol"), Sample.users1) ∧
  Sample.users1 !! Sample.alice
    = Some (mkUser "alice" (Some 0%Z) (Some 1%Z) [] [Sample.carol]) ∧
  Sample.users1 !! Sample.carol
    = Some (mkUser "carol" (Some 1%Z) (Some 0%Z) [Sample.alice] []) ∧
  followUserController Sample.alice Sample.carol Sample.users1 =
    (mkResponse 400 (json_message "You already follow this user"), Sample.users1).
Proof. by vm_compute. Qed.

(** *** Follow then unfollow *)



(** *** Conflicts *)

(** C2.  For existing users A and B, a follow request is answered with
    400 when A already follows B, an unfollow request is answered with 400
    when A does not follow B, and in both cases the store, hence every
    list and counter, is left as it was. *)
Theorem C2_conflict_leaves_store
    (db : Users) (a b : ObjectId) (ua ub : UserDocument) :
  db !! a = Some ua → db !! b = Some ub →
  (b ∈ following ua →
     status (fst (followUserController a b db)) = 400 ∧
     snd (followUserController a b db) = db) ∧
  (b ∉ following ua →
     status (fst (unfollowUserController a b db)) = 400 ∧
     snd (unfollowUserController a b db) = db).
Proof.
  intros Ha Hb. destruct (decide (a = b)) as [->|Hab].
  - rewrite followUserController_self, unfollowUserController_self. by split.
  - split; intros Hin.
    + by rewrite (followUserController_already a b db ua ub).
    + by rewrite (unfollowUserController_not_following a b db ua ub).
Qed.

Lemma C2_witness :
  (Sample.carol ∈ [Sample.carol] →
     status (fst (followUserController Sample.alice Sample.carol Sample.users1)) = 400 ∧
     snd (followUserController Sample.alice Sample.carol Sample.users1) = Sample.users1) ∧
  (Sample.carol ∉ [Sample.carol] →
     status (fst (unfollowUserController Sample.alice Sample.carol Sample.users1)) = 400 ∧
     snd (unfollowUserController Sample.alice Sample.carol Sample.users1) = Sample.users1).
Proof.
  apply (C2_conflict_leaves_store Sample.users1 Sample.alice Sample.carol
           (mkUser "alice" (Some 0%Z) (Some 1%Z) [] [Sample.carol])
           (mkUser "carol" (Some 1%Z) (Some 0%Z) [Sample.alice] [])).
  - by vm_compute.
  - by vm_compute.
Defined.

(** The conflict answers carry the messages of the handlers. *)
Lemma conflict_messages (db : Users) (a b : ObjectId) (ua ub : UserDocument) :
  a ≠ b → db !! a = Some ua → db !! b = Some ub →
  (b ∈ following ua →
     fst (followUserController a b db)
       = mkResponse 400 (json_message "You already follow this user")) ∧
  (b ∉ following ua →
     fst (unfollowUserController a b db)
       = mkResponse 400 (json_message "You are not following this user")).
Proof.
  intros Hab Ha Hb. split; intros Hin.
  - by rewrite (followUserController_already a b db ua ub).
  - by rewrite (unfollowUserController_not_following a b db ua ub).
Qed.

(** *** Self-follow *)

(** C5.  A follow request whose actor and target are the same id is
    answered with 400 and the store is returned untouched. *)
Theorem C5_self_follow_rejected (u : ObjectId) (db : Users) :
  followUserController u u db =
    (mkResponse 400 (json_message "You cannot follow yourself"), db).
Proof. apply followUserController_self. Qed.

(** The service function has no such guard: called with the same id twice
    it records the user as their own follower. *)
Remark followUser_accepts_self :
  User.followUser Sample.alice Sample.alice Sample.users0 =
    (Returned,
     <[Sample.alice := mkUser "alice" (Some 1%Z) (Some 1%Z) [Sample.alice] [Sample.alice]]>
       Sample.users0).
Proof. by vm_compute. Qed.

(** *** Counters and list lengths *)

(** A follow request keeps the counters of every document equal to the
    lengths of its lists, whatever the store. *)
Lemma follow_keeps_counts (db : Users) (a b : ObjectId) :
  (∀ k u, db !! k = Some u → counts_mirror u) →
  ∀ k u, snd (followUserController a b db) !! k = Some u → counts_mirror u.
Proof.
  intros Hc k u.
  destruct (followUserController_cases a b db)
    as [->|(ua & ub & Hab & Ha & Hb & Hin & ->)]; [by eauto|].
  destruct (Hc _ _ Ha) as [Hca1 Hca2], (Hc _ _ Hb) as [Hcb1 Hcb2].
  intros H. split_lookup H; [|split_lookup H]; [| |by eauto].
  - split; [|done]. rewrite Hcb1. simpl. rewrite length_app. simpl. f_equal. lia.
  - split; [done|]. rewrite Hca2. simpl. rewrite length_app. simpl. f_equal. lia.
Qed.

(** An unfollow request through the route keeps them equal in the stores
    the routes produce. *)
Lemma unfollow_keeps_counts (db : Users) (a b : ObjectId) :
  reachable db →
  ∀ k u, snd (unfollowUserController a b db) !! k = Some u → counts_mirror u.
Proof.
  intros Hr. apply (cons_counts _ (reachable_consistent _ (reach_unfollow a b db Hr))).
Qed.

(** C3.  [unfollowUser] of userService.ts breaks the mirror.  In the store
    where alice follows carol only, every counter equals the length of its
    list; after [unfollowUser alice bob] alice still follows carol and her
    [followingCount] is 0. *)
Theorem C3_unfollowUser_breaks_mirror :
  reachable Sample.users1 ∧
  (∀ k u, Sample.users1 !! k = Some u → counts_mirror u) ∧
  User.unfollowUser Sample.alice Sample.bob Sample.users1 =
    (Returned,
     <[Sample.alice := mkUser "alice" (Some 0%Z) (Some 0%Z) [] [Sample.carol]]>
       Sample.users1) ∧
  ¬ counts_mirror (mkUser "alice" (Some 0%Z) (Some 0%Z) [] [Sample.carol]).
Proof.
  split_and!.
  - apply reachable_users1.
  - apply (cons_counts _ (reachable_consistent _ reachable_users1)).
  - by vm_compute.
  - intros [_ H]. simpl in H. discriminate H.
Qed.

(** ** Posts *)

Section PostProperties.
Import OOTDPost.

(** *** The update operators *)

Lemma elem_of_addToSet (x y : ObjectId) (l : list ObjectId) :
  y ∈ addToSet x l ↔ y = x ∨ y ∈ l.
Proof.
  unfold addToSet. case_decide as Hx.
  - split; [by right|]. intros [->|]; done.
  - rewrite elem_of_app, list_elem_of_singleton. tauto.
Qed.

Lemma addToSet_present (x : ObjectId) (l : list ObjectId) :
  x ∈ l → addToSet x l = l.
Proof. intros Hx. unfold addToSet. by rewrite decide_True. Qed.

Lemma addToSet_idem (x : ObjectId) (l : list ObjectId) :
  addToSet x (addToSet x l) = addToSet x l.
Proof. apply addToSet_present, elem_of_addToSet. by left. Qed.

Lemma addToSet_NoDup (x : ObjectId) (l : list ObjectId) :
  NoDup l → NoDup (addToSet x l).
Proof.
  intros Hl. unfold addToSet. case_decide as Hx; [done|].
  apply NoDup_app. split_and!; [done| |apply NoDup_singleton].
  intros y Hy Hy'%list_elem_of_singleton. by subst.
Qed.

Lemma addToSet_length (x : ObjectId) (l : list ObjectId) :
  length (addToSet x l) = if decide (x ∈ l) then length l else S (length l).
Proof.
  unfold addToSet. case_decide; [done|]. rewrite length_app. simpl. lia.
Qed.

Lemma elem_of_pull (x y : ObjectId) (l : list ObjectId) :
  y ∈ pull x l ↔ y ≠ x ∧ y ∈ l.
Proof. unfold pull. by rewrite list_elem_of_filter. Qed.

Lemma pull_absent (x : ObjectId) (l : list ObjectId) :
  x ∉ l → pull x l = l.
Proof. apply without_absent. Qed.

Lemma pull_NoDup (x : ObjectId) (l : list ObjectId) :
  NoDup l → NoDup (pull x l).
Proof. apply NoDup_filter. Qed.

Lemma findByIdAndUpdate_found (id : ObjectId) (f : OOTDPostDocument → OOTDPostDocument)
    (coll : Posts) (doc : OOTDPostDocument) :
  coll !! id = Some doc →
  findByIdAndUpdate id f coll = (Some (f doc), <[id := f doc]> coll).
Proof. intros H. unfold findByIdAndUpdate. by rewrite H. Qed.

Lemma findByIdAndUpdate_missing (id : ObjectId) (f : OOTDPostDocument → OOTDPostDocument)
    (coll : Posts) :
  coll !! id = None → findByIdAndUpdate id f coll = (None, coll).
Proof. intros H. unfold findByIdAndUpdate. by rewrite H. Qed.

(** An update applied twice, when the second application changes
    nothing. *)
Lemma findByIdAndUpdate_twice (id : ObjectId) (f : OOTDPostDocument → OOTDPostDocument)
    (coll : Posts) :
  (∀ doc, f (f doc) = f doc) →
  findByIdAndUpdate id f (snd (findByIdAndUpdate id f coll)) = findByIdAndUpdate id f coll.
Proof.
  intros Hf. destruct (coll !! id) as [doc|] eqn:H.
  - rewrite (findByIdAndUpdate_found _ _ _ _ H). simpl.
    rewrite (findByIdAndUpdate_found id f _ (f doc)) by apply lookup_insert_eq.
    by rewrite Hf, insert_insert_eq.
  - rewrite (findByIdAndUpdate_missing _ _ _ H). simpl.
    by rewrite (findByIdAndUpdate_missing _ _ _ H).
Qed.

Lemma set_likes_id (p : OOTDPostDocument) : set_likes (likes p) p = p.
Proof. by destruct p. Qed.

Lemma set_saves_id (p : OOTDPostDocument) : set_saves (saves p) p = p.
Proof. by destruct p. Qed.

(** *** Likes and saves are sets *)

(** C8.  Liking a post a second time with the same user id changes
    nothing: the collection after two likes is the collection after one,
    so the post's [likes] and their number are the same, and the handler
    reports the same [likesCount]; the same holds for saves.  A list
    without repetition stays without repetition, and holds the id once. *)
Theorem C8_like_twice_is_like_once (coll : Posts) (db : Db) (postId u : ObjectId) (now : Z) :
  snd (likeOOTDPost postId u (snd (likeOOTDPost postId u coll)))
    = snd (likeOOTDPost postId u coll) ∧
  fst (likeOOTDPost postId u (snd (likeOOTDPost postId u coll)))
    = fst (likeOOTDPost postId u coll) ∧
  posts (snd (likeOOTDPostController postId u now
                (snd (likeOOTDPostController postId u now db))))
    = posts (snd (likeOOTDPostController postId u now db)) ∧
  fst (likeOOTDPostController postId u now
         (snd (likeOOTDPostController postId u now db)))
    = fst (likeOOTDPostController postId u now db) ∧
  snd (saveOOTDPost postId u (snd (saveOOTDPost postId u coll)))
    = snd (saveOOTDPost postId u coll) ∧
  (∀ p, coll !! postId = Some p →
     ∃ p', snd (likeOOTDPost postId u coll) !! postId = Some p' ∧
       snd (likeOOTDPost postId u (snd (likeOOTDPost postId u coll))) !! postId = Some p' ∧
       likes p' = addToSet u (likes p) ∧
       u ∈ likes p' ∧
       (NoDup (likes p) → NoDup (likes p')) ∧
       (u ∈ likes p → likes p' = likes p)).
Proof.
  assert (Hlike : ∀ doc, set_likes (addToSet u (likes (set_likes (addToSet u (likes doc)) doc)))
                           (set_likes (addToSet u (likes doc)) doc)
                         = set_likes (addToSet u (likes doc)) doc).
  { intros doc. simpl. by rewrite addToSet_idem. }
  assert (Hsave : ∀ doc, set_saves (addToSet u (saves (set_saves (addToSet u (saves doc)) doc)))
                           (set_saves (addToSet u (saves doc)) doc)
                         = set_saves (addToSet u (saves doc)) doc).
  { intros doc. simpl. by rewrite addToSet_idem. }
  split_and!.
  - unfold likeOOTDPost. by rewrite findByIdAndUpdate_twice.
  - unfold likeOOTDPost. by rewrite findByIdAndUpdate_twice.
  - unfold likeOOTDPostController.
    destruct (posts db !! postId) as [p|] eqn:Hp.
    + rewrite (findByIdAndUpdate_found _ _ _ _ Hp). simpl.
      rewrite (findByIdAndUpdate_found postId _ _ (set_likes (addToSet u (likes p)) p))
        by apply lookup_insert_eq.
      simpl. by rewrite addToSet_idem, insert_insert_eq.
    + rewrite (findByIdAndUpdate_missing _ _ _ Hp). simpl.
      by rewrite (findByIdAndUpdate_missing _ _ _ Hp).
  - unfold likeOOTDPostController.
    destruct (posts db !! postId) as [p|] eqn:Hp.
    + rewrite (findByIdAndUpdate_found _ _ _ _ Hp). simpl.
      rewrite (findByIdAndUpdate_found postId _ _ (set_likes (addToSet u (likes p)) p))
        by apply lookup_insert_eq.
      simpl. by rewrite addToSet_idem.
    + rewrite (findByIdAndUpdate_missing _ _ _ Hp). simpl.
      by rewrite (findByIdAndUpdate_missing _ _ _ Hp).
  - unfold saveOOTDPost. by rewrite findByIdAndUpdate_twice.
  - intros p Hp. unfold likeOOTDPost.
    rewrite findByIdAndUpdate_twice by done.
    rewrite (findByIdAndUpdate_found _ _ _ _ Hp). simpl.
    eexists. split; [apply lookup_insert_eq|]. simpl. split_and!.
    + apply lookup_insert_eq.
    + done.
    + apply elem_of_addToSet. by left.
    + apply addToSet_NoDup.
    + apply addToSet_present.
Qed.

Lemma C8_witness :
  snd (likeOOTDPost Sample.post1 Sample.alice
         (snd (likeOOTDPost Sample.post1 Sample.alice (posts Sample.feed0))))
    = snd (likeOOTDPost Sample.post1 Sample.alice (posts Sample.feed0)).
Proof.
  apply (proj1 (C8_like_twice_is_like_once
                  (posts Sample.feed0) Sample.feed0 Sample.post1 Sample.alice 0%Z)).
Defined.

(** The interaction handlers never list an id twice: a post created by
    the route and then liked, unliked, saved or unsaved keeps [likes] and
    [saves] free of repetition. *)
Lemma interactions_keep_NoDup (p : OOTDPostDocument) (u : ObjectId) :
  NoDup (likes p) → NoDup (saves p) →
  (NoDup (likes (set_likes (addToSet u (likes p)) p)) ∧
   NoDup (saves (set_likes (addToSet u (likes p)) p))) ∧
  (NoDup (likes (set_likes (pull u (likes p)) p)) ∧
   NoDup (saves (set_likes (pull u (likes p)) p))) ∧
  (NoDup (likes (set_saves (addToSet u (saves p)) p)) ∧
   NoDup (saves (set_saves (addToSet u (saves p)) p))) ∧
  (NoDup (likes (set_saves (pull u (saves p)) p)) ∧
   NoDup (saves (set_saves (pull u (saves p)) p))).
Proof.
  intros Hl Hs. simpl.
  split_and!; auto using addToSet_NoDup, pull_NoDup.
Qed.

(** *** Removing a reaction that is not there *)

(** C10.  On an existing post, an unlike request by a user who is not
    in [likes], and an unsave request by a user who is not in [saves],
    are answered with 200 and leave the whole store, so the post's
    likes, saves and comments, as it was. *)
Theorem C10_unlike_absent_succeeds
    (db : Db) (postId u : ObjectId) (p : OOTDPostDocument) :
  posts db !! postId = Some p →
  (u ∉ likes p →
     unlikeOOTDPostController postId u db =
       (mkResponse 200
          (JObj [("message", JStr "Like removed successfully");
                 ("likesCount", count (length (likes p)))]), db)) ∧
  (u ∉ saves p →
     unsaveOOTDPostController postId u db =
       (mkResponse 200
          (JObj [("message", JStr "Post unsaved successfully");
                 ("savesCount", count (length (saves p)))]), db)).
Proof.
  intros Hp. split; intros Hu.
  - unfold unlikeOOTDPostController.
    rewrite (findByIdAndUpdate_found _ _ _ _ Hp).
    rewrite (pull_absent _ _ Hu), set_likes_id, (insert_id _ _ _ Hp).
    by destruct db.
  - unfold unsaveOOTDPostController.
    rewrite (findByIdAndUpdate_found _ _ _ _ Hp).
    rewrite (pull_absent _ _ Hu), set_saves_id, (insert_id _ _ _ Hp).
    by destruct db.
Qed.

Lemma C10_witness :
  (Sample.alice ∉ likes Sample.post1_doc →
     unlikeOOTDPostController Sample.post1 Sample.alice Sample.feed0 =
       (mkResponse 200
          (JObj [("message", JStr "Like removed successfully");
                 ("likesCount", count (length (likes Sample.post1_doc)))]),
        Sample.feed0)) ∧
  (Sample.alice ∉ saves Sample.post1_doc →
     unsaveOOTDPostController Sample.post1 Sample.alice Sample.feed0 =
       (mkResponse 200
          (JObj [("message", JStr "Post unsaved successfully");
                 ("savesCount", count (length (saves Sample.post1_doc)))]),
        Sample.feed0)).
Proof.
  apply (C10_unlike_absent_succeeds Sample.feed0 Sample.post1 Sample.alice Sample.post1_doc).
  by vm_compute.
Defined.

(** *** Notifications *)

(** When the request sends the user id in the spelling the store prints:
    a like, comment or save request on an existing post appends exactly
    one notification when the id is not the owner's, and none when it is.
    The notification is addressed to the owner, names the kind of
    action, refers to the post, carries the message generated for the
    action and is unread. *)
Theorem notifications_in_printed_spelling
    (act : Interaction) (db : Db) (postId u : ObjectId) (now : Z) (p : OOTDPostDocument) :
  posts db !! postId = Some p →
  (u ≠ userId p →
     ∃ n, notifications (snd (route act postId u now db)) = (notifications db ++ [n])%list ∧
       Notification.userId n = userId p ∧
       Notification.userId n ≠ u ∧
       Notification.type n =
         match act with Like => "like" | Comment _ => "comment" | Save => "save" end ∧
       Notification.relatedId n = Some postId ∧
       Notification.message n =
         match act with
         | Like => "User " ++ u ++ " liked your post."
         | Comment text =>
             "User " ++ u ++ " commented on your post: " ++ dquote ++ text ++ dquote
         | Save => "User " ++ u ++ " saved your post."
         end ∧
       Notification.isRead n = false) ∧
  (u = userId p →
     notifications (snd (route act postId u now db)) = notifications db).
Proof.
  intros Hp. split; intros Hu.
  - destruct act as [|txt|]; simpl;
      [unfold likeOOTDPostController|unfold addCommentController
      |unfold saveOOTDPostController];
      rewrite (findByIdAndUpdate_found _ _ _ _ Hp); simpl;
      (rewrite decide_True by (intros E; by apply Hu)); simpl;
      eexists; (split; [reflexivity|]); simpl; split_and!; try done;
      intros E; by apply Hu.
  - destruct act as [|txt|]; simpl;
      [unfold likeOOTDPostController|unfold addCommentController
      |unfold saveOOTDPostController];
      rewrite (findByIdAndUpdate_found _ _ _ _ Hp); simpl;
      rewrite decide_False; try done; intros E; by apply E.
Qed.

Lemma notifications_in_printed_spelling_witness :
  (Sample.alice ≠ userId Sample.post1_doc →
     ∃ n, notifications (snd (route Like Sample.post1 Sample.alice 1700000000 Sample.feed0))
            = (notifications Sample.feed0 ++ [n])%list ∧
       Notification.userId n = userId Sample.post1_doc ∧
       Notification.userId n ≠ Sample.alice ∧
       Notification.type n = "like" ∧
       Notification.relatedId n = Some Sample.post1 ∧
       Notification.message n = "User " ++ Sample.alice ++ " liked your post." ∧
       Notification.isRead n = false) ∧
  (Sample.alice = userId Sample.post1_doc →
     notifications (snd (route Like Sample.post1 Sample.alice 1700000000 Sample.feed0))
       = notifications Sample.feed0).
Proof.
  apply (notifications_in_printed_spelling
           Like Sample.feed0 Sample.post1 Sample.alice 1700000000 Sample.post1_doc).
  by vm_compute.
Defined.

(** *** The user id as sent *)

(** Sent in the spelling the store prints, the id is cast to itself, and
    the handlers on the id as sent are the handlers above. *)
Lemma sent_in_printed_spelling (act : Interaction) (postId u : ObjectId) (now : Z) (db : Db) :
  Sent.castObjectId u = Some u →
  Sent.route act postId u now db = route act postId u now db.
Proof.
  intros Hu. destruct act as [|txt|]; simpl.
  - unfold Sent.likeOOTDPostController, likeOOTDPostController. by rewrite Hu.
  - unfold Sent.addCommentController, addCommentController. by rewrite Hu.
  - unfold Sent.saveOOTDPostController, saveOOTDPostController. by rewrite Hu.
Qed.

(** Sent in any other spelling, the owner's id is cast to the owner's id
    and differs, as a string, from the printed one: the owner test takes
    the owner for somebody else, and a notification is written to the
    owner about the owner's own action. *)
Lemma owner_in_other_spelling_is_notified
    (act : Interaction) (db : Db) (postId : ObjectId) (sent : string) (now : Z)
    (p : OOTDPostDocument) :
  posts db !! postId = Some p →
  Sent.castObjectId sent = Some (userId p) → sent ≠ userId p →
  ∃ n, notifications (snd (Sent.route act postId sent now db))
         = (notifications db ++ [n])%list ∧
       Notification.userId n = userId p ∧
       Notification.relatedId n = Some postId.
Proof.
  intros Hp Hcast Hne.
  destruct act as [|txt|]; simpl;
    [unfold Sent.likeOOTDPostController|unfold Sent.addCommentController
    |unfold Sent.saveOOTDPostController];
    rewrite Hcast, (findByIdAndUpdate_found _ _ _ _ Hp); simpl;
    (rewrite decide_True by (intros E; by apply Hne)); simpl;
    by eexists.
Qed.

(** C4.  The handlers break the claim when the owner acts on her own post
    and sends her id with its letters in upper case.  Carol owns
    [post1]; the string she sends is cast to her id, so it is she who is
    recorded in [likes], in the comment and in [saves]; but the owner
    test compares the printed id with the string as sent, finds them
    different, and each of the three requests writes one notification,
    addressed to carol, about what carol did: where the claim has none,
    and never one addressed to the actor. *)
Theorem C4_owner_notified_of_own_action :
  Sent.castObjectId Sample2.carol_upper = Some Sample.carol ∧
  posts Sample.feed0 !! Sample.post1 = Some Sample.post1_doc ∧
  userId Sample.post1_doc = Sample.carol ∧
  notifications Sample.feed0 = [] ∧
  (fst (Sent.route Like Sample.post1 Sample2.carol_upper 50 Sample.feed0)
     = mkResponse 200 (JObj [("message", JStr "Post liked successfully");
                             ("likesCount", JNum 1)]) ∧
   (likes <$> posts (snd (Sent.route Like Sample.post1 Sample2.carol_upper 50 Sample.feed0))
              !! Sample.post1) = Some [Sample.carol] ∧
   notifications (snd (Sent.route Like Sample.post1 Sample2.carol_upper 50 Sample.feed0))
     = [Notification.mkNotification Sample.carol "like" (Some Sample.post1) false
          "User 65A1000000000000000000C3 liked your post." 50]) ∧
  ((comments <$> posts (snd (Sent.route (Comment "mine") Sample.post1 Sample2.carol_upper 50
                               Sample.feed0)) !! Sample.post1)
     = Some [mkComment Sample.carol "mine" 50] ∧
   notifications (snd (Sent.route (Comment "mine") Sample.post1 Sample2.carol_upper 50
                         Sample.feed0))
     = [Notification.mkNotification Sample.carol "comment" (Some Sample.post1) false
          ("User 65A1000000000000000000C3 commented on your post: "
             ++ dquote ++ "mine" ++ dquote) 50]) ∧
  ((saves <$> posts (snd (Sent.route Save Sample.post1 Sample2.carol_upper 50 Sample.feed0))
              !! Sample.post1) = Some [Sample.carol] ∧
   notifications (snd (Sent.route Save Sample.post1 Sample2.carol_upper 50 Sample.feed0))
     = [Notification.mkNotification Sample.carol "save" (Some Sample.post1) false
          "User 65A1000000000000000000C3 saved your post." 50]).
Proof. by vm_compute. Qed.

End PostProperties.

(** ** Products *)

Section ProductProperties.
Import Product.

Lemma truthy_Some (o : option string) :
  truthy o = true → ∃ s, o = Some s ∧ s ≠ "".
Proof.
  destruct o as [s|]; simpl; [|done]. intros H. exists s. split; [done|].
  intros ->. done.
Qed.

Lemma find_none_filter {A : Type} (f : A → bool) (l : list A) :
  List.find f l = None ↔ List.filter f l = [].
Proof.
  induction l as [|x l IH]; simpl; [done|].
  destruct (f x); [split; discriminate|done].
Qed.

Lemma find_app_last {A : Type} (f : A → bool) (l : list A) (x : A) :
  List.find f l = None → List.find f (l ++ [x]) = if f x then Some x else None.
Proof.
  induction l as [|y l IH]; simpl; [done|].
  destruct (f y); [discriminate|]. apply IH.
Qed.

Lemma find_some_elem {A : Type} (f : A → bool) (l : list A) (x : A) :
  List.find f l = Some x → x ∈ l ∧ f x = true.
Proof.
  intros H. apply List.find_some in H as [Hin Hf].
  split; [by apply list_elem_of_In|done].
Qed.

Lemma filter_length_app {A : Type} (f : A → bool) (l : list A) (x : A) :
  length (List.filter f (l ++ [x])) =
    if f x then S (length (List.filter f l)) else length (List.filter f l).
Proof.
  rewrite List.filter_app, length_app. simpl. destruct (f x); simpl; lia.
Qed.

(** Ids are unique in a collection: two documents of it with the same id
    are the same document. *)
Lemma same_id_same_doc (coll : Products) (p q : ProductDocument) :
  NoDup (map _id coll) → p ∈ coll → q ∈ coll → _id p = _id q → p = q.
Proof.
  induction coll as [|x coll IH]; intros Hnd Hp Hq Hid; [by apply elem_of_nil in Hp|].
  simpl in Hnd. apply NoDup_cons in Hnd as [Hx Hnd].
  apply elem_of_cons in Hp as [->|Hp]; apply elem_of_cons in Hq as [->|Hq].
  - done.
  - exfalso. apply Hx. rewrite Hid. by apply (list_elem_of_fmap_2 _id).
  - exfalso. apply Hx. rewrite <- Hid. by apply (list_elem_of_fmap_2 _id).
  - by apply IH.
Qed.

Lemma create_valid (newId : ObjectId) (d : ProductData) (coll : Products) :
  valid d = true →
  create newId d coll =
    (inr (mkProduct newId (with_defaults d)),
     (coll ++ [mkProduct newId (with_defaults d)])%list).
Proof. intros H. unfold create. by rewrite H. Qed.

Lemma create_invalid (newId : ObjectId) (d : ProductData) (coll : Products) :
  valid d = false → create newId d coll = (inl "Product validation failed", coll).
Proof. intros H. unfold create. by rewrite H. Qed.

(** Updating by id keeps the ids, in their order. *)
Lemma findByIdAndUpdate_ids (id : ObjectId) (upd : ProductData) (coll : Products) :
  map _id (snd (findByIdAndUpdate id upd coll)) = map _id coll.
Proof.
  induction coll as [|p coll IH]; simpl; [done|].
  case_decide; simpl; [done|].
  destruct (findByIdAndUpdate id upd coll) as [r rest]. simpl in *. by rewrite IH.
Qed.

(** Updating the document [e] of a collection returns [e] with the update
    applied, and does not change how many documents a filter accepts when
    the filter accepts [e] before and after. *)
Lemma findByIdAndUpdate_elem (f : ProductData → bool) (upd : ProductData)
    (coll : Products) (e : ProductDocument) :
  NoDup (map _id coll) → e ∈ coll →
  f (doc e) = true → f (apply_update upd (doc e)) = true →
  fst (findByIdAndUpdate (_id e) upd coll)
    = Some (mkProduct (_id e) (apply_update upd (doc e))) ∧
  length (List.filter (λ p, f (doc p)) (snd (findByIdAndUpdate (_id e) upd coll)))
    = length (List.filter (λ p, f (doc p)) coll).
Proof.
  intros Hnd He Hf Hf'. induction coll as [|p coll IH]; [by apply elem_of_nil in He|].
  simpl. case_decide as Hid.
  - assert (p = e) as ->.
    { apply (same_id_same_doc (p :: coll)); [done|by left|done|done]. }
    simpl. by rewrite Hf, Hf'.
  - apply elem_of_cons in He as [->|He]; [done|].
    simpl in Hnd. apply NoDup_cons in Hnd as [_ Hnd].
    destruct (IH Hnd He) as [IH1 IH2].
    destruct (findByIdAndUpdate (_id e) upd coll) as [r rest]. simpl in *.
    split; [done|]. destruct (f (doc p)); simpl; by rewrite IH2.
Qed.

Lemma by_name_brand_update (n b : string) (upd old : ProductData) :
  name upd = Some n → brand upd = Some b →
  by_name_brand (Some n) (Some b) (apply_update upd old) = true.
Proof.
  intros Hn Hb. unfold by_name_brand. apply bool_decide_eq_true.
  simpl. by rewrite Hn, Hb.
Qed.

Lemma by_name_brand_defaults (n b : string) (d : ProductData) :
  name d = Some n → brand d = Some b →
  by_name_brand (Some n) (Some b) (with_defaults d) = true.
Proof.
  intros Hn Hb. unfold by_name_brand. apply bool_decide_eq_true.
  simpl. by rewrite Hn, Hb.
Qed.

(** *** The service: keyed by name and brand *)

Lemma upsertProductFromClarifai_found (newId : ObjectId) (d : ProductData)
    (coll : Products) (e : ProductDocument) (n b : string) :
  NoDup (map _id coll) → name d = Some n → brand d = Some b →
  findOne (by_name_brand (Some n) (Some b)) coll = Some e →
  ∃ coll',
    upsertProductFromClarifai newId d coll
      = (inr (Some (mkProduct (_id e) (apply_update d (doc e)))), coll') ∧
    map _id coll' = map _id coll ∧
    length (with_name_brand n b coll') = length (with_name_brand n b coll).
Proof.
  intros Hnd Hn Hb Hfind. unfold upsertProductFromClarifai. rewrite Hn, Hb, Hfind.
  apply find_some_elem in Hfind as [He Hf].
  destruct (findByIdAndUpdate_elem (by_name_brand (Some n) (Some b)) d coll e)
    as [H1 H2]; [done|done|done|by apply by_name_brand_update|].
  pose proof (findByIdAndUpdate_ids (_id e) d coll) as Hids.
  destruct (findByIdAndUpdate (_id e) d coll) as [r coll']. simpl in *. subst r.
  by exists coll'.
Qed.

Lemma upsertProductFromClarifai_new (newId : ObjectId) (d : ProductData)
    (coll : Products) (n b : string) :
  name d = Some n → brand d = Some b → valid d = true →
  findOne (by_name_brand (Some n) (Some b)) coll = None →
  upsertProductFromClarifai newId d coll
    = (inr (Some (mkProduct newId (with_defaults d))),
       (coll ++ [mkProduct newId (with_defaults d)])%list).
Proof.
  intros Hn Hb Hv Hfind. unfold upsertProductFromClarifai.
  rewrite Hn, Hb, Hfind. by rewrite create_valid.
Qed.

(** *** The handler: keyed by name, brand, type and colour *)

Lemma has_required_fields_test (body : ProductData) :
  has_required_fields body = true →
  negb (truthy (brand body)) || negb (truthy (name body)) || negb (truthy (type body))
    || negb (truthy (color body)) || negb (truthy_number (price body))
    || negb (truthy (link body)) = false.
Proof.
  unfold has_required_fields. rewrite !andb_true_iff.
  intros [[[[[-> ->] ->] ->] ->] ->]. done.
Qed.

Lemma has_required_fields_valid (body : ProductData) :
  has_required_fields body = true → truthy (image body) = true →
  valid (clarifai_product body) = true.
Proof.
  unfold has_required_fields, valid. rewrite !andb_true_iff.
  intros [[[[[Hb Hn] Ht] Hc] Hp] Hl] Hi. simpl.
  rewrite Hb, Ht, Hc, Hl, Hi. simpl.
  destruct (price body); [|done]. by vm_compute.
Qed.

Lemma upsertController_found (newId : ObjectId) (body : ProductData)
    (coll : Products) (e : ProductDocument) :
  has_required_fields body = true →
  findOne (by_name_brand_type_color (name body) (brand body) (type body) (color body)) coll
    = Some e →
  upsertProductFromClarifaiController newId body coll =
    (mkResponse 200
       (JObj [("message", JStr "Product already exists"); ("product", product_json e)]),
     coll).
Proof.
  intros Hreq Hfind. unfold upsertProductFromClarifaiController.
  rewrite (has_required_fields_test _ Hreq). by rewrite Hfind.
Qed.

Lemma upsertController_new (newId : ObjectId) (body : ProductData) (coll : Products) :
  has_required_fields body = true → truthy (image body) = true →
  findOne (by_name_brand_type_color (name body) (brand body) (type body) (color body)) coll
    = None →
  upsertProductFromClarifaiController newId body coll =
    (mkResponse 201
       (JObj [("message", JStr "Product created from Clarifai data");
              ("product", product_json (mkProduct newId (with_defaults (clarifai_product body))))]),
     (coll ++ [mkProduct newId (with_defaults (clarifai_product body))])%list).
Proof.
  intros Hreq Himg Hfind. unfold upsertProductFromClarifaiController.
  rewrite (has_required_fields_test _ Hreq). rewrite Hfind.
  by rewrite (create_valid _ _ _ (has_required_fields_valid _ Hreq Himg)).
Qed.

(** *** Two upserts in a row *)

Lemma filter_nonempty_find {A : Type} (f : A → bool) (l : list A) :
  length (List.filter f l) ≠ 0 → ∃ x, List.find f l = Some x.
Proof.
  intros Hlen. destruct (List.find f l) as [x|] eqn:H; [by exists x|].
  apply find_none_filter in H. by rewrite H in Hlen.
Qed.

Lemma service_twice (coll : Products) (id1 id2 : ObjectId) (d1 d2 : ProductData)
    (n b : string) :
  NoDup (map _id coll) → id1 ∉ map _id coll →
  name d1 = Some n → brand d1 = Some b → name d2 = Some n → brand d2 = Some b →
  (length (with_name_brand n b coll) ≤ 1)%nat →
  (with_name_brand n b coll = [] → valid d1 = true) →
  length (with_name_brand n b
            (snd (upsertProductFromClarifai id2 d2
                    (snd (upsertProductFromClarifai id1 d1 coll))))) = 1 ∧
  map _id (snd (upsertProductFromClarifai id2 d2
                  (snd (upsertProductFromClarifai id1 d1 coll))))
    = map _id (snd (upsertProductFromClarifai id1 d1 coll)).
Proof.
  intros Hnd Hfresh Hn1 Hb1 Hn2 Hb2 Hle Hvalid.
  assert (Hfirst : NoDup (map _id (snd (upsertProductFromClarifai id1 d1 coll))) ∧
            length (with_name_brand n b (snd (upsertProductFromClarifai id1 d1 coll))) = 1).
  { destruct (findOne (by_name_brand (Some n) (Some b)) coll) as [e|] eqn:Hfind.
    - destruct (upsertProductFromClarifai_found id1 d1 coll e n b)
        as (coll' & -> & Hids & Hlen); try done.
      simpl. rewrite Hids, Hlen. split; [done|].
      unfold findOne in Hfind. unfold with_name_brand in *.
      destruct (List.filter _ coll) eqn:Hfil.
      + apply find_none_filter in Hfil. congruence.
      + simpl in *. lia.
    - rewrite (upsertProductFromClarifai_new id1 d1 coll n b); try done; cycle 1.
      { apply Hvalid. by apply find_none_filter. }
      simpl. split.
      + rewrite map_app. simpl. apply NoDup_app. split_and!; [done| |apply NoDup_singleton].
        intros x Hx Hx'%list_elem_of_singleton. by subst.
      + unfold with_name_brand. rewrite filter_length_app. simpl.
        rewrite by_name_brand_defaults by done.
        apply find_none_filter in Hfind. unfold findOne in Hfind.
        by rewrite Hfind. }
  destruct Hfirst as [Hnd1 Hlen1].
  destruct (filter_nonempty_find
              (λ p, by_name_brand (Some n) (Some b) (doc p))
              (snd (upsertProductFromClarifai id1 d1 coll))) as [e He].
  { unfold with_name_brand in Hlen1. lia. }
  destruct (upsertProductFromClarifai_found id2 d2 _ e n b Hnd1 Hn2 Hb2 He)
    as (coll' & -> & Hids & Hlen).
  simpl. by rewrite Hlen.
Qed.

Lemma by_key_defaults (n b t c : string) (body : ProductData) :
  name body = Some n → brand body = Some b → type body = Some t → color body = Some c →
  by_name_brand_type_color (Some n) (Some b) (Some t) (Some c)
    (with_defaults (clarifai_product body)) = true.
Proof.
  intros Hn Hb Ht Hc. unfold by_name_brand_type_color. apply bool_decide_eq_true.
  simpl. by rewrite Hn, Hb, Ht, Hc.
Qed.

Lemma controller_twice (coll : Products) (id1 id2 : ObjectId) (body1 body2 : ProductData)
    (n b t c : string) :
  name body1 = Some n → brand body1 = Some b → type body1 = Some t → color body1 = Some c →
  name body2 = Some n → brand body2 = Some b → type body2 = Some t → color body2 = Some c →
  has_required_fields body1 = true → has_required_fields body2 = true →
  (length (with_key n b t c coll) ≤ 1)%nat →
  (with_key n b t c coll = [] → truthy (image body1) = true) →
  length (with_key n b t c (snd (upsertProductFromClarifaiController id1 body1 coll))) = 1 ∧
  status (fst (upsertProductFromClarifaiController id2 body2
                 (snd (upsertProductFromClarifaiController id1 body1 coll)))) = 200 ∧
  snd (upsertProductFromClarifaiController id2 body2
         (snd (upsertProductFromClarifaiController id1 body1 coll)))
    = snd (upsertProductFromClarifaiController id1 body1 coll).
Proof.
  intros Hn1 Hb1 Ht1 Hc1 Hn2 Hb2 Ht2 Hc2 Hreq1 Hreq2 Hle Himg.
  assert (Hfirst :
    length (with_key n b t c (snd (upsertProductFromClarifaiController id1 body1 coll))) = 1).
  { destruct (findOne (by_name_brand_type_color (Some n) (Some b) (Some t) (Some c)) coll)
      as [e|] eqn:Hfind.
    - rewrite (upsertController_found id1 body1 coll e);
        [|done|by rewrite Hn1, Hb1, Ht1, Hc1].
      simpl. unfold findOne in Hfind. unfold with_key in *.
      destruct (List.filter _ coll) eqn:Hfil.
      + apply find_none_filter in Hfil. congruence.
      + simpl in *. lia.
    - pose proof Hfind as Hnil. apply find_none_filter in Hnil.
      rewrite (upsertController_new id1 body1 coll);
        [|done|by apply Himg|by rewrite Hn1, Hb1, Ht1, Hc1].
      simpl. unfold with_key. rewrite filter_length_app. cbn [doc].
      rewrite by_key_defaults by done. unfold findOne in Hnil. by rewrite Hnil. }
  split; [done|].
  destruct (filter_nonempty_find
              (λ p, by_name_brand_type_color (Some n) (Some b) (Some t) (Some c) (doc p))
              (snd (upsertProductFromClarifaiController id1 body1 coll))) as [e He].
  { unfold with_key in Hfirst. lia. }
  rewrite (upsertController_found id2 body2 _ e);
    [done|done|by rewrite Hn2, Hb2, Ht2, Hc2].
Qed.

(** *** An update is in place *)

(** On unique ids, updating the document [e] of a collection replaces
    [e] where it stands and leaves every other document as it is. *)
Lemma findByIdAndUpdate_in_place (upd : ProductData) (coll : Products) (e : ProductDocument) :
  NoDup (map _id coll) → e ∈ coll →
  findByIdAndUpdate (_id e) upd coll
    = (Some (mkProduct (_id e) (apply_update upd (doc e))),
       map (λ p, if decide (_id p = _id e)
                 then mkProduct (_id e) (apply_update upd (doc e)) else p) coll).
Proof.
  induction coll as [|p coll IH]; intros Hnd He; [by apply elem_of_nil in He|].
  simpl in Hnd. apply NoDup_cons in Hnd as [Hp Hnd]. simpl.
  destruct (decide (_id p = _id e)) as [Hid|Hid].
  - assert (p = e) as ->.
    { apply elem_of_cons in He as [->|He]; [done|].
      exfalso. apply Hp. rewrite Hid. by apply (list_elem_of_fmap_2 _id). }
    f_equal. f_equal. symmetry.
    transitivity (map (λ q : ProductDocument, q) coll); [|apply map_id].
    apply map_ext_in. intros q Hq%list_elem_of_In.
    rewrite decide_False; [done|].
    intros Hq'. apply Hp. rewrite <- Hq'. by apply (list_elem_of_fmap_2 _id).
  - apply elem_of_cons in He as [->|He]; [done|].
    by rewrite (IH Hnd He).
Qed.

Lemma findById_id (id : ObjectId) (coll : Products) (p : ProductDocument) :
  findById id coll = Some p → _id p = id.
Proof.
  intros H. apply find_some_elem in H as [_ H]. by apply bool_decide_eq_true in H.
Qed.

Lemma findById_elem (coll : Products) (e : ProductDocument) :
  NoDup (map _id coll) → e ∈ coll → findById (_id e) coll = Some e.
Proof.
  intros Hnd He. destruct (findById (_id e) coll) as [p|] eqn:Hfind.
  - pose proof (findById_id _ _ _ Hfind) as Hid.
    apply find_some_elem in Hfind as [Hp _]. f_equal. by apply (same_id_same_doc coll).
  - exfalso. unfold findById in Hfind. apply find_none_filter in Hfind.
    assert (e ∈ List.filter (λ p, bool_decide (_id p = _id e)) coll) as Hin.
    { apply list_elem_of_In, List.filter_In. split; [by apply list_elem_of_In|].
      by apply bool_decide_eq_true. }
    rewrite Hfind in Hin. by apply elem_of_nil in Hin.
Qed.

(** Looking up an id after the document with id [id] has been replaced,
    where it stands, by a document [e'] with the same id. *)
Lemma findById_replaced (id' id : ObjectId) (e' : ProductDocument) (coll : Products) :
  _id e' = id →
  findById id' (map (λ p, if decide (_id p = id) then e' else p) coll)
    = match findById id' coll with
      | Some p => Some (if decide (_id p = id) then e' else p)
      | None => None
      end.
Proof.
  intros He'. unfold findById. induction coll as [|p coll IH]; simpl; [done|].
  assert (_id (if decide (_id p = id) then e' else p) = _id p) as Hsame.
  { case_decide; congruence. }
  rewrite Hsame. by case_bool_decide.
Qed.

(** *** Candidates that differ in type or colour *)

Lemma by_key_other (n b t1 c1 t2 c2 : string) (body : ProductData) :
  type body = Some t1 → color body = Some c1 → (t1, c1) ≠ (t2, c2) →
  by_name_brand_type_color (Some n) (Some b) (Some t2) (Some c2)
    (with_defaults (clarifai_product body)) = false.
Proof.
  intros Ht Hc Hne. unfold by_name_brand_type_color. apply bool_decide_eq_false.
  simpl. rewrite Ht, Hc. intros (_ & _ & [= ->] & [= ->]). by apply Hne.
Qed.

Lemma controller_separate (coll : Products) (id1 id2 : ObjectId) (body1 body2 : ProductData)
    (n b t1 c1 t2 c2 : string) :
  name body1 = Some n → brand body1 = Some b → type body1 = Some t1 → color body1 = Some c1 →
  name body2 = Some n → brand body2 = Some b → type body2 = Some t2 → color body2 = Some c2 →
  (t1, c1) ≠ (t2, c2) →
  has_required_fields body1 = true → has_required_fields body2 = true →
  truthy (image body1) = true → truthy (image body2) = true →
  with_key n b t1 c1 coll = [] → with_key n b t2 c2 coll = [] →
  status (fst (upsertProductFromClarifaiController id1 body1 coll)) = 201 ∧
  status (fst (upsertProductFromClarifaiController id2 body2
                 (snd (upsertProductFromClarifaiController id1 body1 coll)))) = 201 ∧
  snd (upsertProductFromClarifaiController id2 body2
         (snd (upsertProductFromClarifaiController id1 body1 coll)))
    = (coll ++ [mkProduct id1 (with_defaults (clarifai_product body1));
                mkProduct id2 (with_defaults (clarifai_product body2))])%list ∧
  length (with_name_brand n b
            (snd (upsertProductFromClarifaiController id2 body2
                    (snd (upsertProductFromClarifaiController id1 body1 coll)))))
    = (length (with_name_brand n b coll) + 2)%nat.
Proof.
  intros Hn1 Hb1 Ht1 Hc1 Hn2 Hb2 Ht2 Hc2 Hne Hreq1 Hreq2 Himg1 Himg2 Hnil1 Hnil2.
  assert (findOne (by_name_brand_type_color (name body1) (brand body1) (type body1)
                     (color body1)) coll = None) as Hfind1.
  { rewrite Hn1, Hb1, Ht1, Hc1. by apply find_none_filter. }
  rewrite (upsertController_new id1 body1 coll Hreq1 Himg1 Hfind1). simpl.
  assert (findOne (by_name_brand_type_color (name body2) (brand body2) (type body2)
                     (color body2))
            (coll ++ [mkProduct id1 (with_defaults (clarifai_product body1))])%list = None)
    as Hfind2.
  { rewrite Hn2, Hb2, Ht2, Hc2. unfold findOne.
    rewrite find_app_last by (by apply find_none_filter). cbn [doc].
    by rewrite (by_key_other n b t1 c1 t2 c2 body1). }
  rewrite (upsertController_new id2 body2 _ Hreq2 Himg2 Hfind2). simpl.
  split_and!; [done|done|by rewrite <- app_assoc|].
  unfold with_name_brand. rewrite <- app_assoc. simpl.
  rewrite List.filter_app, length_app. simpl. cbn [doc].
  rewrite !by_name_brand_defaults by done. done.
Qed.

(** C6 does not hold of the route handler: it looks the candidate up by
    name, brand, type and colour, so the red and the blue coat, which
    share name and brand, are both inserted, and two stored products have
    that name and brand. *)
Lemma C6_two_records_same_name_brand :
  name Sample.red_coat = name Sample.blue_coat ∧
  brand Sample.red_coat = brand Sample.blue_coat ∧
  length (with_name_brand "Linen Coat" "Zara" Sample.catalogue2) = 2.
Proof. by vm_compute. Qed.

(** Two more situations in which the upserts do not leave exactly one
    product: products stored twice before the upserts stay stored twice,
    and a first candidate that fails the schema is not stored at all. *)
Remark upsert_keeps_earlier_duplicates :
  length (with_name_brand "Linen Coat" "Zara"
            (snd (upsertProductFromClarifai "65c3000000000000000000a9" Sample.red_coat
                    (snd (upsertProductFromClarifai "65c3000000000000000000a8" Sample.red_coat
                            Sample.catalogue2))))) = 2.
Proof. by vm_compute. Qed.

Remark upsert_invalid_candidate_not_stored :
  upsertProductFromClarifai Sample.prod1
    (mkData (Some "Zara") (Some "Linen Coat") None None None None None None None None
       None None None None) []
  = (inl "Failed to process Clarifai product data", []).
Proof. by vm_compute. Qed.

(** C6, in the form that holds.  On a collection with unique ids:
    - two runs of the service [upsertProductFromClarifai] with candidates
      of the same name and brand leave exactly one product of that name
      and brand, provided at most one was stored before and, when none
      was, the first candidate passes the schema; the second run inserts
      nothing;
    - two runs of the route handler with candidates of the same name,
      brand, type and colour that pass its required-field test leave
      exactly one product with these four values, provided at most one
      was stored before and, when none was, the first candidate has an
      image; the second run answers 200 and changes nothing;
    - two runs of the route handler with candidates of the same name and
      brand that differ in type or colour, pass its test and have an
      image, none of them stored before, are both answered 201 and store
      two products: the collection is the old one followed by the first
      and the second candidate, and holds two more products of that name
      and brand;
    - a run of the service that finds a match updates that product in
      place: the stored document with its id takes the candidate's
      fields, it stays where it stood, and every other stored document
      is as before; a run that finds none inserts one product. *)
Theorem C6_upsert_twice_keeps_one
    (coll : Products) (id1 id2 : ObjectId) (n b : string) :
  NoDup (map _id coll) → id1 ∉ map _id coll →
  (∀ d1 d2,
     name d1 = Some n → brand d1 = Some b → name d2 = Some n → brand d2 = Some b →
     (length (with_name_brand n b coll) ≤ 1)%nat →
     (with_name_brand n b coll = [] → valid d1 = true) →
     length (with_name_brand n b
               (snd (upsertProductFromClarifai id2 d2
                       (snd (upsertProductFromClarifai id1 d1 coll))))) = 1 ∧
     map _id (snd (upsertProductFromClarifai id2 d2
                     (snd (upsertProductFromClarifai id1 d1 coll))))
       = map _id (snd (upsertProductFromClarifai id1 d1 coll))) ∧
  (∀ t c body1 body2,
     name body1 = Some n → brand body1 = Some b →
     type body1 = Some t → color body1 = Some c →
     name body2 = Some n → brand body2 = Some b →
     type body2 = Some t → color body2 = Some c →
     has_required_fields body1 = true → has_required_fields body2 = true →
     (length (with_key n b t c coll) ≤ 1)%nat →
     (with_key n b t c coll = [] → truthy (image body1) = true) →
     length (with_key n b t c
               (snd (upsertProductFromClarifaiController id1 body1 coll))) = 1 ∧
     status (fst (upsertProductFromClarifaiController id2 body2
                    (snd (upsertProductFromClarifaiController id1 body1 coll)))) = 200 ∧
     snd (upsertProductFromClarifaiController id2 body2
            (snd (upsertProductFromClarifaiController id1 body1 coll)))
       = snd (upsertProductFromClarifaiController id1 body1 coll)) ∧
  (∀ t1 c1 t2 c2 body1 body2,
     name body1 = Some n → brand body1 = Some b →
     type body1 = Some t1 → color body1 = Some c1 →
     name body2 = Some n → brand body2 = Some b →
     type body2 = Some t2 → color body2 = Some c2 →
     (t1, c1) ≠ (t2, c2) →
     has_required_fields body1 = true → has_required_fields body2 = true →
     truthy (image body1) = true → truthy (image body2) = true →
     with_key n b t1 c1 coll = [] → with_key n b t2 c2 coll = [] →
     status (fst (upsertProductFromClarifaiController id1 body1 coll)) = 201 ∧
     status (fst (upsertProductFromClarifaiController id2 body2
                    (snd (upsertProductFromClarifaiController id1 body1 coll)))) = 201 ∧
     snd (upsertProductFromClarifaiController id2 body2
            (snd (upsertProductFromClarifaiController id1 body1 coll)))
       = (coll ++ [mkProduct id1 (with_defaults (clarifai_product body1));
                   mkProduct id2 (with_defaults (clarifai_product body2))])%list ∧
     length (with_name_brand n b
               (snd (upsertProductFromClarifaiController id2 body2
                       (snd (upsertProductFromClarifaiController id1 body1 coll)))))
       = (length (with_name_brand n b coll) + 2)%nat) ∧
  (∀ d e,
     name d = Some n → brand d = Some b →
     findOne (by_name_brand (Some n) (Some b)) coll = Some e →
     ∃ coll',
       upsertProductFromClarifai id1 d coll
         = (inr (Some (mkProduct (_id e) (apply_update d (doc e)))), coll') ∧
       map _id coll' = map _id coll ∧
       coll' = map (λ p, if decide (_id p = _id e)
                         then mkProduct (_id e) (apply_update d (doc e)) else p) coll ∧
       findById (_id e) coll' = Some (mkProduct (_id e) (apply_update d (doc e))) ∧
       (∀ id', id' ≠ _id e → findById id' coll' = findById id' coll)) ∧
  (∀ d,
     name d = Some n → brand d = Some b → valid d = true →
     findOne (by_name_brand (Some n) (Some b)) coll = None →
     upsertProductFromClarifai id1 d coll
       = (inr (Some (mkProduct id1 (with_defaults d))),
          (coll ++ [mkProduct id1 (with_defaults d)])%list)).
Proof.
  intros Hnd Hfresh. split_and!.
  - intros d1 d2 ? ? ? ? ? ?. by apply service_twice.
  - intros t c body1 body2 ? ? ? ? ? ? ? ? ? ? ? ?. by apply controller_twice.
  - intros t1 c1 t2 c2 body1 body2 ? ? ? ? ? ? ? ? ? ? ? ? ? ? ?.
    by apply (controller_separate coll id1 id2 body1 body2 n b t1 c1 t2 c2).
  - intros d e Hn Hb Hfind.
    pose proof (find_some_elem _ _ _ Hfind) as [He _].
    pose proof (findByIdAndUpdate_in_place d coll e Hnd He) as Hplace.
    unfold upsertProductFromClarifai. rewrite Hn, Hb, Hfind, Hplace.
    eexists. split; [done|]. split_and!.
    + rewrite map_map. apply map_ext. intros p. by case_decide.
    + done.
    + rewrite findById_replaced by done. rewrite (findById_elem coll e Hnd He).
      by rewrite decide_True.
    + intros id' Hne. rewrite findById_replaced by done.
      destruct (findById id' coll) as [p|] eqn:Hp; [|done].
      apply findById_id in Hp. by rewrite decide_False by congruence.
  - intros d Hn Hb Hv Hfind. by apply (upsertProductFromClarifai_new id1 d coll n b).
Qed.

Lemma C6_witness :
  length (with_name_brand "Linen Coat" "Zara"
            (snd (upsertProductFromClarifai Sample.prod2 Sample.blue_coat
                    (snd (upsertProductFromClarifai Sample.prod1 Sample.red_coat []))))) = 1 ∧
  map _id (snd (upsertProductFromClarifai Sample.prod2 Sample.blue_coat
                  (snd (upsertProductFromClarifai Sample.prod1 Sample.red_coat []))))
    = map _id (snd (upsertProductFromClarifai Sample.prod1 Sample.red_coat [])).
Proof.
  apply (proj1 (C6_upsert_twice_keeps_one [] Sample.prod1 Sample.prod2 "Linen Coat" "Zara"
                  (NoDup_nil_2 (A:=ObjectId)) (not_elem_of_nil Sample.prod1))
           Sample.red_coat Sample.blue_coat);
    try reflexivity.
  - simpl. lia.
Defined.

End ProductProperties.

(** ** Closet items *)

Section ClosetProperties.
Import ClosetItem.

(** [a || b] is [a] when [a] is there, [b] otherwise. *)
Lemma or_else_spec (a b : option string) :
  (truthy a = true → or_else a b = a) ∧ (truthy a = false → or_else a b = b).
Proof. unfold or_else. destruct (truthy a); split; done || discriminate. Qed.

(** A request with a product reference that resolves, and whose merged
    fields pass the schema, is stored. *)
Lemma createClosetItem_linked (newId pid : ObjectId) (data : ClosetItemData)
    (products : list Product.ProductDocument) (coll : Closet) (product : Product.ProductDocument) :
  productId data = Some pid → pid ≠ "" →
  Product.findById pid products = Some product →
  createClosetItem newId data products coll =
    if valid (populate (Product.doc product) data) then
      (inr (mkItem newId (with_defaults (populate (Product.doc product) data))),
       (coll ++ [mkItem newId (with_defaults (populate (Product.doc product) data))])%list)
    else (inl "Failed to create closet item", coll).
Proof.
  intros Hpid Hne Hfind. unfold createClosetItem. rewrite Hpid. simpl.
  assert (String.eqb pid "" = false) as -> by (by apply String.eqb_neq).
  simpl. rewrite Hfind. unfold create.
  by destruct (valid (populate (Product.doc product) data)).
Qed.

(** C7.  When a request carries a product reference that resolves to a
    stored product and the item is created, each of type, colour, season,
    occasion, name and image of the created item is the product's value
    when the product has that field, and the request's value when the
    product lacks it; the item is the one appended to the closet. *)
Theorem C7_product_first_request_second
    (newId pid : ObjectId) (data : ClosetItemData)
    (products : list Product.ProductDocument) (coll coll' : Closet)
    (product : Product.ProductDocument) (item : ClosetItemDocument) :
  productId data = Some pid → pid ≠ "" →
  Product.findById pid products = Some product →
  createClosetItem newId data products coll = (inr item, coll') →
  let p := Product.doc product in
  ((truthy (Product.type p) = true → type (doc item) = Product.type p) ∧
   (truthy (Product.type p) = false → type (doc item) = type data)) ∧
  ((truthy (Product.color p) = true → color (doc item) = Product.color p) ∧
   (truthy (Product.color p) = false → color (doc item) = color data)) ∧
  ((truthy (Product.image p) = true → customImage (doc item) = Product.image p) ∧
   (truthy (Product.image p) = false → customImage (doc item) = customImage data)) ∧
  ((truthy (Product.name p) = true → name (doc item) = Product.name p) ∧
   (truthy (Product.name p) = false → name (doc item) = name data)) ∧
  ((truthy (Product.season p) = true → season (doc item) = Product.season p) ∧
   (truthy (Product.season p) = false → season (doc item) = season data)) ∧
  ((truthy (Product.occasion p) = true → occasion (doc item) = Product.occasion p) ∧
   (truthy (Product.occasion p) = false → occasion (doc item) = occasion data)) ∧
  productId (doc item) = Some pid ∧
  coll' = (coll ++ [item])%list.
Proof.
  intros Hpid Hne Hfind Hcreate p.
  rewrite (createClosetItem_linked newId pid data products coll product) in Hcreate by done.
  destruct (valid (populate (Product.doc product) data)); [|discriminate].
  injection Hcreate as <- <-. simpl. fold p.
  split_and!; try apply or_else_spec; done.
Qed.

Lemma C7_witness :
  ∃ item,
    createClosetItem Sample.item1 Sample.own_coat Sample.catalogue1 [] = (inr item, [item]) ∧
    type (doc item) = Some "coat" ∧
    color (doc item) = Some "red" ∧
    customImage (doc item) = Some "https://img.example/coat.jpg" ∧
    name (doc item) = Some "Linen Coat" ∧
    season (doc item) = Some "winter" ∧
    occasion (doc item) = Some "casual".
Proof.
  eexists. split; [by vm_compute|].
  pose proof (C7_product_first_request_second Sample.item1 Sample.prod1 Sample.own_coat
    Sample.catalogue1 [] _ _ _ eq_refl ltac:(done) eq_refl eq_refl) as H.
  simpl in H. destruct H as ([H1 _] & [H2 _] & [H3 _] & [H4 _] & [_ H5] & [_ H6] & _).
  split_and!; [by apply H1|by apply H2|by apply H3|by apply H4|by apply H5|by apply H6].
Defined.

End ClosetProperties.

(** ** Authentication *)

Section SplitProperties.
Import AuthToken.

Example split_bearer : split " " "Bearer abc.def" = ["Bearer"; "abc.def"].
Proof. reflexivity. Qed.

Example split_double_space : split " " "a  b" = ["a"; ""; "b"].
Proof. reflexivity. Qed.

Example split_empty : split " " "" = [""].
Proof. reflexivity. Qed.

Example bearer_token_missing : bearer_token "Bearer" = None.
Proof. reflexivity. Qed.

Lemma split_nonempty (c : ascii) (s : string) : split c s ≠ [].
Proof.
  induction s as [|a s IH]; simpl; [done|].
  destruct (Ascii.eqb a c); [done|]. by destruct (split c s).
Qed.

Lemma split_no_space (s : string) :
  no_space s = true → split " " s = [s].
Proof.
  induction s as [|a s IH]; simpl; [done|].
  intros [Ha Hs]%andb_true_iff. apply negb_true_iff in Ha. rewrite Ha.
  by rewrite (IH Hs).
Qed.

Lemma split_scheme (scheme rest : string) :
  no_space scheme = true →
  split " " (scheme ++ String " " rest) = scheme :: split " " rest.
Proof.
  induction scheme as [|a s IH]; simpl; [done|].
  intros [Ha Hs]%andb_true_iff. apply negb_true_iff in Ha. rewrite Ha.
  by rewrite (IH Hs).
Qed.

(** A header [Bearer <token>] yields the token. *)
Lemma bearer_token_extracts (token : string) :
  no_space token = true → bearer_token ("Bearer " ++ token) = Some token.
Proof.
  intros Htok. unfold bearer_token.
  change ("Bearer " ++ token) with ("Bearer" ++ String " " token).
  rewrite split_scheme by done. by rewrite split_no_space.
Qed.

End SplitProperties.

Section ToyProperties.
Import AuthToken ToyJwt.

Lemma read_unary_unary (n : nat) (uid : string) :
  read_unary (unary n ++ String "." uid) = (n, String "." uid).
Proof. induction n as [|n IH]; simpl; [done|]. by rewrite IH. Qed.

(** The stand-in meets the contract. *)
Lemma toy_contract : JwtContract toy.
Proof.
  split; [|done].
  intros p secret o t t' Ht Htt'. simpl. unfold toy_verify, toy_sign.
  rewrite read_unary_unary. simpl.
  rewrite Z2Nat.id by lia. done.
Qed.

End ToyProperties.

Section AuthProperties.
Import AuthToken.
Context {lib : JwtLibrary} (contract : JwtContract lib).

(** C9.  For a [jsonwebtoken] that meets its contract:
    - a token issued for a user at time [t] verifies, and decodes to that
      user, at every time from [t] up to but excluding [t + 3600], and is
      expired from then on, whoever the user is;
    - a request without an Authorization header is answered with 401;
    - a request whose token fails verification is answered with 403;
    - otherwise the request is handed on with the decoded user id in its
      body;
    so a request carrying [Bearer <token>] with a freshly issued token is
    handed on with that user id during the hour and answered with 403
    after it. *)
Theorem C9_issue_and_verify (env : option string) :
  (∀ uid t t', (0 ≤ t)%Z → (t ≤ t')%Z →
     verify (Some (generateToken env uid t)) (JWT_SECRET env) t' =
       if (t' <? t + 3600)%Z then inr (mkDecoded (Some uid))
       else inl TokenExpiredError) ∧
  (∀ req t, authorization req = None →
     verifyToken env req t =
       Responded (mkResponse 401 (json_message "No token provided"))) ∧
  (∀ req h t e, authorization req = Some h → h ≠ "" →
     verify (bearer_token h) (JWT_SECRET env) t = inl e →
     verifyToken env req t =
       Responded (mkResponse 403 (json_message "Failed to authenticate token"))) ∧
  (∀ req h t d, authorization req = Some h → h ≠ "" →
     verify (bearer_token h) (JWT_SECRET env) t = inr d →
     verifyToken env req t = Next (mkRequest (Some h) (decoded_userId d))) ∧
  (∀ uid t t' b, (0 ≤ t)%Z → (t ≤ t')%Z →
     no_space (generateToken env uid t) = true →
     verifyToken env (mkRequest (Some ("Bearer " ++ generateToken env uid t)) b) t' =
       if (t' <? t + 3600)%Z
       then Next (mkRequest (Some ("Bearer " ++ generateToken env uid t)) (Some uid))
       else Responded (mkResponse 403 (json_message "Failed to authenticate token"))).
Proof.
  assert (Hissue : ∀ uid t t', (0 ≤ t)%Z → (t ≤ t')%Z →
     verify (Some (generateToken env uid t)) (JWT_SECRET env) t' =
       if (t' <? t + 3600)%Z then inr (mkDecoded (Some uid))
       else inl TokenExpiredError).
  { intros uid t t' Ht Htt'. unfold generateToken.
    rewrite (verify_signed lib contract) by done. simpl.
    by rewrite (one_hour lib contract). }
  assert (Hhdr : ∀ h, h ≠ "" → truthy (Some h) = true).
  { intros h Hh. simpl. apply negb_true_iff. by apply String.eqb_neq. }
  split_and!.
  - done.
  - intros req t Hnone. unfold verifyToken. by rewrite Hnone.
  - intros req h t e Hsome Hh Hv. unfold verifyToken.
    rewrite Hsome, (Hhdr h Hh). simpl. by rewrite Hv.
  - intros req h t d Hsome Hh Hv. unfold verifyToken.
    rewrite Hsome, (Hhdr h Hh). simpl. by rewrite Hv.
  - intros uid t t' b Ht Htt' Hns. unfold verifyToken. simpl.
    rewrite bearer_token_extracts by done.
    rewrite (Hissue uid t t' Ht Htt').
    by destruct (t' <? t + 3600)%Z.
Qed.

End AuthProperties.

Lemma C9_witness :
  AuthToken.verifyToken (H := ToyJwt.toy) None
    (AuthToken.mkRequest
       (Some ("Bearer " ++ AuthToken.generateToken (H := ToyJwt.toy) None Sample.alice 100))
       None) 3699 =
    if (3699 <? 100 + 3600)%Z
    then AuthToken.Next
           (AuthToken.mkRequest
              (Some ("Bearer " ++ AuthToken.generateToken (H := ToyJwt.toy) None Sample.alice 100))
              (Some Sample.alice))
    else AuthToken.Responded
           (mkResponse 403 (json_message "Failed to authenticate token")).
Proof.
  apply (proj2 (proj2 (proj2 (proj2
           (C9_issue_and_verify (lib := ToyJwt.toy) toy_contract None))))
           Sample.alice 100%Z 3699%Z None).
  - lia.
  - lia.
  - by vm_compute.
Defined.

(** * Further properties of the code *)

(** ** Follow and unfollow *)

Section FollowProperties.
Import User.



(** X2.  A follow or an unfollow request touches two documents at most:
    every other document is left as it is, no document is created or
    removed, the actor keeps its name, followers and follower counter and
    the target keeps its name, following and following counter. *)
Theorem follow_unfollow_touch_two_documents (db : Users) (a b : ObjectId) :
  (∀ k, k ≠ a → k ≠ b →
     snd (followUserController a b db) !! k = db !! k ∧
     snd (unfollowUserController a b db) !! k = db !! k) ∧
  dom (snd (followUserController a b db)) = dom db ∧
  dom (snd (unfollowUserController a b db)) = dom db ∧
  (∀ ua, db !! a = Some ua →
     ∃ ua1 ua2,
       snd (followUserController a b db) !! a = Some ua1 ∧
       snd (unfollowUserController a b db) !! a = Some ua2 ∧
       username ua1 = username ua ∧ followers ua1 = followers ua ∧
       followerCount ua1 = followerCount ua ∧
       username ua2 = username ua ∧ followers ua2 = followers ua ∧
       followerCount ua2 = followerCount ua) ∧
  (∀ ub, db !! b = Some ub →
     ∃ ub1 ub2,
       snd (followUserController a b db) !! b = Some ub1 ∧
       snd (unfollowUserController a b db) !! b = Some ub2 ∧
       username ub1 = username ub ∧ following ub1 = following ub ∧
       followingCount ub1 = followingCount ub ∧
       username ub2 = username ub ∧ following ub2 = following ub ∧
       followingCount ub2 = followingCount ub).
Proof.
  destruct (followUserController_cases a b db)
    as [Hf|(ua & ub & Hab & Ha & Hb & Hin & Hf)];
  destruct (unfollowUserController_cases a b db)
    as [Hu|(ua' & ub' & Hab' & Ha' & Hb' & Hin' & Hu)];
  rewrite Hf, Hu; clear Hf Hu; simplify_eq.
  - split_and!; try done; intros u Hu; exists u, u; by rewrite Hu.
  - split_and!.
    + intros k Hka Hkb. split; [done|]. by rewrite !lookup_insert_ne.
    + done.
    + rewrite !dom_insert_L. apply elem_of_dom_2 in Ha', Hb'. set_solver.
    + intros u Hu. simplify_eq. eexists _, _. split; [done|].
      rewrite lookup_insert_ne by done. rewrite lookup_insert_eq. by split_and!.
    + intros u Hu. simplify_eq. eexists _, _. split; [done|].
      rewrite lookup_insert_eq. by split_and!.
  - split_and!.
    + intros k Hka Hkb. split; [|done]. by rewrite !lookup_insert_ne.
    + rewrite !dom_insert_L. apply elem_of_dom_2 in Ha, Hb. set_solver.
    + done.
    + intros u Hu. simplify_eq. eexists _, _.
      rewrite lookup_insert_ne by done. rewrite lookup_insert_eq. by split_and!.
    + intros u Hu. simplify_eq. eexists _, _.
      rewrite lookup_insert_eq. by split_and!.
Qed.

(** X3.  Deleting a user leaves the lists of the others as they are: a
    follower of the deleted user keeps the id in [following] and keeps the
    counter, and its unfollow requests for that id are answered with 404,
    so the entry cannot be removed through the routes. *)
Theorem deleted_user_stays_followed
    (db : Users) (a b : ObjectId) (ua : UserDocument) :
  a ≠ b → db !! a = Some ua → b ∈ following ua →
  deleteUser b db !! a = Some ua ∧
  deleteUser b db !! b = None ∧
  unfollowUserController a b (deleteUser b db) =
    (mkResponse 404 (json_message "User not found"), deleteUser b db) ∧
  followUserController a b (deleteUser b db) =
    (mkResponse 404 (json_message "User not found"), deleteUser b db).
Proof.
  intros Hab Ha Hin. unfold deleteUser.
  assert (Hb : delete b db !! b = None) by apply lookup_delete_eq.
  split_and!.
  - by rewrite lookup_delete_ne.
  - done.
  - apply unfollowUserController_missing; auto.
  - apply followUserController_missing; auto.
Qed.

Lemma deleted_user_stays_followed_witness :
  deleteUser Sample.carol Sample.users1 !! Sample.alice
    = Some (mkUser "alice" (Some 0%Z) (Some 1%Z) [] [Sample.carol]) ∧
  deleteUser Sample.carol Sample.users1 !! Sample.carol = None ∧
  unfollowUserController Sample.alice Sample.carol (deleteUser Sample.carol Sample.users1) =
    (mkResponse 404 (json_message "User not found"), deleteUser Sample.carol Sample.users1) ∧
  followUserController Sample.alice Sample.carol (deleteUser Sample.carol Sample.users1) =
    (mkResponse 404 (json_message "User not found"), deleteUser Sample.carol Sample.users1).
Proof.
  apply (deleted_user_stays_followed Sample.users1 Sample.alice Sample.carol).
  - done.
  - by vm_compute.
  - simpl. apply list_elem_of_singleton. done.
Defined.

(** After [followUser] the relationship is recorded on both sides. *)
Lemma followUser_records (a b : ObjectId) (db : Users) (ua ub : UserDocument) :
  db !! a = Some ua → db !! b = Some ub →
  ∃ ua2 ub2,
    snd (followUser a b db) !! a = Some ua2 ∧
    snd (followUser a b db) !! b = Some ub2 ∧
    b ∈ following ua2 ∧ a ∈ followers ub2.
Proof.
  intros Ha Hb. unfold followUser. rewrite Ha, Hb. simpl.
  destruct (decide (a = b)) as [->|Hab].
  - assert (ua = ub) as -> by congruence.
    repeat case_decide; rewrite ?lookup_alter_eq, ?Hb; simpl;
      eexists _, _; (split; [reflexivity|]); (split; [reflexivity|]); simpl;
      rewrite ?elem_of_app, ?list_elem_of_singleton; split; auto;
      by apply dec_stable.
  - repeat case_decide;
      rewrite ?lookup_alter_eq, ?(lookup_alter_ne _ _ b a), ?(lookup_alter_ne _ _ a b),
        ?lookup_alter_eq, ?Ha, ?Hb by done; simpl;
      eexists _, _; (split; [reflexivity|]); (split; [reflexivity|]); simpl;
      rewrite ?elem_of_app, ?list_elem_of_singleton; split; auto;
      by apply dec_stable.
Qed.

(** X4.  The service function [followUser] can be repeated: a second call
    with the same two ids changes nothing.  It also keeps the counters of
    every user equal to the lengths of its lists, on any store. *)
Theorem followUser_repeatable (db : Users) (a b : ObjectId) :
  snd (followUser a b (snd (followUser a b db))) = snd (followUser a b db) ∧
  ((∀ k u, db !! k = Some u → counts_mirror u) →
   ∀ k u, snd (followUser a b db) !! k = Some u → counts_mirror u).
Proof.
  split.
  - destruct (db !! a) as [ua|] eqn:Ha; cycle 1.
    { unfold followUser at 2 3. rewrite Ha. simpl. unfold followUser. by rewrite Ha. }
    destruct (db !! b) as [ub|] eqn:Hb; cycle 1.
    { unfold followUser at 2 3. rewrite Ha, Hb. simpl. unfold followUser. by rewrite Ha, Hb. }
    destruct (followUser_records a b db ua ub Ha Hb) as (ua2 & ub2 & Ha2 & Hb2 & Hin & Hin').
    unfold followUser at 1. rewrite Ha2, Hb2. simpl.
    rewrite (decide_False (P := b ∉ following ua2)) by (intros H; by apply H).
    rewrite (decide_False (P := a ∉ followers ub2)) by (intros H; by apply H).
    done.
  - intros Hc k u. unfold followUser.
    destruct (db !! a) as [ua|] eqn:Ha; [|by apply Hc].
    destruct (db !! b) as [ub|] eqn:Hb; [|by apply Hc]. simpl.
    destruct (Hc _ _ Ha) as [Hca1 Hca2], (Hc _ _ Hb) as [Hcb1 Hcb2].
    repeat case_decide; rewrite ?lookup_alter; repeat case_decide; subst;
      rewrite ?lookup_alter, ?Ha, ?Hb; repeat case_decide; simpl;
      intros Hk; simplify_eq/=; try (by eapply Hc);
      unfold counts_mirror; simpl;
      rewrite ?length_app, ?Hca1, ?Hca2, ?Hcb1, ?Hcb2; simpl;
      split; f_equal; lia.
Qed.

End FollowProperties.

(** ** Accounts *)

Section AccountProperties.
Import Account.

Lemma getUserByEmail_None (e : string) (coll : Users) :
  getUserByEmail (Some e) coll = None ↔ e ∉ map email coll.
Proof.
  unfold getUserByEmail. induction coll as [|u coll IH]; simpl.
  - split; [intros _; apply not_elem_of_nil|done].
  - rewrite not_elem_of_cons. case_bool_decide as Hu.
    + split; [discriminate|]. intros [Hne _]. congruence.
    + rewrite IH. split; [|tauto]. intros Hn. split; [congruence|done].
Qed.

(** The outcome of a registration, case by case. *)
Lemma createUserController_cases `{Bcrypt} `{AuthToken.JwtLibrary}
    (env : option string) (newId : ObjectId) (username' email' password : option string)
    (now : Z) (coll : Users) :
  (snd (createUserController env newId username' email' password now coll) = coll ∧
   status (fst (createUserController env newId username' email' password now coll)) ≠ 201) ∨
  ∃ n e p,
    username' = Some n ∧ email' = Some e ∧ password = Some p ∧
    (e ∉ map email coll) ∧
    createUserController env newId username' email' password now coll =
      (mkResponse 201
         (JObj [("message", JStr "New user created");
                ("user", user_json (mkUser newId n e (bcrypt_hash p 10) (Some "") None (Some "")));
                ("token", JStr (AuthToken.generateToken env newId now))]),
       (coll ++ [mkUser newId n e (bcrypt_hash p 10) (Some "") None (Some "")])%list).
Proof.
  unfold createUserController.
  destruct (negb (truthy username') || negb (truthy email') || negb (truthy password)) eqn:Hreq.
  { left. by split. }
  apply orb_false_iff in Hreq as [Hreq Hp]. apply orb_false_iff in Hreq as [Hn He].
  apply negb_false_iff, truthy_Some in Hn as (n & -> & _).
  apply negb_false_iff, truthy_Some in He as (e & -> & _).
  apply negb_false_iff, truthy_Some in Hp as (p & -> & _).
  destruct (getUserByEmail (Some e) coll) eqn:Hfind.
  { left. by split. }
  apply getUserByEmail_None in Hfind. simpl.
  unfold createUser.
  destruct (String.eqb n "" || String.eqb e "" || String.eqb (bcrypt_hash p 10) "").
  { left. by split. }
  rewrite bool_decide_eq_false_2 by done. simpl.
  right. exists n, e, p. by split_and!.
Qed.

(** X5.  Registration keeps emails unique: when no two accounts share an
    email before a registration request, none do after it, whatever the
    request; and the ids stay distinct when the new id is a fresh one.  A
    request that is answered with 201 appends exactly one account, which
    has the new id and the request's email, and that email was not
    stored before; any other answer leaves the collection as it was. *)
Theorem registration_keeps_emails_unique `{Bcrypt} `{AuthToken.JwtLibrary}
    (env : option string) (newId : ObjectId) (username' email' password : option string)
    (now : Z) (coll : Users) :
  NoDup (map email coll) → NoDup (map _id coll) → newId ∉ map _id coll →
  NoDup (map email (snd (createUserController env newId username' email' password now coll))) ∧
  NoDup (map _id (snd (createUserController env newId username' email' password now coll))) ∧
  (status (fst (createUserController env newId username' email' password now coll)) = 201 →
   ∃ newUser,
     snd (createUserController env newId username' email' password now coll)
       = (coll ++ [newUser])%list ∧
     _id newUser = newId ∧ email' = Some (email newUser) ∧
     (email newUser ∉ map email coll)) ∧
  (status (fst (createUserController env newId username' email' password now coll)) ≠ 201 →
   snd (createUserController env newId username' email' password now coll) = coll).
Proof.
  intros Hem Hid Hfresh.
  destruct (createUserController_cases env newId username' email' password now coll)
    as [[-> Hst]|(n & e & p & -> & -> & -> & Hnew & ->)]; [by split_and!|].
  simpl. rewrite !map_app. simpl. split_and!.
  - apply NoDup_app. split_and!; [done| |apply NoDup_singleton].
    intros x Hx Hx'%list_elem_of_singleton. by subst.
  - apply NoDup_app. split_and!; [done| |apply NoDup_singleton].
    intros x Hx Hx'%list_elem_of_singleton. by subst.
  - intros _. by eexists.
  - intros Hst. by exfalso.
Qed.

End AccountProperties.

Lemma registration_keeps_emails_unique_witness :
  NoDup (map Account.email
           (snd (Account.createUserController (H := Sample2.toy_bcrypt) (H0 := ToyJwt.toy)
                   None Sample.carol (Some "carol") (Some "carol@example.com")
                   (Some "letmein") 300 Sample2.accounts2))) ∧
  ∃ newUser,
    snd (Account.createUserController (H := Sample2.toy_bcrypt) (H0 := ToyJwt.toy)
           None Sample.carol (Some "carol") (Some "carol@example.com")
           (Some "letmein") 300 Sample2.accounts2)
      = (Sample2.accounts2 ++ [newUser])%list ∧
    Account._id newUser = Sample.carol ∧
    Some "carol@example.com" = Some (Account.email newUser) ∧
    (Account.email newUser ∉ map Account.email Sample2.accounts2).
Proof.
  destruct (registration_keeps_emails_unique (H := Sample2.toy_bcrypt) (H0 := ToyJwt.toy)
              None Sample.carol (Some "carol") (Some "carol@example.com")
              (Some "letmein") 300%Z Sample2.accounts2)
    as (Hemails & _ & Hcreated & _).
  - apply (bool_decide_unpack _). by vm_compute.
  - apply (bool_decide_unpack _). by vm_compute.
  - apply (bool_decide_unpack _). by vm_compute.
  - split; [exact Hemails|]. apply Hcreated. by vm_compute.
Defined.

Section LoginProperties.
Import Account.
Context {bc : Bcrypt} {jwt : AuthToken.JwtLibrary}.

(** X6.  For a [bcrypt] in which a password matches its own hash: after
    a registration that is answered with 201, a login with the same email
    and password is answered with 200 and a token issued for the new
    account, while a login with a password that [bcrypt] rejects is
    answered with 401. *)
Theorem register_then_login (contract : BcryptContract bc)
    (env : option string) (newId : ObjectId) (username' email' password : string)
    (now now' : Z) (coll : Users) :
  status (fst (createUserController env newId (Some username') (Some email') (Some password)
                 now coll)) = 201 →
  loginController env (Some email') password now'
    (snd (createUserController env newId (Some username') (Some email') (Some password)
            now coll)) =
    mkResponse 200
      (JObj [("message", JStr "Login successful");
             ("token", JStr (AuthToken.generateToken env newId now'))]) ∧
  (∀ wrong, bcrypt_compare wrong (bcrypt_hash password 10) = false →
     loginController env (Some email') wrong now'
       (snd (createUserController env newId (Some username') (Some email') (Some password)
               now coll)) =
       mkResponse 401 (json_message "Invalid email or password")).
Proof.
  intros Hok.
  destruct (createUserController_cases env newId (Some username') (Some email')
              (Some password) now coll)
    as [[_ Hno]|(n & e & p & Hn & He & Hp & Hnew & Hrun)]; [done|].
  simplify_eq. rewrite Hrun. simpl.
  assert (Hfind : getUserByEmail (Some e)
                    (coll ++ [mkUser newId n e (bcrypt_hash p 10) (Some "") None (Some "")])
                  = Some (mkUser newId n e (bcrypt_hash p 10) (Some "") None (Some ""))).
  { unfold getUserByEmail. rewrite find_app_last by (by apply getUserByEmail_None).
    simpl. by rewrite bool_decide_eq_true_2. }
  unfold loginController. rewrite Hfind. simpl. split.
  - by rewrite contract.
  - intros wrong Hwrong. by rewrite Hwrong.
Qed.

(** X7.  A login is refused in the same way whether the email is unknown
    or the password is rejected: the two answers are equal, so they do not
    tell which of the two was wrong. *)
Theorem login_failures_look_alike
    (env : option string) (known unknown : option string) (password password' : string)
    (now now' : Z) (coll : Users) (user : UserDocument) :
  getUserByEmail unknown coll = None →
  getUserByEmail known coll = Some user →
  bcrypt_compare password (passwordHash user) = false →
  loginController env known password now coll
    = loginController env unknown password' now' coll ∧
  status (loginController env known password now coll) = 401.
Proof.
  intros Hunknown Hknown Hwrong. unfold loginController.
  by rewrite Hunknown, Hknown, Hwrong.
Qed.

End LoginProperties.

Lemma toy_bcrypt_contract : Account.BcryptContract Sample2.toy_bcrypt.
Proof. intros password rounds. simpl. apply String.eqb_refl. Qed.

Lemma register_then_login_witness :
  Account.loginController (H := Sample2.toy_bcrypt) (H0 := ToyJwt.toy) None
    (Some "alice@example.com") "secret1" 500 Sample2.accounts1 =
    mkResponse 200
      (JObj [("message", JStr "Login successful");
             ("token", JStr (AuthToken.generateToken (H := ToyJwt.toy) None Sample.alice 500))]) ∧
  (∀ wrong,
     Account.bcrypt_compare (Bcrypt := Sample2.toy_bcrypt) wrong
       (Account.bcrypt_hash (Bcrypt := Sample2.toy_bcrypt) "secret1" 10) = false →
     Account.loginController (H := Sample2.toy_bcrypt) (H0 := ToyJwt.toy) None
       (Some "alice@example.com") wrong 500 Sample2.accounts1 =
       mkResponse 401 (json_message "Invalid email or password")).
Proof.
  apply (register_then_login (bc := Sample2.toy_bcrypt) (jwt := ToyJwt.toy)
           toy_bcrypt_contract None Sample.alice "alice" "alice@example.com" "secret1"
           100%Z 500%Z []).
  by vm_compute.
Defined.

Lemma login_failures_look_alike_witness :
  Account.loginController (H := Sample2.toy_bcrypt) (H0 := ToyJwt.toy) None
    (Some "alice@example.com") "guess" 500 Sample2.accounts1
  = Account.loginController (H := Sample2.toy_bcrypt) (H0 := ToyJwt.toy) None
      (Some "nobody@example.com") "secret1" 600 Sample2.accounts1 ∧
  status (Account.loginController (H := Sample2.toy_bcrypt) (H0 := ToyJwt.toy) None
            (Some "alice@example.com") "guess" 500 Sample2.accounts1) = 401.
Proof.
  apply (login_failures_look_alike (bc := Sample2.toy_bcrypt) (jwt := ToyJwt.toy) None
           (Some "alice@example.com") (Some "nobody@example.com") "guess" "secret1"
           500%Z 600%Z Sample2.accounts1
           (Account.mkUser Sample.alice "alice" "alice@example.com" "$toy$secret1"
              (Some "") None (Some ""))).
  - by vm_compute.
  - by vm_compute.
  - by vm_compute.
Defined.

Section ProfileProperties.
Import Account.

Lemma getUserById_id (id : ObjectId) (coll : Users) (u : UserDocument) :
  getUserById id coll = Some u → _id u = id.
Proof.
  intros H. apply find_some_elem in H as [_ H]. by apply bool_decide_eq_true in H.
Qed.

Lemma getUserById_save (id : ObjectId) (coll : Users) (u v : UserDocument) :
  getUserById id coll = Some v → _id u = id → getUserById id (save u coll) = Some u.
Proof.
  intros Hfind Hid. unfold getUserById in *.
  induction coll as [|w coll IH]; simpl in *; [done|].
  case_bool_decide as Hw.
  - rewrite decide_True by congruence. simpl. by rewrite bool_decide_eq_true_2.
  - rewrite decide_False by congruence. simpl.
    rewrite bool_decide_eq_false_2 by done. by apply IH.
Qed.

Lemma save_save (u : UserDocument) (coll : Users) :
  save u (save u coll) = save u coll.
Proof.
  induction coll as [|w coll IH]; simpl; [done|].
  case_decide as Hw; simpl.
  - by rewrite decide_True.
  - rewrite decide_False by done. by rewrite IH.
Qed.

Lemma save_other (id : ObjectId) (u : UserDocument) (coll : Users) :
  _id u ≠ id → getUserById id (save u coll) = getUserById id coll.
Proof.
  intros Hne. unfold getUserById. induction coll as [|w coll IH]; simpl; [done|].
  case_decide as Hw; simpl.
  - rewrite !bool_decide_eq_false_2 by congruence. done.
  - case_bool_decide; [done|]. apply IH.
Qed.

Lemma addProfileController_found (id : ObjectId) (bio' profilePhoto' website' : option string)
    (coll : Users) (user : UserDocument) :
  getUserById id coll = Some user →
  addProfileController id bio' profilePhoto' website' coll =
    (mkResponse 200
       (JObj [("message", JStr "Profile information added");
              ("user", user_json (added bio' profilePhoto' website' user))]),
     save (added bio' profilePhoto' website' user) coll).
Proof.
  intros Hfind. unfold addProfileController, added. rewrite Hfind.
  destruct user as [i n e h b p w]. unfold set_profile. simpl.
  destruct (negb (truthy b) && truthy bio'); simpl;
    destruct (negb (truthy p) && truthy profilePhoto'); simpl;
    destruct (negb (truthy w) && truthy website'); reflexivity.
Qed.

Lemma added_added (bio' profilePhoto' website' : option string) (user : UserDocument) :
  added bio' profilePhoto' website' (added bio' profilePhoto' website' user)
    = added bio' profilePhoto' website' user.
Proof.
  destruct user as [i n e h b p w]. unfold added, set_profile. simpl.
  f_equal.
  - destruct (truthy b) eqn:Hb, (truthy bio') eqn:Hb'; simpl; rewrite ?Hb, ?Hb'; done.
  - destruct (truthy p) eqn:Hp, (truthy profilePhoto') eqn:Hp'; simpl; rewrite ?Hp, ?Hp'; done.
  - destruct (truthy w) eqn:Hw, (truthy website') eqn:Hw'; simpl; rewrite ?Hw, ?Hw'; done.
Qed.

(** X8.  Adding profile information never replaces what is there: a bio,
    photo or website that is stored and not empty is kept, an empty one
    takes the request's value when it has one, and name, email and
    password hash are untouched.  Sending the same request again changes
    nothing. *)
Theorem addProfile_fills_only_empty_fields
    (id : ObjectId) (bio' profilePhoto' website' : option string)
    (coll : Users) (user : UserDocument) :
  getUserById id coll = Some user →
  ∃ user',
    getUserById id (snd (addProfileController id bio' profilePhoto' website' coll))
      = Some user' ∧
    (truthy (bio user) = true → bio user' = bio user) ∧
    (truthy (profilePhoto user) = true → profilePhoto user' = profilePhoto user) ∧
    (truthy (website user) = true → website user' = website user) ∧
    (truthy (bio user) = false → truthy bio' = true → bio user' = bio') ∧
    (truthy (profilePhoto user) = false → truthy profilePhoto' = true →
       profilePhoto user' = profilePhoto') ∧
    (truthy (website user) = false → truthy website' = true → website user' = website') ∧
    username user' = username user ∧ email user' = email user ∧
    passwordHash user' = passwordHash user ∧
    snd (addProfileController id bio' profilePhoto' website'
           (snd (addProfileController id bio' profilePhoto' website' coll)))
      = snd (addProfileController id bio' profilePhoto' website' coll).
Proof.
  intros Hfind. pose proof (getUserById_id _ _ _ Hfind) as Hid.
  rewrite (addProfileController_found _ _ _ _ _ _ Hfind). simpl.
  assert (Hfind' : getUserById id (save (added bio' profilePhoto' website' user) coll)
                   = Some (added bio' profilePhoto' website' user)).
  { by apply (getUserById_save id coll _ user). }
  exists (added bio' profilePhoto' website' user). split; [done|].
  rewrite (addProfileController_found _ _ _ _ _ _ Hfind'). simpl.
  rewrite added_added, save_save.
  unfold added. simpl.
  split_and!; try done.
  - by intros ->.
  - by intros ->.
  - by intros ->.
  - by intros -> ->.
  - by intros -> ->.
  - by intros -> ->.
Qed.

(** X9.  After the profile has been removed, an add request sets each of
    bio, photo and website to the value it carries, and leaves it empty
    when it carries none. *)
Theorem removeProfile_then_addProfile
    (id : ObjectId) (bio' profilePhoto' website' : option string)
    (coll : Users) (user : UserDocument) :
  getUserById id coll = Some user →
  ∃ user',
    getUserById id
      (snd (addProfileController id bio' profilePhoto' website'
              (snd (removeProfileController id coll)))) = Some user' ∧
    bio user' = (if truthy bio' then bio' else Some "") ∧
    profilePhoto user' = (if truthy profilePhoto' then profilePhoto' else None) ∧
    website user' = (if truthy website' then website' else Some "") ∧
    username user' = username user ∧ email user' = email user.
Proof.
  intros Hfind. pose proof (getUserById_id _ _ _ Hfind) as Hid.
  unfold removeProfileController. rewrite Hfind. simpl.
  set (cleared := set_profile (Some "") None (Some "") user).
  assert (Hfind1 : getUserById id (save cleared coll) = Some cleared).
  { by apply (getUserById_save id coll _ user). }
  rewrite (addProfileController_found _ _ _ _ _ _ Hfind1). simpl.
  eexists. split.
  { apply (getUserById_save id _ _ cleared); [done|]. by simpl. }
  unfold added. simpl. by split_and!.
Qed.

End ProfileProperties.

Lemma addProfile_fills_only_empty_fields_witness :
  ∃ user',
    Account.getUserById Sample.alice
      (snd (Account.addProfileController Sample.alice (Some "linen and wool") None
              (Some "https://alice.example") Sample2.accounts2)) = Some user' ∧
    Account.bio user' = Some "linen and wool" ∧
    Account.website user' = Some "https://alice.example" ∧
    Account.profilePhoto user' = None.
Proof.
  destruct (addProfile_fills_only_empty_fields Sample.alice (Some "linen and wool") None
              (Some "https://alice.example") Sample2.accounts2
              (Account.mkUser Sample.alice "alice" "alice@example.com" "$toy$secret1"
                 (Some "") None (Some "")) eq_refl)
    as (user' & Hfind & _ & _ & _ & Hbio & _ & Hweb & _).
  exists user'. split; [exact Hfind|]. split; [by apply Hbio|]. split; [by apply Hweb|].
  vm_compute in Hfind. by injection Hfind as <-.
Defined.

Lemma removeProfile_then_addProfile_witness :
  ∃ user',
    Account.getUserById Sample.bob
      (snd (Account.addProfileController Sample.bob (Some "hats") None None
              (snd (Account.removeProfileController Sample.bob Sample2.accounts2))))
      = Some user' ∧
    Account.bio user' = Some "hats" ∧
    Account.profilePhoto user' = None ∧
    Account.website user' = Some "".
Proof.
  destruct (removeProfile_then_addProfile Sample.bob (Some "hats") None None
              Sample2.accounts2
              (Account.mkUser Sample.bob "bob" "bob@example.com" "$toy$hunter2"
                 (Some "") None (Some "")) eq_refl)
    as (user' & Hfind & Hbio & Hphoto & Hweb & _).
  exists user'. by split_and!.
Defined.

Section ProtectedRoutes.
Import Account.
Context {jwt : AuthToken.JwtLibrary}.

Lemma getUserById_deleted (id : ObjectId) (coll : Users) :
  getUserById id (List.filter (λ u, negb (bool_decide (_id u = id))) coll) = None.
Proof.
  unfold getUserById. induction coll as [|u coll IH]; simpl; [done|].
  case_bool_decide as Hu; simpl; [done|].
  by rewrite bool_decide_eq_false_2.
Qed.

(** A request with a freshly issued token passes the middleware. *)
Lemma verifyToken_fresh (contract : AuthToken.JwtContract jwt)
    (env : option string) (uid : string) (t t' : Z) (b : option string) :
  (0 ≤ t)%Z → (t ≤ t')%Z → (t' < t + 3600)%Z →
  AuthToken.no_space (AuthToken.generateToken env uid t) = true →
  AuthToken.verifyToken env
    (AuthToken.mkRequest (Some ("Bearer " ++ AuthToken.generateToken env uid t)) b) t'
  = AuthToken.Next
      (AuthToken.mkRequest (Some ("Bearer " ++ AuthToken.generateToken env uid t)) (Some uid)).
Proof.
  intros Ht Htt' Hlt Hns. unfold AuthToken.verifyToken. simpl.
  rewrite bearer_token_extracts by done.
  unfold AuthToken.generateToken.
  rewrite (AuthToken.verify_signed jwt contract) by done. simpl.
  rewrite (AuthToken.one_hour jwt contract).
  assert ((t' <? t + 3600)%Z = true) as -> by (apply Z.ltb_lt; lia).
  done.
Qed.

(** X10.  A request that the token middleware turns away changes no
    account: without an Authorization header the delete route and the
    profile route answer 401, with a token that fails verification they
    answer 403, and in both cases the collection is the one before. *)
Theorem protected_routes_need_a_token
    (env : option string) (id : ObjectId) (bio' profilePhoto' website' : option string)
    (req : AuthToken.Request) (now : Z) (coll : Users) :
  (AuthToken.authorization req = None →
     delete_route env id req now coll
       = (mkResponse 401 (json_message "No token provided"), coll) ∧
     add_profile_route env id bio' profilePhoto' website' req now coll
       = (mkResponse 401 (json_message "No token provided"), coll)) ∧
  (∀ h e, AuthToken.authorization req = Some h → h ≠ "" →
     AuthToken.verify (AuthToken.bearer_token h) (AuthToken.JWT_SECRET env) now = inl e →
     delete_route env id req now coll
       = (mkResponse 403 (json_message "Failed to authenticate token"), coll) ∧
     add_profile_route env id bio' profilePhoto' website' req now coll
       = (mkResponse 403 (json_message "Failed to authenticate token"), coll)).
Proof.
  split.
  - intros Hnone. unfold delete_route, add_profile_route, protected, AuthToken.verifyToken.
    by rewrite Hnone.
  - intros h e Hsome Hh Hv.
    unfold delete_route, add_profile_route, protected, AuthToken.verifyToken.
    rewrite Hsome. simpl.
    assert (String.eqb h "" = false) as -> by (by apply String.eqb_neq).
    simpl. by rewrite Hv.
Qed.

(** X11.  The delete route checks that the request carries a valid token
    and nothing more: with a token issued to any user, within its hour,
    it deletes the account named in the path, whoever that is. *)
Theorem any_token_deletes_any_account (contract : AuthToken.JwtContract jwt)
    (env : option string) (uid : string) (target : ObjectId) (t t' : Z)
    (b : option string) (coll : Users) (user : UserDocument) :
  (0 ≤ t)%Z → (t ≤ t')%Z → (t' < t + 3600)%Z →
  AuthToken.no_space (AuthToken.generateToken env uid t) = true →
  getUserById target coll = Some user →
  status (fst (delete_route env target
                 (AuthToken.mkRequest (Some ("Bearer " ++ AuthToken.generateToken env uid t)) b)
                 t' coll)) = 200 ∧
  getUserById target
    (snd (delete_route env target
            (AuthToken.mkRequest (Some ("Bearer " ++ AuthToken.generateToken env uid t)) b)
            t' coll)) = None.
Proof.
  intros Ht Htt' Hlt Hns Hfind.
  unfold delete_route, protected.
  rewrite (verifyToken_fresh contract) by done.
  unfold deleteUserController, deleteUser. rewrite Hfind. simpl.
  split; [done|].
  rewrite (getUserById_id _ _ _ Hfind). apply getUserById_deleted.
Qed.

End ProtectedRoutes.

Lemma protected_routes_need_a_token_witness :
  Account.delete_route (H := ToyJwt.toy) None Sample.alice
    (AuthToken.mkRequest None (Some Sample.alice)) 500 Sample2.accounts2
  = (mkResponse 401 (json_message "No token provided"), Sample2.accounts2).
Proof.
  apply (proj1 (protected_routes_need_a_token (jwt := ToyJwt.toy) None Sample.alice
                  None None None (AuthToken.mkRequest None (Some Sample.alice)) 500%Z
                  Sample2.accounts2)).
  - reflexivity.
Defined.

Lemma any_token_deletes_any_account_witness :
  status (fst (Account.delete_route (H := ToyJwt.toy) None Sample.alice
                 (AuthToken.mkRequest
                    (Some ("Bearer " ++ AuthToken.generateToken (H := ToyJwt.toy) None Sample.bob 100))
                    None)
                 200 Sample2.accounts2)) = 200 ∧
  Account.getUserById Sample.alice
    (snd (Account.delete_route (H := ToyJwt.toy) None Sample.alice
            (AuthToken.mkRequest
               (Some ("Bearer " ++ AuthToken.generateToken (H := ToyJwt.toy) None Sample.bob 100))
               None)
            200 Sample2.accounts2)) = None.
Proof.
  apply (any_token_deletes_any_account (jwt := ToyJwt.toy) toy_contract None Sample.bob
           Sample.alice 100%Z 200%Z None Sample2.accounts2
           (Account.mkUser Sample.alice "alice" "alice@example.com" "$toy$secret1"
              (Some "") None (Some ""))).
  - lia.
  - lia.
  - lia.
  - by vm_compute.
  - by vm_compute.
Defined.
(** ** Deleting: handlers over a throwing service, and handlers over the
       model *)

Section DeleteProperties.

(** X12.  The delete services of users, closet items and wishlist items
    throw for a missing document, so the handlers that call them never
    answer 404: a missing id is answered with 500 and the service's
    message, and the collection is the one before. *)
Theorem delete_over_throwing_service_never_404 :
  (∀ (id : ObjectId) (coll : Account.Users),
     status (fst (Account.deleteUserController id coll)) ≠ 404 ∧
     (Account.getUserById id coll = None →
      Account.deleteUserController id coll
        = (mkResponse 500 (json_error "Failed to delete user"), coll))) ∧
  (∀ (id : ObjectId) (coll : ClosetItem.Closet),
     status (fst (ClosetRoutes.deleteClosetItemController id coll)) ≠ 404 ∧
     (ClosetRoutes.getClosetItemById id coll = None →
      ClosetRoutes.deleteClosetItemController id coll
        = (mkResponse 500 (json_error "Failed to delete closet item"), coll))) ∧
  (∀ (id : ObjectId) (coll : Wishlist.Items),
     status (fst (Wishlist.deleteWishlistItemController id coll)) ≠ 404 ∧
     (List.find (λ i, bool_decide (Wishlist._id i = id)) coll = None →
      Wishlist.deleteWishlistItemController id coll
        = (mkResponse 500 (json_error "Failed to delete wishlist item"), coll))).
Proof.
  split_and!; intros id coll.
  - unfold Account.deleteUserController, Account.deleteUser.
    destruct (Account.getUserById id coll) as [u|]; simpl; split; try done; lia.
  - unfold ClosetRoutes.deleteClosetItemController, ClosetRoutes.deleteClosetItem.
    destruct (ClosetRoutes.getClosetItemById id coll) as [i|]; simpl; split; try done; lia.
  - unfold Wishlist.deleteWishlistItemController, Wishlist.deleteWishlistItem.
    destruct (List.find _ coll) as [i|]; simpl; split; try done; lia.
Qed.

Import Product ProductCrud.

Lemma findByIdAndDelete_missing (id : ObjectId) (coll : Products) :
  findById id coll = None → findByIdAndDelete id coll = (None, coll).
Proof.
  unfold findById. induction coll as [|p coll IH]; simpl; [done|].
  case_bool_decide as Hp; [done|]. intros Hnone.
  rewrite decide_False by done. by rewrite (IH Hnone).
Qed.

Lemma findByIdAndDelete_found (id : ObjectId) (coll : Products) (p : ProductDocument) :
  findById id coll = Some p → fst (findByIdAndDelete id coll) = Some p.
Proof.
  unfold findById. induction coll as [|q coll IH]; simpl; [done|].
  case_bool_decide as Hq.
  - intros [= ->]. by rewrite decide_True.
  - intros Hfind. rewrite decide_False by done.
    specialize (IH Hfind). by destruct (findByIdAndDelete id coll).
Qed.

Lemma findById_absent (id : ObjectId) (coll : Products) :
  id ∉ map _id coll → findById id coll = None.
Proof.
  unfold findById. induction coll as [|q coll IH]; simpl; [done|].
  intros Hnot. case_bool_decide as Hq.
  - exfalso. apply Hnot. subst id. left.
  - apply IH. intros Hin. apply Hnot. by right.
Qed.

Lemma findByIdAndDelete_gone (id : ObjectId) (coll : Products) :
  NoDup (map _id coll) → findById id (snd (findByIdAndDelete id coll)) = None.
Proof.
  induction coll as [|q coll IH]; simpl; [done|].
  intros [Hq Hnd]%NoDup_cons. destruct (decide (_id q = id)) as [<-|Hne]; simpl.
  - by apply findById_absent.
  - specialize (IH Hnd). destruct (findByIdAndDelete id coll) as [r rest]. simpl in *.
    unfold findById in *. simpl. by rewrite bool_decide_eq_false_2.
Qed.

Lemma findByIdAndDelete_others (id id' : ObjectId) (coll : Products) :
  id' ≠ id → findById id' (snd (findByIdAndDelete id coll)) = findById id' coll.
Proof.
  intros Hne. induction coll as [|q coll IH]; simpl; [done|].
  destruct (decide (_id q = id)) as [<-|Hq]; simpl.
  - unfold findById. simpl. by rewrite bool_decide_eq_false_2.
  - destruct (findByIdAndDelete id coll) as [r rest]. simpl in *.
    unfold findById in *. simpl. by rewrite IH.
Qed.

(** X13.  The product delete handler works on the model: for a missing id
    it answers 404 and keeps the catalogue; for a stored id it answers
    200 with that product, after which the id is no longer found and every
    other id is found as before. *)
Theorem deleteProductController_removes_that_product
    (id : ObjectId) (coll : Products) :
  NoDup (map _id coll) →
  (findById id coll = None →
   deleteProductController id coll
     = (mkResponse 404 (json_message "Product not found"), coll)) ∧
  (∀ p, findById id coll = Some p →
   fst (deleteProductController id coll)
     = mkResponse 200 (JObj [("message", JStr "Product deleted successfully");
                             ("product", product_json p)]) ∧
   getProductByIdController id (snd (deleteProductController id coll))
     = mkResponse 404 (json_message "Product not found") ∧
   ∀ id', id' ≠ id →
     getProductByIdController id' (snd (deleteProductController id coll))
       = getProductByIdController id' coll).
Proof.
  intros Hnd. split.
  - intros Hnone. unfold deleteProductController.
    by rewrite findByIdAndDelete_missing.
  - intros p Hfind.
    pose proof (findByIdAndDelete_found _ _ _ Hfind) as Hfst.
    pose proof (findByIdAndDelete_gone id coll Hnd) as Hgone.
    pose proof (λ id', findByIdAndDelete_others id id' coll) as Hothers.
    unfold deleteProductController, getProductByIdController.
    destruct (findByIdAndDelete id coll) as [r coll']. simpl in *. subst r. simpl.
    split_and!; [done| by rewrite Hgone |].
    intros id' Hne. by rewrite Hothers.
Qed.

Lemma findById_app_fresh (id : ObjectId) (coll : Products) (p : ProductDocument) :
  id ∉ map _id coll → _id p = id → findById id (coll ++ [p])%list = Some p.
Proof.
  intros Hfresh Hid. unfold findById.
  induction coll as [|q coll IH]; simpl.
  - by rewrite bool_decide_eq_true_2.
  - rewrite bool_decide_eq_false_2.
    + apply IH. intros Hin. apply Hfresh. by right.
    + intros Hq. apply Hfresh. rewrite <- Hq. left.
Qed.

Lemma findById_app_other (id : ObjectId) (coll : Products) (p : ProductDocument) :
  _id p ≠ id → findById id (coll ++ [p])%list = findById id coll.
Proof.
  intros Hne. unfold findById.
  induction coll as [|q coll IH]; simpl.
  - by rewrite bool_decide_eq_false_2.
  - by rewrite IH.
Qed.

(** X14.  What the create handler stores can be read back: a body that
    meets the schema, created under an id not in use, is answered with
    201, and the get handler then returns the same product under that id
    while every other id is found as before; a body that does not meet
    the schema is answered with 500 and nothing is stored. *)
Theorem createProduct_then_getProductById
    (newId : ObjectId) (body : ProductData) (coll : Products) :
  newId ∉ map _id coll →
  (valid body = true →
   fst (createProductController newId body coll)
     = mkResponse 201 (JObj [("message", JStr "Product created successfully");
                             ("product", product_json (mkProduct newId (with_defaults body)))]) ∧
   getProductByIdController newId (snd (createProductController newId body coll))
     = mkResponse 200 (JObj [("product", product_json (mkProduct newId (with_defaults body)))]) ∧
   ∀ id, id ≠ newId →
     getProductByIdController id (snd (createProductController newId body coll))
       = getProductByIdController id coll) ∧
  (valid body = false →
   createProductController newId body coll
     = (mkResponse 500 (json_error "Product validation failed"), coll)).
Proof.
  intros Hfresh. unfold createProductController, create. split; intros Hv; rewrite Hv; simpl.
  - unfold getProductByIdController. split_and!; [done| |].
    + by rewrite findById_app_fresh.
    + intros id Hne. by rewrite findById_app_other.
  - done.
Qed.

End DeleteProperties.

Lemma deleteProductController_removes_that_product_witness :
  fst (ProductCrud.deleteProductController Sample.prod1 Sample.catalogue2)
    = mkResponse 200
        (JObj [("message", JStr "Product deleted successfully");
               ("product",
                Product.product_json
                  (Product.mkProduct Sample.prod1 (Product.with_defaults Sample.red_coat)))]) ∧
  ProductCrud.getProductByIdController Sample.prod1
    (snd (ProductCrud.deleteProductController Sample.prod1 Sample.catalogue2))
    = mkResponse 404 (json_message "Product not found").
Proof.
  assert (NoDup (map Product._id Sample.catalogue2)) as Hnd.
  { apply (bool_decide_unpack _). by vm_compute. }
  destruct (proj2 (deleteProductController_removes_that_product Sample.prod1
                     Sample.catalogue2 Hnd)
              (Product.mkProduct Sample.prod1 (Product.with_defaults Sample.red_coat)))
    as (Hres & Hgone & _).
  - by vm_compute.
  - by split.
Defined.

Lemma createProduct_then_getProductById_witness :
  ProductCrud.getProductByIdController Sample.prod2
    (snd (ProductCrud.createProductController Sample.prod2 Sample.blue_coat Sample.catalogue1))
  = mkResponse 200
      (JObj [("product",
              Product.product_json
                (Product.mkProduct Sample.prod2 (Product.with_defaults Sample.blue_coat)))]).
Proof.
  assert (Sample.prod2 ∉ map Product._id Sample.catalogue1) as Hfresh.
  { apply (bool_decide_unpack _). by vm_compute. }
  destruct (proj1 (createProduct_then_getProductById Sample.prod2 Sample.blue_coat
                     Sample.catalogue1 Hfresh)) as (_ & Hget & _).
  - by vm_compute.
  - exact Hget.
Defined.
(** ** Posts: round trips, what an interaction leaves alone, counters *)

Section PostInteractions.
Import OOTDPost.

Lemma pull_addToSet (u : ObjectId) (l : list ObjectId) :
  u ∉ l → pull u (addToSet u l) = l.
Proof.
  intros Hu. unfold addToSet. rewrite decide_False by done.
  unfold pull. rewrite filter_app.
  change (filter (λ id, id ≠ u) l) with (pull u l). rewrite (pull_absent _ _ Hu).
  rewrite filter_cons_False by (intros Hne; by apply Hne).
  by rewrite app_nil_r.
Qed.

Lemma set_likes_set_likes (l l' : list ObjectId) (p : OOTDPostDocument) :
  set_likes l (set_likes l' p) = set_likes l p.
Proof. done. Qed.

Lemma set_saves_set_saves (l l' : list ObjectId) (p : OOTDPostDocument) :
  set_saves l (set_saves l' p) = set_saves l p.
Proof. done. Qed.

Lemma unlike_like (u : ObjectId) (p : OOTDPostDocument) :
  u ∉ likes p →
  set_likes (pull u (likes (set_likes (addToSet u (likes p)) p)))
    (set_likes (addToSet u (likes p)) p) = p.
Proof.
  intros Hu. destruct p. unfold set_likes. simpl in *. by rewrite pull_addToSet.
Qed.

Lemma unsave_save (u : ObjectId) (p : OOTDPostDocument) :
  u ∉ saves p →
  set_saves (pull u (saves (set_saves (addToSet u (saves p)) p)))
    (set_saves (addToSet u (saves p)) p) = p.
Proof.
  intros Hu. destruct p. unfold set_saves. simpl in *. by rewrite pull_addToSet.
Qed.

(** An update followed by the update that undoes it. *)
Lemma findByIdAndUpdate_undo (id : ObjectId) (f g : OOTDPostDocument → OOTDPostDocument)
    (coll : Posts) (p : OOTDPostDocument) :
  coll !! id = Some p → g (f p) = p →
  snd (findByIdAndUpdate id g (snd (findByIdAndUpdate id f coll))) = coll.
Proof.
  intros Hp Hgf. rewrite (findByIdAndUpdate_found _ _ _ _ Hp). simpl.
  rewrite (findByIdAndUpdate_found id g _ (f p)) by apply lookup_insert_eq. simpl.
  by rewrite Hgf, insert_insert_eq, insert_id.
Qed.

(** X15.  Unliking undoes a like, but not its notification: when a user
    who does not yet like a post likes it and then unlikes it, the posts
    are the ones before, while the notification the like wrote to the
    owner stays; the same holds for saving and unsaving. *)
Theorem like_then_unlike_keeps_notification
    (db : Db) (ootdPostId u : ObjectId) (now : Z) (p : OOTDPostDocument) :
  posts db !! ootdPostId = Some p →
  (u ∉ likes p →
   posts (snd (unlikeOOTDPostController ootdPostId u
                 (snd (likeOOTDPostController ootdPostId u now db)))) = posts db ∧
   notifications (snd (unlikeOOTDPostController ootdPostId u
                         (snd (likeOOTDPostController ootdPostId u now db))))
     = notifications (snd (likeOOTDPostController ootdPostId u now db)) ∧
   (userId p ≠ u →
    notifications (snd (likeOOTDPostController ootdPostId u now db))
      = (notifications db ++
         [Notification.mkNotification (userId p) "like" (Some ootdPostId) false
            ("User " ++ u ++ " liked your post.") now])%list)) ∧
  (u ∉ saves p →
   posts (snd (unsaveOOTDPostController ootdPostId u
                 (snd (saveOOTDPostController ootdPostId u now db)))) = posts db ∧
   notifications (snd (unsaveOOTDPostController ootdPostId u
                         (snd (saveOOTDPostController ootdPostId u now db))))
     = notifications (snd (saveOOTDPostController ootdPostId u now db)) ∧
   (userId p ≠ u →
    notifications (snd (saveOOTDPostController ootdPostId u now db))
      = (notifications db ++
         [Notification.mkNotification (userId p) "save" (Some ootdPostId) false
            ("User " ++ u ++ " saved your post.") now])%list)).
Proof.
  intros Hp. split; intros Hu.
  - pose proof (findByIdAndUpdate_undo ootdPostId
                  (λ p, set_likes (addToSet u (likes p)) p)
                  (λ p, set_likes (pull u (likes p)) p) (posts db) p Hp
                  (unlike_like u p Hu)) as Hundo.
    unfold likeOOTDPostController, unlikeOOTDPostController in *.
    rewrite (findByIdAndUpdate_found _ _ _ _ Hp) in *. simpl in *.
    rewrite (findByIdAndUpdate_found ootdPostId _ _ (set_likes (addToSet u (likes p)) p)) in *
      by apply lookup_insert_eq.
    simpl in *. split_and!; [done|done|].
    intros Hne. by rewrite decide_True.
  - pose proof (findByIdAndUpdate_undo ootdPostId
                  (λ p, set_saves (addToSet u (saves p)) p)
                  (λ p, set_saves (pull u (saves p)) p) (posts db) p Hp
                  (unsave_save u p Hu)) as Hundo.
    unfold saveOOTDPostController, unsaveOOTDPostController in *.
    rewrite (findByIdAndUpdate_found _ _ _ _ Hp) in *. simpl in *.
    rewrite (findByIdAndUpdate_found ootdPostId _ _ (set_saves (addToSet u (saves p)) p)) in *
      by apply lookup_insert_eq.
    simpl in *. split_and!; [done|done|].
    intros Hne. by rewrite decide_True.
Qed.

(** What an update of one post leaves alone. *)
Lemma findByIdAndUpdate_frame (id : ObjectId) (f : OOTDPostDocument → OOTDPostDocument)
    (coll : Posts) :
  dom (snd (findByIdAndUpdate id f coll)) = dom coll ∧
  (∀ other, other ≠ id → snd (findByIdAndUpdate id f coll) !! other = coll !! other) ∧
  (∀ p, coll !! id = Some p → snd (findByIdAndUpdate id f coll) !! id = Some (f p)).
Proof.
  unfold findByIdAndUpdate. destruct (coll !! id) as [p|] eqn:Hp; simpl.
  - split_and!.
    + rewrite dom_insert_L. apply elem_of_dom_2 in Hp. set_solver.
    + intros other Hne. by rewrite lookup_insert_ne.
    + intros q [= <-]. apply lookup_insert_eq.
  - split_and!; [done|done|]. intros q Hq. by rewrite Hq in Hp.
Qed.

(** The notifications after a handler that may notify. *)
Lemma notified_appends (owner u : ObjectId) (data : Notification.NotificationData) (now : Z)
    (coll : list Notification.NotificationDocument) :
  ∃ ns, (if decide (owner ≠ u)
         then snd (Notification.createNotification data now coll)
         else coll) = (coll ++ ns)%list.
Proof.
  case_decide.
  - by eexists [_].
  - exists []. by rewrite app_nil_r.
Qed.

(** X16.  An interaction touches one post and only its interaction
    lists: after a like, a comment, a save, an unlike or an unsave the
    same post ids are stored, every other post is as before, the post
    itself keeps its owner, image, caption and tags, its comments are the
    old ones with at most new ones behind them, and the notifications are
    the old ones with at most new ones behind them. *)
Theorem interactions_touch_one_post
    (act : Interaction) (ootdPostId u : ObjectId) (now : Z) (db db' : Db) :
  db' = snd (route act ootdPostId u now db) ∨
  db' = snd (unlikeOOTDPostController ootdPostId u db) ∨
  db' = snd (unsaveOOTDPostController ootdPostId u db) →
  dom (posts db') = dom (posts db) ∧
  (∀ other, other ≠ ootdPostId → posts db' !! other = posts db !! other) ∧
  (∀ p, posts db !! ootdPostId = Some p →
     ∃ p' cs, posts db' !! ootdPostId = Some p' ∧
       userId p' = userId p ∧ imageURL p' = imageURL p ∧ caption p' = caption p ∧
       tags p' = tags p ∧ comments p' = (comments p ++ cs)%list) ∧
  ∃ ns, notifications db' = (notifications db ++ ns)%list.
Proof.
  pose (frame := λ db' : Db,
    dom (posts db') = dom (posts db) ∧
    (∀ other, other ≠ ootdPostId → posts db' !! other = posts db !! other) ∧
    (∀ p, posts db !! ootdPostId = Some p →
       ∃ p' cs, posts db' !! ootdPostId = Some p' ∧
         userId p' = userId p ∧ imageURL p' = imageURL p ∧ caption p' = caption p ∧
         tags p' = tags p ∧ comments p' = (comments p ++ cs)%list) ∧
    ∃ ns, notifications db' = (notifications db ++ ns)%list).
  assert (frame db) as Hnone.
  { unfold frame. split_and!; [done|done| |].
    - intros p Hp. exists p, []. by rewrite app_nil_r.
    - exists []. by rewrite app_nil_r. }
  assert (∀ (f : OOTDPostDocument → OOTDPostDocument) (q : OOTDPostDocument)
            (posts' : Posts) (ns : list Notification.NotificationDocument),
            findByIdAndUpdate ootdPostId f (posts db) = (Some q, posts') →
            (∀ p, userId (f p) = userId p ∧ imageURL (f p) = imageURL p ∧
                  caption (f p) = caption p ∧ tags (f p) = tags p ∧
                  ∃ cs, comments (f p) = (comments p ++ cs)%list) →
            frame (mkDb posts' (notifications db ++ ns)%list)) as Hsome.
  { intros f q posts' ns Hupd Hf.
    destruct (findByIdAndUpdate_frame ootdPostId f (posts db)) as (Hdom & Hother & Hsame).
    rewrite Hupd in Hdom, Hother, Hsame. simpl in *.
    unfold frame. simpl. split_and!; [done|done| |by exists ns].
    intros p Hp. destruct (Hf p) as (? & ? & ? & ? & cs & ?).
    exists (f p), cs. split_and!; try done. by apply Hsame. }
  intros Hdb'. change (frame db'). clearbody frame.
  destruct Hdb' as [-> | [-> | ->]].
  - destruct act as [|text|]; simpl.
    + unfold likeOOTDPostController.
      destruct (findByIdAndUpdate ootdPostId _ (posts db)) as [[q|] posts'] eqn:Hupd;
        simpl; [|done].
      case_decide.
      * apply (Hsome _ q posts' [_] Hupd).
        intros p. split_and!; try done. exists []. by rewrite app_nil_r.
      * rewrite <- (app_nil_r (notifications db)). apply (Hsome _ q posts' [] Hupd).
        intros p. split_and!; try done. exists []. by rewrite app_nil_r.
    + unfold addCommentController.
      destruct (findByIdAndUpdate ootdPostId _ (posts db)) as [[q|] posts'] eqn:Hupd;
        simpl; [|done].
      case_decide.
      * apply (Hsome _ q posts' [_] Hupd).
        intros p. split_and!; try done. by eexists.
      * rewrite <- (app_nil_r (notifications db)). apply (Hsome _ q posts' [] Hupd).
        intros p. split_and!; try done. by eexists.
    + unfold saveOOTDPostController.
      destruct (findByIdAndUpdate ootdPostId _ (posts db)) as [[q|] posts'] eqn:Hupd;
        simpl; [|done].
      case_decide.
      * apply (Hsome _ q posts' [_] Hupd).
        intros p. split_and!; try done. exists []. by rewrite app_nil_r.
      * rewrite <- (app_nil_r (notifications db)). apply (Hsome _ q posts' [] Hupd).
        intros p. split_and!; try done. exists []. by rewrite app_nil_r.
  - unfold unlikeOOTDPostController.
    destruct (findByIdAndUpdate ootdPostId _ (posts db)) as [[q|] posts'] eqn:Hupd;
      simpl; [|done].
    rewrite <- (app_nil_r (notifications db)).
    apply (Hsome _ q posts' [] Hupd).
    intros p. split_and!; try done. exists []. by rewrite app_nil_r.
  - unfold unsaveOOTDPostController.
    destruct (findByIdAndUpdate ootdPostId _ (posts db)) as [[q|] posts'] eqn:Hupd;
      simpl; [|done].
    rewrite <- (app_nil_r (notifications db)).
    apply (Hsome _ q posts' [] Hupd).
    intros p. split_and!; try done. exists []. by rewrite app_nil_r.
Qed.

(** X17.  The counters follow the interactions: on a stored post a like
    or a save raises its counter by one unless the user is already in the
    list, a comment always raises the comment counter by one, and the
    other two counters stay; the counts handler then reports these
    numbers. *)
Theorem counters_follow_interactions
    (act : Interaction) (ootdPostId u : ObjectId) (now : Z) (db : Db) (p : OOTDPostDocument) :
  posts db !! ootdPostId = Some p →
  let expected :=
    match act with
    | Like => (length (likes p) + (if decide (u ∈ likes p) then 0 else 1),
               length (saves p), length (comments p))
    | Comment _ => (length (likes p), length (saves p), length (comments p) + 1)
    | Save => (length (likes p),
               length (saves p) + (if decide (u ∈ saves p) then 0 else 1),
               length (comments p))
    end%nat in
  OOTDPostCrud.getOOTDPostCounts ootdPostId (posts (snd (route act ootdPostId u now db)))
    = Some expected ∧
  OOTDPostCrud.getOOTDPostCountsController ootdPostId (snd (route act ootdPostId u now db))
    = mkResponse 200
        (JObj [("likesCount", count (fst (fst expected)));
               ("savesCount", count (snd (fst expected)));
               ("commentsCount", count (snd expected))]).
Proof.
  intros Hp expected. subst expected.
  unfold OOTDPostCrud.getOOTDPostCounts, OOTDPostCrud.getOOTDPostCountsController.
  destruct act as [|text|]; simpl.
  - unfold likeOOTDPostController. rewrite (findByIdAndUpdate_found _ _ _ _ Hp). simpl.
    rewrite lookup_insert_eq. simpl. rewrite addToSet_length.
    case_decide; simpl; rewrite ?Nat.add_0_r, ?Nat.add_1_r; done.
  - unfold addCommentController. rewrite (findByIdAndUpdate_found _ _ _ _ Hp). simpl.
    rewrite lookup_insert_eq. simpl. unfold push. rewrite length_app. simpl. done.
  - unfold saveOOTDPostController. rewrite (findByIdAndUpdate_found _ _ _ _ Hp). simpl.
    rewrite lookup_insert_eq. simpl. rewrite addToSet_length.
    case_decide; simpl; rewrite ?Nat.add_0_r, ?Nat.add_1_r; done.
Qed.

Lemma getAllNotifications_app (v : ObjectId)
    (coll ns : list Notification.NotificationDocument) :
  NotificationList.getAllNotifications v (coll ++ ns)%list
  = (NotificationList.getAllNotifications v coll
     ++ NotificationList.getAllNotifications v ns)%list.
Proof. unfold NotificationList.getAllNotifications. apply List.filter_app. Qed.

(** X18.  Deleting a post does not delete what was written about it:
    after another user's like, deleting the post makes the get handler
    answer 404, while the owner's notification list still ends with the
    notification of the like, which names the deleted post; the lists of
    the other users are as they were before the like. *)
Theorem notification_outlives_post
    (db : Db) (ootdPostId u : ObjectId) (now : Z) (p : OOTDPostDocument) :
  posts db !! ootdPostId = Some p → userId p ≠ u →
  let db2 :=
    snd (OOTDPostCrud.deleteOOTDPostController ootdPostId
           (snd (likeOOTDPostController ootdPostId u now db))) in
  OOTDPostCrud.getOOTDPostByIdController ootdPostId db2 = not_found ∧
  NotificationList.getAllNotifications (userId p) (notifications db2)
    = (NotificationList.getAllNotifications (userId p) (notifications db) ++
       [Notification.mkNotification (userId p) "like" (Some ootdPostId) false
          ("User " ++ u ++ " liked your post.") now])%list ∧
  ∀ v, v ≠ userId p →
    NotificationList.getAllNotifications v (notifications db2)
      = NotificationList.getAllNotifications v (notifications db).
Proof.
  intros Hp Hne db2. subst db2.
  unfold likeOOTDPostController. rewrite (findByIdAndUpdate_found _ _ _ _ Hp). simpl.
  rewrite decide_True by done.
  unfold OOTDPostCrud.deleteOOTDPostController. simpl.
  rewrite lookup_insert_eq. simpl.
  unfold OOTDPostCrud.getOOTDPostByIdController. simpl.
  rewrite lookup_delete_eq. split_and!; [done| |].
  - rewrite getAllNotifications_app. f_equal.
    unfold NotificationList.getAllNotifications. simpl.
    by rewrite bool_decide_eq_true_2.
  - intros v Hv. rewrite getAllNotifications_app.
    unfold NotificationList.getAllNotifications at 2. simpl.
    rewrite bool_decide_eq_false_2 by done. by rewrite app_nil_r.
Qed.

End PostInteractions.

Lemma like_then_unlike_keeps_notification_witness :
  OOTDPost.posts
    (snd (OOTDPost.unlikeOOTDPostController Sample.post1 Sample.bob
            (snd (OOTDPost.likeOOTDPostController Sample.post1 Sample.bob 50 Sample.feed0))))
    = OOTDPost.posts Sample.feed0 ∧
  length (OOTDPost.notifications
            (snd (OOTDPost.unlikeOOTDPostController Sample.post1 Sample.bob
                    (snd (OOTDPost.likeOOTDPostController Sample.post1 Sample.bob 50
                            Sample.feed0))))) = 1%nat.
Proof.
  assert (OOTDPost.posts Sample.feed0 !! Sample.post1 = Some Sample.post1_doc) as Hp
    by (by vm_compute).
  destruct (proj1 (like_then_unlike_keeps_notification Sample.feed0 Sample.post1 Sample.bob
                     50%Z Sample.post1_doc Hp)) as (Hposts & Hkeep & Hnote).
  - apply (bool_decide_unpack _). by vm_compute.
  - split; [exact Hposts|]. rewrite Hkeep, Hnote; [done|].
    apply (bool_decide_unpack _). by vm_compute.
Defined.

Lemma interactions_touch_one_post_witness :
  dom (OOTDPost.posts
         (snd (OOTDPost.route (OOTDPost.Comment "nice") Sample.post1 Sample.bob 50
                 Sample.feed0)))
  = dom (OOTDPost.posts Sample.feed0).
Proof.
  apply (interactions_touch_one_post (OOTDPost.Comment "nice") Sample.post1 Sample.bob 50%Z
           Sample.feed0).
  - by left.
Defined.

Lemma counters_follow_interactions_witness :
  OOTDPostCrud.getOOTDPostCounts Sample.post1
    (OOTDPost.posts (snd (OOTDPost.route OOTDPost.Like Sample.post1 Sample.bob 50 Sample.feed0)))
  = Some (1, 0, 0)%nat.
Proof.
  apply (counters_follow_interactions OOTDPost.Like Sample.post1 Sample.bob 50%Z Sample.feed0
           Sample.post1_doc).
  - by vm_compute.
Defined.

Lemma notification_outlives_post_witness :
  OOTDPostCrud.getOOTDPostByIdController Sample.post1
    (snd (OOTDPostCrud.deleteOOTDPostController Sample.post1
            (snd (OOTDPost.likeOOTDPostController Sample.post1 Sample.bob 50 Sample.feed0))))
  = OOTDPost.not_found.
Proof.
  apply (notification_outlives_post Sample.feed0 Sample.post1 Sample.bob 50%Z
           Sample.post1_doc).
  - by vm_compute.
  - apply (bool_decide_unpack _). by vm_compute.
Defined.
(** ** Creating a post with its products *)

Section CreatePostProperties.
Import OOTDPostCrud.

Lemma truthy_number_is_Some (o : option Z) :
  Product.truthy_number o = true → is_Some o.
Proof. destruct o; [by eexists|done]. Qed.

(** What the loop builds for a product listed in full meets the product
    schema, once the post has an image. *)
Lemma user_created_valid (product : Product.ProductData) (imageURL : option string)
    (tags : option (list string)) :
  truthy imageURL = true → listed_in_full product = true →
  Product.valid (user_created product imageURL tags) = true.
Proof.
  intros Himg Hfull. unfold listed_in_full in Hfull.
  repeat (apply andb_true_iff in Hfull as [Hfull ?]).
  unfold Product.valid, user_created. simpl.
  repeat (apply andb_true_iff; split); try done.
  apply bool_decide_eq_true_2. by apply truthy_number_is_Some.
Qed.

Lemma create_products_spec (ids : nat → ObjectId) (imageURL : option string)
    (tags : option (list string)) (listed : list Product.ProductData) :
  truthy imageURL = true →
  ∀ (k : nat) (created coll : list Product.ProductDocument),
    ∃ new,
      create_products ids k imageURL tags listed created coll
        = (inr (created ++ new)%list, (coll ++ new)%list) ∧
      map Product.doc new
        = map (λ product, Product.with_defaults (user_created product imageURL tags))
            (List.filter listed_in_full listed) ∧
      map Product._id new = map ids (seq k (length new)).
Proof.
  intros Himg. induction listed as [|product rest IH]; intros k created coll; simpl.
  - exists []. by rewrite !app_nil_r.
  - destruct (listed_in_full product) eqn:Hfull.
    + unfold Product.create. rewrite (user_created_valid _ _ _ Himg Hfull).
      destruct (IH (S k)
                  (created ++ [Product.mkProduct (ids k)
                                 (Product.with_defaults (user_created product imageURL tags))])%list
                  (coll ++ [Product.mkProduct (ids k)
                              (Product.with_defaults (user_created product imageURL tags))])%list)
        as (new & Hrun & Hdocs & Hids).
      exists (Product.mkProduct (ids k)
                (Product.with_defaults (user_created product imageURL tags)) :: new).
      rewrite Hrun. simpl. rewrite <- !app_assoc. simpl.
      split_and!; [done| by rewrite Hdocs | by rewrite Hids].
    + apply IH.
Qed.

(** X19.  A post request that has an owner and an image but no [products]
    is answered with 500, and yet the post has been stored: the handler
    creates the post before it reads [products], and does not undo it. *)
Theorem createOOTDPost_without_products_is_stored
    (newId : ObjectId) (ids : nat → ObjectId) (body : CreateBody) (db : Db) :
  truthy (body_userId body) = true → truthy (body_imageURL body) = true →
  body_products body = None →
  status (fst (createOOTDPostController newId ids body db)) = 500 ∧
  posts (snd (createOOTDPostController newId ids body db)) !! newId
    = Some (OOTDPost.mkPost (default "" (body_userId body)) (default "" (body_imageURL body))
              (default "" (body_caption body)) (default [] (body_tags body)) [] [] [] [] 0) ∧
  products (snd (createOOTDPostController newId ids body db)) = products db.
Proof.
  intros Hu Himg Hnone. unfold createOOTDPostController.
  rewrite Hu, Himg, Hnone. simpl. split_and!; [done| |done].
  unfold OOTDPost.create. apply lookup_insert_eq.
Qed.

(** X20.  With an owner, an image and a list of products the request
    always succeeds: the handler answers 201, and the catalogue is the
    old one followed by one new product for each listed product that has
    brand, type, colour, price and link, in the order listed, with the
    post's image and tags, the source ['UserCreated'] and the ids the
    driver hands out; the other listed products are passed over, and no
    existing product is looked up or changed. *)
Theorem createOOTDPost_adds_products_listed_in_full
    (newId : ObjectId) (ids : nat → ObjectId) (body : CreateBody) (db : Db)
    (listed : list Product.ProductData) :
  truthy (body_userId body) = true → truthy (body_imageURL body) = true →
  body_products body = Some listed →
  status (fst (createOOTDPostController newId ids body db)) = 201 ∧
  ∃ created,
    products (snd (createOOTDPostController newId ids body db))
      = (products db ++ created)%list ∧
    map Product.doc created
      = map (λ product,
               Product.with_defaults
                 (user_created product (body_imageURL body) (body_tags body)))
          (List.filter listed_in_full listed) ∧
    map Product._id created = map ids (seq 0 (length created)).
Proof.
  intros Hu Himg Hsome. unfold createOOTDPostController.
  rewrite Hu, Himg, Hsome. simpl.
  destruct (create_products_spec ids (body_imageURL body) (body_tags body) listed Himg
              0%nat [] (products db)) as (new & Hrun & Hdocs & Hids).
  rewrite Hrun. simpl. split; [done|]. by exists new.
Qed.

End CreatePostProperties.

Lemma createOOTDPost_without_products_is_stored_witness :
  status (fst (OOTDPostCrud.createOOTDPostController Sample.post1 Sample2.product_ids
                 (OOTDPostCrud.mkBody (Some Sample.carol)
                    (Some "https://img.example/ootd/2.jpg") (Some "coat weather")
                    (Some ["ootd"]) None)
                 (OOTDPostCrud.mkDb ∅ []))) = 500.
Proof.
  apply (createOOTDPost_without_products_is_stored Sample.post1 Sample2.product_ids
           (OOTDPostCrud.mkBody (Some Sample.carol)
              (Some "https://img.example/ootd/2.jpg") (Some "coat weather")
              (Some ["ootd"]) None)
           (OOTDPostCrud.mkDb ∅ [])).
  - reflexivity.
  - reflexivity.
  - reflexivity.
Defined.

Lemma createOOTDPost_adds_products_listed_in_full_witness :
  status (fst (OOTDPostCrud.createOOTDPostController Sample.post1 Sample2.product_ids
                 Sample2.post_body (OOTDPostCrud.mkDb ∅ []))) = 201.
Proof.
  apply (createOOTDPost_adds_products_listed_in_full Sample.post1 Sample2.product_ids
           Sample2.post_body (OOTDPostCrud.mkDb ∅ [])
           [Sample.red_coat;
            Product.mkData (Some "Zara") (Some "Scarf") (Some "scarf") (Some "grey")
              None None (Some 20%Z) None None None None None None None]).
  - reflexivity.
  - reflexivity.
  - reflexivity.
Defined.
(** ** The closet handler, the wishlist, and the upsert handler *)

Section ClosetRouteProperties.
Import ClosetRoutes.

Lemma closet_create_cases (newId : ObjectId) (d : ClosetItem.ClosetItemData)
    (coll : ClosetItem.Closet) :
  (ClosetItem.valid d = true ∧
   ClosetItem.create newId d coll
     = (inr (ClosetItem.mkItem newId (ClosetItem.with_defaults d)),
        (coll ++ [ClosetItem.mkItem newId (ClosetItem.with_defaults d)])%list)) ∨
  (ClosetItem.valid d = false ∧
   ClosetItem.create newId d coll = (inl "ClosetItem validation failed", coll)).
Proof.
  unfold ClosetItem.create. destruct (ClosetItem.valid d); [by left|by right].
Qed.

(** The service stores a valid item of the caller's user, or nothing. *)
Lemma createClosetItem_cases (newId : ObjectId) (data : ClosetItem.ClosetItemData)
    (products : list Product.ProductDocument) (coll : ClosetItem.Closet) :
  (∃ item,
     ClosetItem.createClosetItem newId data products coll = (inr item, (coll ++ [item])%list) ∧
     ClosetItem._id item = newId ∧
     ClosetItem.userId (ClosetItem.doc item) = ClosetItem.userId data ∧
     ClosetItem.valid (ClosetItem.doc item) = true) ∨
  ClosetItem.createClosetItem newId data products coll
    = (inl "Failed to create closet item", coll).
Proof.
  unfold ClosetItem.createClosetItem.
  destruct (truthy (ClosetItem.productId data)).
  - destruct (Product.findById _ products) as [product|]; [|by right].
    destruct (closet_create_cases newId (ClosetItem.populate (Product.doc product) data) coll)
      as [[Hv ->]|[Hv ->]]; [left|by right].
    eexists. split_and!; [done|done|done|exact Hv].
  - destruct (negb (truthy (ClosetItem.name data))); [by right|].
    destruct (closet_create_cases newId data coll) as [[Hv ->]|[Hv ->]]; [left|by right].
    eexists. split_and!; [done|done|done|exact Hv].
Qed.

(** The outcomes of the closet handler. *)
Lemma iOwnThisProductController_cases
    (newId : ObjectId) (body : Body) (products : list Product.ProductDocument)
    (coll : ClosetItem.Closet) :
  (status (fst (iOwnThisProductController newId body products coll)) = 201 ∧
   ∃ item,
     snd (iOwnThisProductController newId body products coll) = (coll ++ [item])%list ∧
     ClosetItem._id item = newId ∧
     ClosetItem.userId (ClosetItem.doc item) = userId body ∧
     ClosetItem.valid (ClosetItem.doc item) = true) ∨
  (status (fst (iOwnThisProductController newId body products coll)) ∈ [400; 404; 500] ∧
   snd (iOwnThisProductController newId body products coll) = coll).
Proof.
  unfold iOwnThisProductController.
  destruct (negb (truthy (season body)) || negb (truthy (occasion body))).
  { right. simpl. split; [set_solver|done]. }
  destruct (truthy (productId body)).
  - destruct (Product.findById _ products) as [product|].
    + match goal with
      | |- context [ClosetItem.createClosetItem newId ?d products coll] =>
          destruct (createClosetItem_cases newId d products coll)
            as [(item & -> & Hid & Hu & Hv)| ->]
      end; simpl.
      * left. split; [done|]. by exists item.
      * right. split; [set_solver|done].
    + right. simpl. split; [set_solver|done].
  - destruct (truthy (name body)).
    + match goal with
      | |- context [ClosetItem.createClosetItem newId ?d products coll] =>
          destruct (createClosetItem_cases newId d products coll)
            as [(item & -> & Hid & Hu & Hv)| ->]
      end; simpl.
      * left. split; [done|]. by exists item.
      * right. split; [set_solver|done].
    + right. simpl. split; [set_solver|done].
Qed.

(** X21.  The closet handler stores one item that meets the schema, or
    nothing: either it answers 201 and the closet is the old one followed
    by one item, which has the new id and the request's user and has
    user, type, colour, season and occasion filled in; or it answers 400,
    404 or 500 and the closet is the one before. *)
Theorem iOwnThisProduct_stores_valid_item_or_nothing
    (newId : ObjectId) (body : Body) (products : list Product.ProductDocument)
    (coll : ClosetItem.Closet) :
  (status (fst (iOwnThisProductController newId body products coll)) = 201 ∧
   ∃ item,
     snd (iOwnThisProductController newId body products coll) = (coll ++ [item])%list ∧
     ClosetItem._id item = newId ∧
     ClosetItem.userId (ClosetItem.doc item) = userId body ∧
     ClosetItem.valid (ClosetItem.doc item) = true) ∨
  (status (fst (iOwnThisProductController newId body products coll)) ∈ [400; 404; 500] ∧
   snd (iOwnThisProductController newId body products coll) = coll).
Proof. apply iOwnThisProductController_cases. Qed.

Lemma getAllClosetItems_app (v : ObjectId) (q : Query) (coll more : ClosetItem.Closet) :
  getAllClosetItems v q (coll ++ more)%list
  = (getAllClosetItems v q coll ++ getAllClosetItems v q more)%list.
Proof. unfold getAllClosetItems. apply List.filter_app. Qed.

(** X22.  An item the handler has added is listed for its user and for
    nobody else: after an answer 201 to a request of [owner], the
    unfiltered list of [owner] is the old one followed by the new item,
    and the list of every other user is as before, whatever user id the
    query itself carries. *)
Theorem added_item_is_listed_for_its_owner
    (newId : ObjectId) (body : Body) (products : list Product.ProductDocument)
    (coll : ClosetItem.Closet) (owner : ObjectId) :
  userId body = Some owner →
  status (fst (iOwnThisProductController newId body products coll)) = 201 →
  ∃ item,
    ClosetItem._id item = newId ∧
    ∀ (v : ObjectId) (asked : option ObjectId),
      getAllClosetItems v (mkQuery asked None None None)
        (snd (iOwnThisProductController newId body products coll))
      = (getAllClosetItems v (mkQuery asked None None None) coll
         ++ if decide (v = owner) then [item] else [])%list.
Proof.
  intros Howner H201.
  destruct (iOwnThisProductController_cases newId body products coll)
    as [(_ & item & Hcoll & Hid & Hu & _)|[Hst _]].
  - exists item. split; [done|]. intros v asked. rewrite Hcoll, getAllClosetItems_app.
    f_equal. unfold getAllClosetItems, matches, query_field. simpl.
    rewrite Hu, Howner. case_decide as Hv.
    + subst v. by rewrite bool_decide_eq_true_2.
    + rewrite bool_decide_eq_false_2; [done|]. intros [= ?]. by apply Hv.
  - exfalso. rewrite H201 in Hst. set_solver.
Qed.

End ClosetRouteProperties.

Lemma added_item_is_listed_for_its_owner_witness :
  ∃ item,
    ClosetItem._id item = Sample.item1 ∧
    ∀ (v : ObjectId) (asked : option ObjectId),
      ClosetRoutes.getAllClosetItems v (ClosetRoutes.mkQuery asked None None None)
        (snd (ClosetRoutes.iOwnThisProductController Sample.item1 Sample2.closet_body
                Sample.catalogue1 []))
      = (ClosetRoutes.getAllClosetItems v (ClosetRoutes.mkQuery asked None None None) []
         ++ if decide (v = Sample.alice) then [item] else [])%list.
Proof.
  apply (added_item_is_listed_for_its_owner Sample.item1 Sample2.closet_body
           Sample.catalogue1 [] Sample.alice).
  - reflexivity.
  - by vm_compute.
Defined.

Section WishlistProperties.
Import Wishlist.

Lemma getAllWishlistItems_app (v : ObjectId) (coll more : Items)
    (products : list Product.ProductDocument) :
  getAllWishlistItems v (coll ++ more)%list products
  = (getAllWishlistItems v coll products ++ getAllWishlistItems v more products)%list.
Proof. unfold getAllWishlistItems. by rewrite List.filter_app, map_app. Qed.

(** X23.  A wish is recorded without looking at the catalogue or at the
    wishes already there: for a user id and a product id that are not
    empty the handler answers 201, and the list of that user is the old
    one followed by the new wish, with the product the catalogue has
    under that id or with none; the lists of the other users are as
    before. *)
Theorem wish_is_listed_without_checks
    (newId u pid : ObjectId) (now : Z) (coll : Items)
    (products : list Product.ProductDocument) :
  u ≠ "" → pid ≠ "" →
  status (fst (createWishlistItemController newId (Some u) (Some pid) now coll)) = 201 ∧
  ∀ v,
    getAllWishlistItems v
      (snd (createWishlistItemController newId (Some u) (Some pid) now coll)) products
    = (getAllWishlistItems v coll products
       ++ if decide (v = u)
          then [(mkItem newId u pid now, Product.findById pid products)]
          else [])%list.
Proof.
  intros Hu Hpid. unfold createWishlistItemController, createWishlistItem.
  assert (truthy (Some u) = true) as ->.
  { unfold truthy. apply negb_true_iff. by apply String.eqb_neq. }
  assert (truthy (Some pid) = true) as ->.
  { unfold truthy. apply negb_true_iff. by apply String.eqb_neq. }
  simpl. split; [done|]. intros v. rewrite getAllWishlistItems_app. f_equal.
  unfold getAllWishlistItems. simpl. case_decide as Hv.
  - subst v. by rewrite bool_decide_eq_true_2.
  - rewrite bool_decide_eq_false_2; [done|]. intros ?. by apply Hv.
Qed.

(** X24.  Deleting a product does not touch the wishes for it: after the
    product delete handler the wishlist of every user lists the same
    wishes as before, those for the deleted product now with no product
    and the others with the product they had. *)
Theorem wish_survives_its_product
    (pid u : ObjectId) (coll : Items) (products : list Product.ProductDocument) :
  NoDup (map Product._id products) →
  getAllWishlistItems u coll (snd (ProductCrud.deleteProductController pid products))
  = map (λ listed, (fst listed,
                    if decide (productId (fst listed) = pid) then None else snd listed))
      (getAllWishlistItems u coll products).
Proof.
  intros Hnd.
  assert (snd (ProductCrud.deleteProductController pid products)
          = snd (ProductCrud.findByIdAndDelete pid products)) as ->.
  { unfold ProductCrud.deleteProductController.
    by destruct (ProductCrud.findByIdAndDelete pid products) as [[d|] rest]. }
  unfold getAllWishlistItems. rewrite map_map. apply map_ext. intros i. simpl.
  case_decide as Hi.
  - rewrite Hi. by rewrite findByIdAndDelete_gone.
  - by rewrite findByIdAndDelete_others.
Qed.

End WishlistProperties.

Lemma wish_is_listed_without_checks_witness :
  status (fst (Wishlist.createWishlistItemController Sample2.wish1 (Some Sample.alice)
                 (Some Sample.prod2) 300 [])) = 201.
Proof.
  apply (wish_is_listed_without_checks Sample2.wish1 Sample.alice Sample.prod2 300%Z []
           Sample.catalogue1).
  - done.
  - done.
Defined.

Lemma wish_survives_its_product_witness :
  Wishlist.getAllWishlistItems Sample.alice Sample2.wishes1
    (snd (ProductCrud.deleteProductController Sample.prod1 Sample.catalogue1))
  = [(Wishlist.mkItem Sample2.wish1 Sample.alice Sample.prod1 300, None)].
Proof.
  rewrite (wish_survives_its_product Sample.prod1 Sample.alice Sample2.wishes1
             Sample.catalogue1).
  - by vm_compute.
  - apply (bool_decide_unpack _). by vm_compute.
Defined.

Section UpsertHandlerProperties.
Import Product.

(** X25.  The upsert handler never changes or removes a stored product:
    either it answers 201 and the catalogue is the old one followed by
    one new product that meets the schema, or it answers 200, 400 or 500
    and the catalogue is the one before.  Its own test does not ask for
    an image, which the schema requires: a request that passes the test,
    matches no stored product and has no image is answered with 500. *)
Theorem upsert_handler_only_appends (newId : ObjectId) (body : ProductData) (coll : Products) :
  ((status (fst (upsertProductFromClarifaiController newId body coll)) = 201 ∧
    snd (upsertProductFromClarifaiController newId body coll)
      = (coll ++ [mkProduct newId (with_defaults (clarifai_product body))])%list ∧
    valid (clarifai_product body) = true) ∨
   (status (fst (upsertProductFromClarifaiController newId body coll)) ∈ [200; 400; 500] ∧
    snd (upsertProductFromClarifaiController newId body coll) = coll)) ∧
  (has_required_fields body = true →
   findOne (by_name_brand_type_color (name body) (brand body) (type body) (color body)) coll
     = None →
   truthy (image body) = false →
   upsertProductFromClarifaiController newId body coll
     = (mkResponse 500 (json_error "Product validation failed"), coll)).
Proof.
  split.
  - unfold upsertProductFromClarifaiController.
    destruct (_ || negb (truthy (link body))).
    { right. simpl. split; [by (apply (bool_decide_unpack _); vm_compute)|done]. }
    destruct (findOne _ coll) as [e|].
    { right. simpl. split; [by (apply (bool_decide_unpack _); vm_compute)|done]. }
    unfold create. destruct (valid (clarifai_product body)) eqn:Hv; simpl.
    + by left.
    + right. split; [by (apply (bool_decide_unpack _); vm_compute)|done].
  - intros Hreq Hfind Himg. unfold upsertProductFromClarifaiController.
    rewrite (has_required_fields_test _ Hreq), Hfind.
    rewrite create_invalid; [done|].
    unfold valid. simpl. rewrite Himg. by rewrite !andb_false_r.
Qed.

End UpsertHandlerProperties.

Section SchemeProperties.
Import AuthToken.
Context {jwt : JwtLibrary}.

(** X26.  The middleware reads the second word of the header and nothing
    else of the request: whatever stands before the first space, the word
    after it is verified as the token, and the user id that the request
    body carried is replaced by the token's. *)
Theorem verifyToken_reads_the_second_word
    (env : option string) (scheme token : string) (claimed : option string) (now : Z) :
  no_space scheme = true → no_space token = true →
  verifyToken env (mkRequest (Some (scheme ++ " " ++ token)) claimed) now
  = match verify (Some token) (JWT_SECRET env) now with
    | inl _ => Responded (mkResponse 403 (json_message "Failed to authenticate token"))
    | inr decoded =>
        Next (mkRequest (Some (scheme ++ " " ++ token)) (decoded_userId decoded))
    end.
Proof.
  intros Hscheme Htoken. unfold verifyToken. cbn [authorization].
  assert (truthy (Some (scheme ++ " " ++ token)) = true) as ->.
  { unfold truthy. apply negb_true_iff, String.eqb_neq. by destruct scheme. }
  cbn [negb default from_option]. unfold bearer_token, id.
  change (scheme ++ " " ++ token) with (scheme ++ String " " token).
  rewrite split_scheme by done. by rewrite split_no_space.
Qed.

End SchemeProperties.

Lemma verifyToken_reads_the_second_word_witness :
  AuthToken.verifyToken (H := ToyJwt.toy) None
    (AuthToken.mkRequest
       (Some ("Basic " ++ AuthToken.generateToken (H := ToyJwt.toy) None Sample.bob 100))
       (Some Sample.alice))
    200
  = AuthToken.Next
      (AuthToken.mkRequest
         (Some ("Basic " ++ AuthToken.generateToken (H := ToyJwt.toy) None Sample.bob 100))
         (Some Sample.bob)).
Proof.
  assert (AuthToken.no_space "Basic" = true) as Hscheme by (by vm_compute).
  assert (AuthToken.no_space (AuthToken.generateToken (H := ToyJwt.toy) None Sample.bob 100)
          = true) as Htoken by (by vm_compute).
  exact (eq_trans
           (verifyToken_reads_the_second_word (jwt := ToyJwt.toy) None "Basic"
              (AuthToken.generateToken (H := ToyJwt.toy) None Sample.bob 100)
              (Some Sample.alice) 200%Z Hscheme Htoken)
           eq_refl).
Defined.
(** ** Updating a product, the delete services, and the profile photo *)

Section ProductUpdateProperties.
Import Product ProductCrud.

Lemma product_update_missing (id : ObjectId) (upd : ProductData) (coll : Products) :
  findById id coll = None → findByIdAndUpdate id upd coll = (None, coll).
Proof.
  unfold findById. induction coll as [|q coll IH]; simpl; [done|].
  case_bool_decide as Hq; [done|]. intros Hnone.
  rewrite decide_False by done. by rewrite (IH Hnone).
Qed.

Lemma product_update_found (id : ObjectId) (upd : ProductData) (coll : Products)
    (p : ProductDocument) :
  findById id coll = Some p →
  fst (findByIdAndUpdate id upd coll) = Some (mkProduct id (apply_update upd (doc p))) ∧
  findById id (snd (findByIdAndUpdate id upd coll))
    = Some (mkProduct id (apply_update upd (doc p))).
Proof.
  unfold findById. induction coll as [|q coll IH]; simpl; [done|].
  case_bool_decide as Hq.
  - intros [= ->]. rewrite decide_True by done. simpl.
    rewrite bool_decide_eq_true_2 by done. by rewrite Hq.
  - intros Hfind. rewrite decide_False by done.
    destruct (IH Hfind) as [Hfst Hsnd].
    destruct (findByIdAndUpdate id upd coll) as [r rest]. simpl in *.
    by rewrite bool_decide_eq_false_2.
Qed.

Lemma product_update_others (id id' : ObjectId) (upd : ProductData) (coll : Products) :
  id' ≠ id → findById id' (snd (findByIdAndUpdate id upd coll)) = findById id' coll.
Proof.
  intros Hne. unfold findById. induction coll as [|q coll IH]; simpl; [done|].
  case_decide as Hq; simpl.
  - rewrite bool_decide_eq_false_2 by congruence. done.
  - destruct (findByIdAndUpdate id upd coll) as [r rest]. simpl in *. by rewrite IH.
Qed.

(** X27.  The update handler changes one product and only the fields the
    request gives: for a missing id it answers 404 and keeps the
    catalogue; for a stored id it answers 200, the get handler then
    returns the stored product with each given field replaced and each
    other field kept, every other id is found as before, and the ids of
    the catalogue and their order are unchanged. *)
Theorem updateProductController_changes_given_fields
    (id : ObjectId) (body : ProductData) (coll : Products) :
  (findById id coll = None →
   updateProductController id body coll
     = (mkResponse 404 (json_message "Product not found"), coll)) ∧
  (∀ p, findById id coll = Some p →
     fst (updateProductController id body coll)
       = mkResponse 200
           (JObj [("message", JStr "Product updated successfully");
                  ("product", product_json (mkProduct id (apply_update body (doc p))))]) ∧
     getProductByIdController id (snd (updateProductController id body coll))
       = mkResponse 200
           (JObj [("product", product_json (mkProduct id (apply_update body (doc p))))]) ∧
     (∀ id', id' ≠ id →
        getProductByIdController id' (snd (updateProductController id body coll))
          = getProductByIdController id' coll)) ∧
  map _id (snd (updateProductController id body coll)) = map _id coll.
Proof.
  split_and!.
  - intros Hnone. unfold updateProductController. by rewrite product_update_missing.
  - intros p Hfind.
    destruct (product_update_found id body coll p Hfind) as [Hfst Hsnd].
    pose proof (λ id', product_update_others id id' body coll) as Hothers.
    unfold updateProductController, getProductByIdController.
    destruct (findByIdAndUpdate id body coll) as [r coll']. simpl in *. subst r. simpl.
    split_and!; [done| by rewrite Hsnd |].
    intros id' Hne. by rewrite Hothers.
  - pose proof (findByIdAndUpdate_ids id body coll) as Hids.
    unfold updateProductController.
    by destruct (findByIdAndUpdate id body coll) as [[r|] coll'].
Qed.

(** X28.  The delete services of products and posts, which no handler
    calls, leave the same store as the handlers that work on the model,
    and fail exactly where those answer 404. *)
Theorem delete_services_agree_with_handlers :
  (∀ (id : ObjectId) (coll : Products),
     snd (deleteProduct id coll) = snd (deleteProductController id coll) ∧
     (fst (deleteProduct id coll) = inl "Failed to delete product"
      ↔ status (fst (deleteProductController id coll)) = 404)) ∧
  (∀ (id : ObjectId) (db : OOTDPost.Db),
     snd (OOTDPostCrud.deleteOOTDPost id (OOTDPost.posts db))
       = OOTDPost.posts (snd (OOTDPostCrud.deleteOOTDPostController id db)) ∧
     (fst (OOTDPostCrud.deleteOOTDPost id (OOTDPost.posts db))
        = inl "Failed to delete OOTD post"
      ↔ status (fst (OOTDPostCrud.deleteOOTDPostController id db)) = 404)).
Proof.
  split.
  - intros id coll. unfold deleteProduct, deleteProductController.
    destruct (findById id coll) as [p|] eqn:Hfind.
    + rewrite (findById_id _ _ _ Hfind).
      pose proof (findByIdAndDelete_found _ _ _ Hfind) as Hfst.
      destruct (findByIdAndDelete id coll) as [r coll']. simpl in *. subst r. simpl.
      split; [done|]. split; [done|]. intros H. exfalso. lia.
    + rewrite (findByIdAndDelete_missing _ _ Hfind). simpl. done.
  - intros id db. unfold OOTDPostCrud.deleteOOTDPost, OOTDPostCrud.deleteOOTDPostController.
    destruct (OOTDPost.posts db !! id) as [p|]; simpl.
    + split; [done|]. split; [done|]. intros H. exfalso. lia.
    + done.
Qed.

End ProductUpdateProperties.

Section ProfilePhotoProperties.
Import Account.

(** X29.  Removing the profile photo clears the photo and nothing else:
    the account keeps its bio, website, name, email and password hash,
    every other account is found as before, and a following add request
    that carries a photo sets it. *)
Theorem removeProfilePhoto_clears_only_the_photo
    (id : ObjectId) (coll : Users) (user : UserDocument) :
  getUserById id coll = Some user →
  getUserById id (snd (removeProfilePhotoController id coll))
    = Some (mkUser (_id user) (username user) (email user) (passwordHash user)
              (bio user) None (website user)) ∧
  (∀ other, other ≠ id →
     getUserById other (snd (removeProfilePhotoController id coll))
       = getUserById other coll) ∧
  (∀ photo, photo ≠ "" →
     getUserById id
       (snd (addProfileController id None (Some photo) None
               (snd (removeProfilePhotoController id coll))))
       = Some (mkUser (_id user) (username user) (email user) (passwordHash user)
                 (bio user) (Some photo) (website user))).
Proof.
  intros Hfind. pose proof (getUserById_id _ _ _ Hfind) as Hid.
  unfold removeProfilePhotoController. rewrite Hfind. simpl.
  set (cleared := set_profile (bio user) None (website user) user).
  assert (Hfind1 : getUserById id (save cleared coll) = Some cleared).
  { by apply (getUserById_save id coll _ user). }
  split_and!.
  - exact Hfind1.
  - intros other Hne. apply save_other. simpl. congruence.
  - intros photo Hphoto.
    rewrite (addProfileController_found _ _ _ _ _ _ Hfind1). simpl.
    erewrite getUserById_save; [|exact Hfind1|by simpl].
    unfold added, set_profile, cleared. simpl.
    assert (negb (String.eqb photo "") = true) as ->.
    { apply negb_true_iff. by apply String.eqb_neq. }
    by rewrite !andb_false_r.
Qed.

End ProfilePhotoProperties.

Lemma removeProfilePhoto_clears_only_the_photo_witness :
  Account.getUserById Sample.alice
    (snd (Account.removeProfilePhotoController Sample.alice Sample2.accounts2))
  = Some (Account.mkUser Sample.alice "alice" "alice@example.com" "$toy$secret1"
            (Some "") None (Some "")).
Proof.
  assert (Account.getUserById Sample.alice Sample2.accounts2
          = Some (Account.mkUser Sample.alice "alice" "alice@example.com" "$toy$secret1"
                    (Some "") None (Some ""))) as Hfind by (by vm_compute).
  destruct (removeProfilePhoto_clears_only_the_photo Sample.alice Sample2.accounts2 _ Hfind)
    as (Hcleared & _ & _).
  exact Hcleared.
Defined.
